(** * Recharge bot: the conversation state machines of [index.js]

    The repository holds two near-copies of the bot: [index.js] (the
    payment-proof funnel: offer, payment type, payment method,
    screenshot) and a second file (the fields funnel: several offers,
    then the custom fields of the game).  Both share the helper
    functions, the data-access layer and the operator dialogs.

    Conventions of the embedding.
    - A JavaScript string is the list of its UTF-16 code units
      ([jsstring]); regular expressions without the [u] flag work on
      code units, and so do the definitions below.
    - A JavaScript number that holds a menu index, a price in CUP or a
      row identifier is an integer ([Z]); [null] and [NaN] results are
      [None].  The model keeps the exact integer: the two agree below
      [2^53].
    - The tables of the Supabase project are fields of [World]; every
      data-access function of the source is a computation in the monad
      [M], which threads the world, records the calls it makes and
      propagates thrown errors. *)

From Stdlib Require Import ZArith NArith Lia Ascii String DecimalString
  DecimalPos.
From stdpp Require Import base option list gmap.

Local Open Scope Z_scope.

(** ** JavaScript strings *)

Module Js.

Abbreviation jsstring := (list N).

(** An ASCII literal of the source as code units. *)
Definition lit (s : string) : jsstring :=
  List.map N_of_ascii (list_ascii_of_string s).

Definition is_digit (c : N) : bool := ((48 <=? c) && (c <=? 57))%N.

Definition digit_val (c : N) : Z := Z.of_N c - 48.

(** The value of a run of decimal digits, most significant first. *)
Definition digits_value (ds : jsstring) : Z :=
  fold_left (fun acc c => 10 * acc + digit_val c) ds 0.

(** [WhiteSpace] and [LineTerminator] of ECMAScript: the characters
    removed by [String.prototype.trim] and matched by [\s]. *)
Definition is_space (c : N) : bool :=
  ((9 <=? c) && (c <=? 13) || (c =? 32) || (c =? 160) || (c =? 5760)
   || (8192 <=? c) && (c <=? 8202) || (c =? 8232) || (c =? 8233)
   || (c =? 8239) || (c =? 8287) || (c =? 12288) || (c =? 65279))%N.

(** [LineTerminator]: what [.] in a regular expression refuses. *)
Definition is_line_terminator (c : N) : bool :=
  ((c =? 10) || (c =? 13) || (c =? 8232) || (c =? 8233))%N.

Fixpoint drop_while (p : N -> bool) (s : jsstring) : jsstring :=
  match s with
  | [] => []
  | c :: s' => if p c then drop_while p s' else s
  end.

Fixpoint take_while (p : N -> bool) (s : jsstring) : jsstring :=
  match s with
  | [] => []
  | c :: s' => if p c then c :: take_while p s' else []
  end.

Definition trimStart (s : jsstring) : jsstring := drop_while is_space s.

Definition trimEnd (s : jsstring) : jsstring :=
  rev (drop_while is_space (rev s)).

(** [s.trim()] *)
Definition trim (s : jsstring) : jsstring := trimEnd (trimStart s).

(** [s.split(/[sep]+/)]: the pieces between the maximal runs of
    separator characters; a leading or trailing run leaves an empty
    first or last piece, and the empty string gives one empty piece. *)
Fixpoint split_runs (sep : N -> bool) (s : jsstring) (after_sep : bool)
  : list jsstring :=
  match s with
  | [] => [[]]
  | c :: s' =>
      if sep c then
        if after_sep then split_runs sep s' true
        else [] :: split_runs sep s' true
      else
        match split_runs sep s' false with
        | piece :: pieces => (c :: piece) :: pieces
        | [] => [[c]]
        end
  end.

Definition split (sep : N -> bool) (s : jsstring) : list jsstring :=
  split_runs sep s false.

(** [pieces.join(sep)] *)
Fixpoint join (sep : jsstring) (pieces : list jsstring) : jsstring :=
  match pieces with
  | [] => []
  | [p] => p
  | p :: ps => p ++ sep ++ join sep ps
  end.

(** [s.replace(/[cls]/g, '')] *)
Definition remove_all (cls : N -> bool) (s : jsstring) : jsstring :=
  List.filter (fun c => negb (cls c)) s.

(** [a === b] *)
Definition eqb (a b : jsstring) : bool := bool_decide (a = b).

(** [s.startsWith(p)] *)
Fixpoint is_prefix (p s : jsstring) : bool :=
  match p, s with
  | [], _ => true
  | _ :: _, [] => false
  | a :: p', b :: s' => (a =? b)%N && is_prefix p' s'
  end.

(** [s.includes(needle)] *)
Fixpoint includes (needle s : jsstring) : bool :=
  is_prefix needle s ||
  match s with
  | [] => false
  | _ :: s' => includes needle s'
  end.

(** The regular expressions of the source that are more than one
    character class: literals, sequence, alternation and [?]. *)
Inductive Regex :=
| RLit (l : jsstring)
| RSeq (a b : Regex)
| RAlt (a b : Regex)
| ROpt (a : Regex).

(** Backtracking match of [r] at the start of [s]; [k] is what has to
    match after it. *)
Fixpoint match_here (r : Regex) (s : jsstring) (k : jsstring -> bool) : bool :=
  match r with
  | RLit l => is_prefix l s && k (drop (length l) s)
  | RSeq a b => match_here a s (fun s' => match_here b s' k)
  | RAlt a b => match_here a s k || match_here b s k
  | ROpt a => match_here a s k || k s
  end.

(** [r.test(s)] for a pattern without anchors: a match at some
    position. *)
Fixpoint regex_test (r : Regex) (s : jsstring) : bool :=
  match_here r s (fun _ => true) ||
  match s with
  | [] => false
  | _ :: s' => regex_test r s'
  end.

(** [n.toString()] for an integer. *)
Definition toString (n : Z) : jsstring :=
  lit (NilZero.string_of_int (Z.to_int n)).

(** The parts of the JavaScript runtime that depend on the Unicode
    character database.  They are taken as an interface: the theorems
    hold for every implementation, and [Latin1] below is the one used to
    evaluate the handlers on concrete messages. *)
Class Unicode := {
  toLowerCase : jsstring -> jsstring;
  normalizeNFD : jsstring -> jsstring
}.

(** Simple case mapping of one code unit below U+0100. *)
Definition latin1_lower (c : N) : N :=
  (if (65 <=? c) && (c <=? 90) then c + 32
   else if (192 <=? c) && (c <=? 222) && negb (c =? 215) then c + 32
   else c)%N.

(** Canonical decomposition of one code unit below U+0100: the
    precomposed letters of the Latin-1 supplement split into a base
    letter and a combining mark; nothing else decomposes. *)
Definition latin1_decompose (c : N) : jsstring :=
  (if (192 <=? c) && (c <=? 255) then
     let up := c <? 224 in
     let base (l : N) := if up then l else l + 32 in
     match N.to_nat (c mod 32) with
     | 0%nat => [base 65; 768] | 1%nat => [base 65; 769]
     | 2%nat => [base 65; 770] | 3%nat => [base 65; 771]
     | 4%nat => [base 65; 776] | 5%nat => [base 65; 778]
     | 7%nat => [base 67; 807]
     | 8%nat => [base 69; 768] | 9%nat => [base 69; 769]
     | 10%nat => [base 69; 770] | 11%nat => [base 69; 776]
     | 12%nat => [base 73; 768] | 13%nat => [base 73; 769]
     | 14%nat => [base 73; 770] | 15%nat => [base 73; 776]
     | 17%nat => [base 78; 771]
     | 18%nat => [base 79; 768] | 19%nat => [base 79; 769]
     | 20%nat => [base 79; 770] | 21%nat => [base 79; 771]
     | 22%nat => [base 79; 776]
     | 25%nat => [base 85; 768] | 26%nat => [base 85; 769]
     | 27%nat => [base 85; 770] | 28%nat => [base 85; 776]
     | 29%nat => [base 89; 769]
     | 31%nat => if up then [c] else [121; 776]
     | _ => [c]
     end
   else [c])%N.

(** The runtime restricted to Latin-1 text: it agrees with
    [String.prototype.toLowerCase] and [normalize("NFD")] on every
    string whose code units are below U+0100. *)
Definition Latin1 : Unicode := {|
  toLowerCase s := List.map latin1_lower s;
  normalizeNFD s := List.concat (List.map latin1_decompose s)
|}.

End Js.

Export Js.

(** ** JavaScript numbers read from text *)

Module Num.

(** The value of a numeric literal: [NaN], an infinity, or the decimal
    [m * 10^e].  JavaScript rounds the decimal to the nearest double;
    the model keeps the decimal itself. *)
Inductive JsNumber :=
| JsNaN
| JsInfinity (negative : bool)
| JsDecimal (m e : Z).

Definition isNaN (x : JsNumber) : bool :=
  match x with JsNaN => true | _ => false end.

(** A decimal rounds to a finite double exactly when its magnitude is
    below [2^1024 - 2^970]. *)
Definition overflow_bound : Z := 2 ^ 1024 - 2 ^ 970.

Definition number_isFinite (x : JsNumber) : bool :=
  match x with
  | JsDecimal m e =>
      if 0 <=? e then Z.abs m * 10 ^ e <? overflow_bound
      else Z.abs m <? overflow_bound * 10 ^ (- e)
  | _ => false
  end.

(** [parseInt(s, 10)]: leading white space is skipped, a sign is read,
    then the longest run of decimal digits; [None] stands for [NaN]. *)
Definition parseInt (s : jsstring) : option Z :=
  let s1 := trimStart s in
  let '(neg, s2) :=
    match s1 with
    | 45%N :: r => (true, r)
    | 43%N :: r => (false, r)
    | _ => (false, s1)
    end in
  let ds := take_while is_digit s2 in
  match ds with
  | [] => None
  | _ => Some (if neg then - digits_value ds else digits_value ds)
  end.

(** [ExponentPart] after the mantissa: [e] or [E], a sign, one digit at
    least.  Returns the exponent and the text left; when no exponent
    follows, the exponent is zero and nothing is consumed. *)
Definition read_exponent (s : jsstring) : Z * jsstring :=
  match s with
  | c :: r =>
      if ((c =? 101) || (c =? 69))%N then
        let '(neg, r1) :=
          match r with
          | 45%N :: r' => (true, r')
          | 43%N :: r' => (false, r')
          | _ => (false, r)
          end in
        let ds := take_while is_digit r1 in
        match ds with
        | [] => (0, s)
        | _ => (if neg then - digits_value ds else digits_value ds,
                drop_while is_digit r1)
        end
      else (0, s)
  | [] => (0, s)
  end.

(** The longest prefix that is a [StrUnsignedDecimalLiteral], with the
    text left after it. *)
Definition read_unsigned_decimal (s : jsstring) : option (JsNumber * jsstring) :=
  if is_prefix (lit "Infinity") s then
    Some (JsInfinity false, drop 8 s)
  else
    let ip := take_while is_digit s in
    let r1 := drop_while is_digit s in
    match r1 with
    | 46%N :: r2 =>
        let fp := take_while is_digit r2 in
        let r3 := drop_while is_digit r2 in
        match ip, fp with
        | [], [] => None
        | _, _ =>
            let '(ex, r4) := read_exponent r3 in
            Some (JsDecimal (digits_value (ip ++ fp))
                            (ex - Z.of_nat (length fp)), r4)
        end
    | _ =>
        match ip with
        | [] => None
        | _ =>
            let '(ex, r4) := read_exponent r1 in
            Some (JsDecimal (digits_value ip) ex, r4)
        end
    end.

Definition negate (x : JsNumber) : JsNumber :=
  match x with
  | JsNaN => JsNaN
  | JsInfinity b => JsInfinity (negb b)
  | JsDecimal m e => JsDecimal (- m) e
  end.

(** The longest prefix that is a [StrDecimalLiteral] (optional sign). *)
Definition read_decimal (s : jsstring) : option (JsNumber * jsstring) :=
  match s with
  | 45%N :: r =>
      match read_unsigned_decimal r with
      | Some (x, r') => Some (negate x, r')
      | None => None
      end
  | 43%N :: r => read_unsigned_decimal r
  | _ => read_unsigned_decimal s
  end.

(** [parseFloat(s)] *)
Definition parseFloat (s : jsstring) : JsNumber :=
  match read_decimal (trimStart s) with
  | Some (x, _) => x
  | None => JsNaN
  end.

(** Digits of a [NonDecimalIntegerLiteral] in the given radix. *)
Definition radix_digit (radix : Z) (c : N) : option Z :=
  let v :=
    if ((48 <=? c) && (c <=? 57))%N then Z.of_N c - 48
    else if ((97 <=? c) && (c <=? 102))%N then Z.of_N c - 87
    else if ((65 <=? c) && (c <=? 70))%N then Z.of_N c - 55
    else radix in
  if v <? radix then Some v else None.

Fixpoint radix_value (radix : Z) (s : jsstring) (acc : Z) : option Z :=
  match s with
  | [] => Some acc
  | c :: r =>
      match radix_digit radix c with
      | Some v => radix_value radix r (radix * acc + v)
      | None => None
      end
  end.

(** [ToNumber] of a string ([StringNumericLiteral]): the whole text,
    white space around it apart, is a decimal literal or a binary,
    octal or hexadecimal integer; the empty text is zero. *)
Definition toNumber (s : jsstring) : JsNumber :=
  let t := trim s in
  match t with
  | [] => JsDecimal 0 0
  | 48%N :: p :: ((_ :: _) as ds) =>
      let radix :=
        if ((p =? 120) || (p =? 88))%N then 16
        else if ((p =? 111) || (p =? 79))%N then 8
        else if ((p =? 98) || (p =? 66))%N then 2
        else 0 in
      if radix =? 0 then
        match read_decimal t with
        | Some (x, []) => x
        | _ => JsNaN
        end
      else
        match radix_value radix ds 0 with
        | Some v => JsDecimal v 0
        | None => JsNaN
        end
  | _ =>
      match read_decimal t with
      | Some (x, []) => x
      | _ => JsNaN
      end
  end.

(** The global [isFinite(s)] applied to a string. *)
Definition isFinite (s : jsstring) : bool := number_isFinite (toNumber s).

End Num.

Export Num.

(** ** Helpers of [index.js] *)

(** The keycap glyph of a digit: the digit, U+FE0F, U+20E3. *)
Definition keycap (d : N) : jsstring := [(48 + d)%N; 65039%N; 8419%N].

(** U+1F51F, the keycap ten, as its surrogate pair. *)
Definition keycap_ten : jsstring := [55357%N; 56607%N].

Definition emoji_map : list jsstring :=
  List.map keycap [0; 1; 2; 3; 4; 5; 6; 7; 8; 9]%N ++ [keycap_ten].

(** [numberToEmoji(num)]: [map[num] || num.toString()]. *)
Definition numberToEmoji (num : Z) : jsstring :=
  if (0 <=? num) && (num <=? 10) then
    match nth_error emoji_map (Z.to_nat num) with
    | Some e => e
    | None => toString num
    end
  else toString num.

(** [emojiToNumber(str)]: every code unit that is not an ASCII digit is
    removed; what is left is read in base ten, and [null] is returned
    when nothing is left. *)
Definition emojiToNumber (str : jsstring) : option Z :=
  let clean := remove_all (fun c => negb (is_digit c)) str in
  match clean with
  | [] => None
  | _ => Some (digits_value clean)
  end.

(** [!n] for a value that is a number or [null]. *)
Definition falsy (n : option Z) : bool :=
  match n with
  | None => true
  | Some v => v =? 0
  end.

(** ** Rows of the tables *)

Inductive PayType := card | mobile.

Record Game := mkGame {
  g_id : Z; g_number : Z; g_name : jsstring; g_description : jsstring
}.

Record Offer := mkOffer {
  o_id : Z; o_game_id : Z; o_number : Z; o_description : jsstring;
  o_price_mobile : option Z; o_price_card : option Z;
  o_price_usd : option JsNumber
}.

Record GameField := mkGameField {
  f_game_id : Z; f_name : jsstring; f_order : Z; f_required : bool
}.

(** The [details] object of a payment method. *)
Record Details := mkDetails {
  card_number : option jsstring;
  confirm_number : option jsstring;
  phone_number : option jsstring
}.

Record PaymentMethod := mkPaymentMethod {
  m_id : Z; m_type : PayType; m_number : Z; m_label : jsstring;
  m_details : Details
}.

Inductive ReqStatus := pending | completed.

(** [payment_details] of a request: the details of the chosen method
    ([index.js]) or [{ field_values }] (the fields funnel). *)
Inductive PaymentDetails :=
| DetailsOfMethod (d : Details)
| DetailsOfFields (field_values : option (gmap jsstring jsstring)).

(** A row of [requests]; the key of the table is the request id. *)
Record Request := mkRequest {
  r_user_jid : jsstring;
  r_game_name : jsstring;
  r_offer_desc : jsstring;
  r_payment_method : jsstring;
  r_payment_details : PaymentDetails;
  r_screenshot_url : option jsstring;
  r_status : ReqStatus;
  r_completed_at : option Z
}.

(** One accumulated line of the bulk offer dialog; [None] prices stand
    for [NaN]. *)
Record OfferDraft := mkOfferDraft {
  od_number : Z; od_desc : jsstring;
  od_mobile : option Z; od_card : option Z; od_usd : option JsNumber
}.

Inductive DialogCommand :=
| crear_tarjeta | crear_saldo | crear_tabla | anadir_ofertas
| editar_juego | editar_oferta | editar_metodo.

(** The [data] object of an operator dialog, one shape per command. *)
Inductive DialogData :=
| DataEmpty
| DataTable (lines : list jsstring)
| DataOffers (game_id : Z) (game_number : option Z) (offers : list OfferDraft)
| DataEditGame (game_id : Z) (game_number : option Z)
| DataEditOffer (offer_id : Z) (game_name : jsstring)
| DataEditMethod (method_id : Z) (type : PayType) (method_number : option Z)
(* what the steps of a dialog add to the object it was started with *)
| DataMethodDraft (number : option Z) (label card_number : option jsstring)
| DataEditOfferDraft (offer_id : Z) (game_name : jsstring)
    (new_desc : option jsstring) (new_mobile new_card : option Z)
| DataEditMethodDraft (method_id : Z) (type : PayType)
    (method_number : option Z) (new_label : option jsstring).

Record Dialog := mkDialog {
  d_command : DialogCommand; d_step : Z; d_data : DialogData
}.

(** The object given to [updateOffer]: a column is written when the
    object holds a value for it; a property that is [undefined] is not
    sent.  [price_usd] is a number or [null]. *)
Record OfferUpdates := mkOfferUpdates {
  u_description : option jsstring;
  u_price_mobile : option Z;
  u_price_card : option Z;
  u_price_usd : option (option JsNumber)
}.

(** The object given to [updatePaymentMethod]. *)
Record MethodUpdates := mkMethodUpdates {
  u_label : option jsstring;
  u_details : option Details
}.

(** What a failed store call reports. *)
Inductive Exn :=
| DuplicateKey      (* a unique constraint rejects the insert *)
| NullKey           (* the primary key of the row is null *)
| MultipleRows      (* [maybeSingle] found more than one row *)
| UploadFailed      (* download or upload of the attachment failed *)
| TypeError.        (* a property of [null] or [undefined] was read *)

(** ** Outbound messages

    Every text literal or template of the source that is sent over the
    chat is one constructor, named after what it says and carrying the
    interpolated values; the line numbers are those of [index.js], or
    of the fields funnel where marked (F). *)

Inductive Msg :=
(* client funnel, both files *)
| MainMenu (games : list Game)                  (* 550-555 *)
| NoGamesAvailable                              (* 547 *)
| InvalidGameNumber                             (* 314 *)
| GameDoesNotExist                              (* 319 *)
| GameHasNoOffers                               (* 324 *)
| GameNotFoundRestart                           (* 347 *)
(* client funnel of index.js *)
| OfferList (g : Game) (offers : list Offer)    (* 327-333 *)
| InvalidOfferNumber                            (* 342 *)
| OfferNotFound                                 (* 353 *)
| ChoosePaymentType (cards mobiles : bool)      (* 359-368, 528-531 *)
| NoPaymentMethodsConfigured                    (* 363 *)
| InvalidPaymentType                            (* 376 *)
| NoMethodsOfThatType                           (* 382 *)
| MethodList (ty : PayType) (methods : list PaymentMethod) (* 385-389 *)
| InvalidMethodNumber                           (* 398 *)
| MethodNotFound                                (* 403 *)
| InternalErrorRestart                          (* 409 *)
| PaymentInfo (request_id : jsstring) (g : Game) (o : Offer)
    (m : PaymentMethod)                         (* 417-426 *)
| ScreenshotRequired                            (* 439 *)
| NewRequest (request_id : option jsstring) (user : jsstring)
    (game_name offer_desc method_label url : jsstring) (* 473-480 *)
| RequestSent (request_id : option jsstring)    (* 483 *)
| ScreenshotError                               (* 487 *)
| BackOfferList (g : Game) (offers : list Offer) (* 515-519 *)
| BackFromScreenshot                            (* 537 *)
(* client funnel of the fields file *)
| OfferListMulti (g : Game) (offers : list Offer) (* F 380-386 *)
| NoNumbersRecognized                           (* F 396 *)
| OfferNumberDoesNotExist (num : Z)             (* F 411 *)
| AskFirstField (name : jsstring)               (* F 427 *)
| AskNextField (name : jsstring)                (* F 454 *)
| NewRequestWithFields (user : jsstring) (g : Game)
    (offers : list Offer) (field_values : gmap jsstring jsstring)
    (request_id : jsstring)                     (* F 486-499 *)
| RequestSentAwaitContact (request_id : jsstring) (* F 502 *)
| BackOfferListMulti (g : Game) (offers : list Offer) (* F 526-530 *)
(* operator commands *)
| AskCardIndex                                  (* 567 *)
| AskMobileIndex                                (* 572 *)
| AskTableLines                                 (* 577 *)
| AddOffersNeedsGameNumber                      (* 583 *)
| ThatGameDoesNotExist                          (* 588 *)
| AddingOffers (game_name : jsstring)           (* 592 *)
| AdminGameNotFound                             (* 601, 613, 654, ... *)
| EditingGame (game_name : jsstring)            (* 605 *)
| AdminOfferNotFound                            (* 618, 710 *)
| EditingOffer (description : jsstring)         (* 622 *)
| AdminPaymentMethodNotFound                    (* 630 *)
| EditingMethod (label : jsstring)              (* 634 *)
| NoGames                                       (* 642 *)
| GamesListing (games : list Game)              (* 645-646 *)
| NoOffersForGame                               (* 659 *)
| OffersListing (g : Game) (offers : list Offer) (* 662-667 *)
| MethodsListing (cards mobiles : list PaymentMethod) (* 674-683 *)
| GameDeleted (game_name : jsstring)            (* 697 *)
| OfferDeleted (description : jsstring)         (* 714 *)
| AdminMethodNotFound                           (* 722 *)
| MethodDeleted (label : jsstring)              (* 726 *)
| RequestNotFound                               (* 735 *)
| RequestAlreadyCompleted                       (* 739 *)
| RechargeCompleted (game_name offer_desc : jsstring) (* 743 *)
| RequestMarkedCompleted (request_id : jsstring) (* 744 *)
| DialogCancelled                               (* 751, 766 *)
| UnknownCommand                                (* 755 *)
(* operator commands of the fields file *)
| FieldAdded (field_name game_name : jsstring)  (* F 604 *)
| FieldError (e : Exn)                          (* F 606, 622 *)
| FieldRemoved (field_name game_name : jsstring) (* F 620 *)
| GameHasNoFields (game_name : jsstring)        (* F 636 *)
| FieldsListing (g : Game) (fields : list GameField) (* F 638-642 *)
(* operator dialogs *)
| NoLinesReceived                               (* 876 *)
| GameCreateError (name : jsstring) (e : Exn)   (* 891 *)
| GamesCreated (success : Z)                    (* 896 *)
| LineAdded                                     (* 902 *)
| NoOffersAdded                                 (* 914 *)
| OfferCreateError (desc : jsstring) (e : Exn)  (* 924 *)
| OffersAdded (success : Z)                     (* 927 *)
| OfferLineBadFormat                            (* 933 *)
| OfferNumberInvalid                            (* 938 *)
| NoValidPrices                                 (* 954 *)
| OfferAccumulated (desc : jsstring)            (* 966 *)
(* [sendWithCancelHint]: the text followed by the cancel hint *)
| WithCancelHint (m : Msg)                      (* 287 *)
(* operator dialogs: payment methods *)
| InvalidIndexOrCancel                          (* 795 *)
| AskCardLabel                                  (* 801 *)
| AskCardNumber                                 (* 808 *)
| AskConfirmNumber                              (* 815 *)
| CardSaved (number : Z)                        (* 825 *)
| SaveError (e : Exn)                           (* 827, 863 *)
| InvalidIndexRetry                             (* 839 *)
| AskMobileLabel                                (* 845 *)
| AskPhoneNumber                                (* 852 *)
| MobileSaved (number : Z)                      (* 861 *)
(* operator dialogs: editions *)
| NameCannotBeEmpty                             (* 977 *)
| GameUpdated (name : jsstring)                 (* 982 *)
| UpdateError (e : Exn)                         (* 984, 1042 *)
| AskNewMobilePrice                             (* 997 *)
| InvalidPrice                                  (* 1003, 1015 *)
| AskNewCardPrice                               (* 1009 *)
| AskNewUsdPrice                                (* 1021 *)
| InvalidUsdPrice                               (* 1029 *)
| OfferUpdated                                  (* 1040 *)
| AskNewCardNumber                              (* 1056 *)
| AskNewPhoneNumber                             (* 1058 *)
| AskNewConfirmNumber                           (* 1074 *)
| MethodUpdated                                 (* 1080 *)
| ErrorReply (e : Exn)                          (* 1082, 1100 *)
| CardUpdated                                   (* 1098 *)
(* the reply to [/mid] *)
| MidReply (participant : jsstring).            (* 1166 *)

(** ** The store and the monad of the handlers *)

(** A call of a data-access function of the source, of the transport
    or of the blob storage, with its arguments. *)
Inductive Call (Patch : Type) :=
| CGetGames
| CGetGameByNumber (number : option Z)
| CGetGameById (id : Z)
| CCreateGame (number : Z) (name : jsstring)
| CUpdateGame (id : Z)
| CDeleteGame (id : Z)
| CGetOffersByGameId (game_id : Z)
| CGetOfferByGameAndNumber (game_id : Z) (number : option Z)
| CGetOfferById (id : option Z)
| CGetOffersByIds (ids : list Z)
| CCreateOffer (game_id : Z) (d : OfferDraft)
| CDeleteOffer (id : Z)
| CGetPaymentMethods (ty : PayType)
| CGetPaymentMethodByNumber (ty : option PayType) (number : option Z)
| CDeletePaymentMethod (id : Z)
| CGetGameFields (game_id : Z)
| CCreateGameField (game_id : Z) (name : jsstring) (order : Z)
| CDeleteGameField (game_id : Z) (name : jsstring)
| CGetUserSession (jid : jsstring)
| CUpdateUserSession (jid : jsstring) (updates : Patch)
| CCreateRequest (id : option jsstring) (r : Request)
| CGetRequest (id : jsstring)
| CCompleteRequest (id : jsstring)
| CGetAdminDialog (jid : jsstring)
| CSetAdminDialog (jid : jsstring) (d : Dialog)
| CClearAdminDialog (jid : jsstring)
| CUploadScreenshot (file_name : jsstring)
| CSendMessage (jid : jsstring) (m : Msg)
| CUpdateOffer (id : Z) (updates : OfferUpdates)
| CGetPaymentMethodById (id : Z)
| CCreatePaymentMethod (ty : PayType) (number : option Z)
    (label : option jsstring) (details : Details)
| CUpdatePaymentMethod (id : Z) (updates : MethodUpdates).

Arguments CGetGames {Patch}.
Arguments CGetGameByNumber {Patch}.
Arguments CGetGameById {Patch}.
Arguments CCreateGame {Patch}.
Arguments CUpdateGame {Patch}.
Arguments CDeleteGame {Patch}.
Arguments CGetOffersByGameId {Patch}.
Arguments CGetOfferByGameAndNumber {Patch}.
Arguments CGetOfferById {Patch}.
Arguments CGetOffersByIds {Patch}.
Arguments CCreateOffer {Patch}.
Arguments CDeleteOffer {Patch}.
Arguments CGetPaymentMethods {Patch}.
Arguments CGetPaymentMethodByNumber {Patch}.
Arguments CDeletePaymentMethod {Patch}.
Arguments CGetGameFields {Patch}.
Arguments CCreateGameField {Patch}.
Arguments CDeleteGameField {Patch}.
Arguments CGetUserSession {Patch}.
Arguments CUpdateUserSession {Patch}.
Arguments CCreateRequest {Patch}.
Arguments CGetRequest {Patch}.
Arguments CCompleteRequest {Patch}.
Arguments CGetAdminDialog {Patch}.
Arguments CSetAdminDialog {Patch}.
Arguments CClearAdminDialog {Patch}.
Arguments CUploadScreenshot {Patch}.
Arguments CSendMessage {Patch}.
Arguments CUpdateOffer {Patch}.
Arguments CGetPaymentMethodById {Patch}.
Arguments CCreatePaymentMethod {Patch}.
Arguments CUpdatePaymentMethod {Patch}.

(** How a session row is created and updated; each funnel has its own
    columns. *)
Class SessionModel (Sess Patch : Type) := {
  (* the row inserted as [{ user_jid, step: 'idle' }]: the other columns
     are [null] *)
  newSession : Sess;
  (* [.update({ ...updates })] *)
  applyPatch : Patch -> Sess -> Sess
}.

(** The state of the Supabase project and the clock. *)
Record World (Sess : Type) := mkWorld {
  games : list Game;
  offers : list Offer;
  game_fields : list GameField;
  payment_methods : list PaymentMethod;
  user_sessions : gmap jsstring Sess;
  requests : gmap jsstring Request;
  admin_dialogs : gmap jsstring Dialog;
  next_id : Z;        (* the next identifier the database hands out *)
  now : Z             (* [new Date()] *)
}.

Arguments mkWorld {Sess}.
Arguments games {Sess}.
Arguments offers {Sess}.
Arguments game_fields {Sess}.
Arguments payment_methods {Sess}.
Arguments user_sessions {Sess}.
Arguments requests {Sess}.
Arguments admin_dialogs {Sess}.
Arguments next_id {Sess}.
Arguments now {Sess}.

Inductive Outcome (A : Type) :=
| Ok (a : A)
| Thrown (e : Exn).

Arguments Ok {A}.
Arguments Thrown {A}.

(** One run of a handler: what it returned or threw, the world it
    left, and the calls it made, in order. *)
Record Run (Sess Patch A : Type) := mkRun {
  outcome : Outcome A;
  final : World Sess;
  calls : list (Call Patch)
}.

Arguments mkRun {Sess Patch A}.
Arguments outcome {Sess Patch A}.
Arguments final {Sess Patch A}.
Arguments calls {Sess Patch A}.

(** A handler: from the world it starts in to its run. *)
Definition M (Sess Patch A : Type) : Type := World Sess -> Run Sess Patch A.

Definition ret {Sess Patch A} (a : A) : M Sess Patch A :=
  fun w => mkRun (Ok a) w [].

Definition bind {Sess Patch A B} (m : M Sess Patch A)
  (k : A -> M Sess Patch B) : M Sess Patch B :=
  fun w =>
    match m w with
    | mkRun (Ok a) w1 l1 =>
        match k a w1 with
        | mkRun o w2 l2 => mkRun o w2 (l1 ++ l2)
        end
    | mkRun (Thrown e) w1 l1 => mkRun (Thrown e) w1 l1
    end.

Definition throw {Sess Patch A} (e : Exn) : M Sess Patch A :=
  fun w => mkRun (Thrown e) w [].

(** [try { m } catch (err) { h err }] *)
Definition try_catch {Sess Patch A} (m : M Sess Patch A)
  (h : Exn -> M Sess Patch A) : M Sess Patch A :=
  fun w =>
    match m w with
    | mkRun (Ok a) w1 l1 => mkRun (Ok a) w1 l1
    | mkRun (Thrown e) w1 l1 =>
        match h e w1 with
        | mkRun o w2 l2 => mkRun o w2 (l1 ++ l2)
        end
    end.

Definition gets {Sess Patch A} (f : World Sess -> A) : M Sess Patch A :=
  fun w => mkRun (Ok (f w)) w [].

Definition modify {Sess Patch} (f : World Sess -> World Sess)
  : M Sess Patch unit :=
  fun w => mkRun (Ok tt) (f w) [].

(** A call is recorded when it is made. *)
Definition call {Sess Patch} (c : Call Patch) : M Sess Patch unit :=
  fun w => mkRun (Ok tt) w [c].

Notation "'await' x <- m ; k" := (bind m (fun x => k))
  (at level 10, x name, m at level 100, k at level 200,
   format "'[v' 'await'  x  <-  m ; '/' k ']'").

Notation "'exec' m ; k" := (bind m (fun _ => k))
  (at level 10, m at level 100, k at level 200,
   format "'[v' 'exec'  m ; '/' k ']'").

Section Store.

Context {Sess Patch : Type} {SM : SessionModel Sess Patch}.

Definition set_games (v : list Game) (w : World Sess) :=
  mkWorld v (offers w) (game_fields w) (payment_methods w)
    (user_sessions w) (requests w) (admin_dialogs w) (next_id w) (now w).

Definition set_offers (v : list Offer) (w : World Sess) :=
  mkWorld (games w) v (game_fields w) (payment_methods w)
    (user_sessions w) (requests w) (admin_dialogs w) (next_id w) (now w).

Definition set_game_fields (v : list GameField) (w : World Sess) :=
  mkWorld (games w) (offers w) v (payment_methods w)
    (user_sessions w) (requests w) (admin_dialogs w) (next_id w) (now w).

Definition set_payment_methods (v : list PaymentMethod) (w : World Sess) :=
  mkWorld (games w) (offers w) (game_fields w) v
    (user_sessions w) (requests w) (admin_dialogs w) (next_id w) (now w).

Definition set_user_sessions (v : gmap jsstring Sess) (w : World Sess) :=
  mkWorld (games w) (offers w) (game_fields w) (payment_methods w)
    v (requests w) (admin_dialogs w) (next_id w) (now w).

Definition set_requests (v : gmap jsstring Request) (w : World Sess) :=
  mkWorld (games w) (offers w) (game_fields w) (payment_methods w)
    (user_sessions w) v (admin_dialogs w) (next_id w) (now w).

Definition set_admin_dialogs (v : gmap jsstring Dialog) (w : World Sess) :=
  mkWorld (games w) (offers w) (game_fields w) (payment_methods w)
    (user_sessions w) (requests w) v (next_id w) (now w).

Definition set_next_id (v : Z) (w : World Sess) :=
  mkWorld (games w) (offers w) (game_fields w) (payment_methods w)
    (user_sessions w) (requests w) (admin_dialogs w) v (now w).

(** *** Data access ([index.js] 57-222)

    A query answers from the tables of the world.  A store call fails
    only where a constraint of the table rejects it; failures of the
    network are not part of the model. *)

(** Stable insertion sort: [.order(col, { ascending: true })]. *)
Fixpoint insert_by {A} (key : A -> Z) (x : A) (l : list A) : list A :=
  match l with
  | [] => [x]
  | y :: l' => if key x <=? key y then x :: l else y :: insert_by key x l'
  end.

Definition order_by {A} (key : A -> Z) (l : list A) : list A :=
  fold_right (insert_by key) [] l.

(** [.maybeSingle()]: no row is [null], one row is the row, more rows
    are an error. *)
Definition maybeSingle {A} (rows : list A) : M Sess Patch (option A) :=
  match rows with
  | [] => ret None
  | [r] => ret (Some r)
  | _ => throw MultipleRows
  end.

(** Equality with a column is never true of a [null] argument. *)
Definition eq_col (v : option Z) (col : Z) : bool :=
  match v with
  | Some x => x =? col
  | None => false
  end.

Definition PayType_eqb (a b : PayType) : bool :=
  match a, b with
  | card, card | mobile, mobile => true
  | _, _ => false
  end.

(** The rows a query selects. *)
Definition games_in_order (w : World Sess) : list Game :=
  order_by g_number (games w).

Definition games_numbered (number : option Z) (w : World Sess) : list Game :=
  List.filter (fun g => eq_col number (g_number g)) (games w).

Definition offers_of_game (game_id : Z) (w : World Sess) : list Offer :=
  order_by o_number (List.filter (fun o => o_game_id o =? game_id) (offers w)).

Definition offers_numbered (game_id : Z) (number : option Z) (w : World Sess)
  : list Offer :=
  List.filter (fun o => (o_game_id o =? game_id) && eq_col number (o_number o))
    (offers w).

Definition offers_with_id (id : option Z) (w : World Sess) : list Offer :=
  List.filter (fun o => eq_col id (o_id o)) (offers w).

Definition offers_among (ids : list Z) (w : World Sess) : list Offer :=
  List.filter (fun o => existsb (fun i => i =? o_id o) ids) (offers w).

Definition methods_of_type (ty : PayType) (w : World Sess) : list PaymentMethod :=
  order_by m_number
    (List.filter (fun m => PayType_eqb (m_type m) ty) (payment_methods w)).

Definition methods_numbered (ty : option PayType) (number : option Z)
  (w : World Sess) : list PaymentMethod :=
  List.filter
    (fun m => match ty with
              | Some t => PayType_eqb (m_type m) t
              | None => false
              end && eq_col number (m_number m))
    (payment_methods w).

Definition fields_of_game (game_id : Z) (w : World Sess) : list GameField :=
  order_by f_order
    (List.filter (fun f => f_game_id f =? game_id) (game_fields w)).

Definition getGames : M Sess Patch (list Game) :=
  exec call CGetGames;
  gets games_in_order.

Definition getGameByNumber (number : option Z) : M Sess Patch (option Game) :=
  exec call (CGetGameByNumber number);
  await rows <- gets (games_numbered number);
  maybeSingle rows.

(** Modelled from the spec: the definition of the tables
    ([supabase_schema.sql]) is not among the sources; the data model
    gives a game a unique menu index, so a second game with a number
    already taken is rejected. *)
Definition createGame (number : Z) (name : jsstring) : M Sess Patch unit :=
  exec call (CCreateGame number name);
  await taken <- gets (fun w => existsb (fun g => g_number g =? number) (games w));
  if taken then throw DuplicateKey
  else
    modify (fun w =>
      set_next_id (next_id w + 1)
        (set_games (games w ++ [mkGame (next_id w) number name []]) w)).

Definition updateGameName (game_id : Z) (name : jsstring) : M Sess Patch unit :=
  exec call (CUpdateGame game_id);
  modify (fun w =>
    set_games
      (List.map (fun g => if g_id g =? game_id
                          then mkGame (g_id g) (g_number g) name (g_description g)
                          else g) (games w)) w).

(** The offers of a deleted game go with it (README: "Eliminar un juego
    y sus ofertas"). *)
Definition deleteGame (game_id : Z) : M Sess Patch unit :=
  exec call (CDeleteGame game_id);
  modify (fun w =>
    set_offers (List.filter (fun o => negb (o_game_id o =? game_id)) (offers w))
      (set_games (List.filter (fun g => negb (g_id g =? game_id)) (games w)) w)).

Definition getOffersByGameId (game_id : Z) : M Sess Patch (list Offer) :=
  exec call (CGetOffersByGameId game_id);
  gets (offers_of_game game_id).

Definition getOfferByGameAndNumber (game_id : Z) (number : option Z)
  : M Sess Patch (option Offer) :=
  exec call (CGetOfferByGameAndNumber game_id number);
  await rows <- gets (offers_numbered game_id number);
  maybeSingle rows.

Definition getOfferById (id : option Z) : M Sess Patch (option Offer) :=
  exec call (CGetOfferById id);
  await rows <- gets (offers_with_id id);
  maybeSingle rows.

(** [getOffersByIds(ids)] of the fields file: nothing is asked when
    [ids] is [null] or empty; otherwise [.in('id', ids)], in the order
    of the table. *)
Definition getOffersByIds (ids : option (list Z)) : M Sess Patch (list Offer) :=
  match ids with
  | None | Some [] => ret []
  | Some l =>
      exec call (CGetOffersByIds l);
      gets (offers_among l)
  end.

(** Modelled from the spec: the schema is not among the sources; the
    menu index of an offer is unique within its game. *)
Definition createOffer (game_id : Z) (d : OfferDraft) : M Sess Patch unit :=
  exec call (CCreateOffer game_id d);
  await taken <- gets (fun w =>
    existsb (fun o => (o_game_id o =? game_id) && (o_number o =? od_number d))
      (offers w));
  if taken then throw DuplicateKey
  else
    modify (fun w =>
      set_next_id (next_id w + 1)
        (set_offers
           (offers w ++ [mkOffer (next_id w) game_id (od_number d) (od_desc d)
                           (od_mobile d) (od_card d) (od_usd d)]) w)).

Definition deleteOffer (id : Z) : M Sess Patch unit :=
  exec call (CDeleteOffer id);
  modify (fun w =>
    set_offers (List.filter (fun o => negb (o_id o =? id)) (offers w)) w).

Definition getPaymentMethods (ty : PayType) : M Sess Patch (list PaymentMethod) :=
  exec call (CGetPaymentMethods ty);
  gets (methods_of_type ty).

Definition getPaymentMethodByNumber (ty : option PayType) (number : option Z)
  : M Sess Patch (option PaymentMethod) :=
  exec call (CGetPaymentMethodByNumber ty number);
  await rows <- gets (methods_numbered ty number);
  maybeSingle rows.

Definition deletePaymentMethod (id : Z) : M Sess Patch unit :=
  exec call (CDeletePaymentMethod id);
  modify (fun w =>
    set_payment_methods
      (List.filter (fun m => negb (m_id m =? id)) (payment_methods w)) w).

Definition getGameFields (game_id : Z) : M Sess Patch (list GameField) :=
  exec call (CGetGameFields game_id);
  gets (fields_of_game game_id).

(** [createGameField] of the fields file, [required] left at its
    default. *)
Definition createGameField (game_id : Z) (name : jsstring) (order : Z)
  : M Sess Patch unit :=
  exec call (CCreateGameField game_id name order);
  modify (fun w =>
    set_game_fields (game_fields w ++ [mkGameField game_id name order true]) w).

Definition deleteGameField (game_id : Z) (name : jsstring) : M Sess Patch unit :=
  exec call (CDeleteGameField game_id name);
  modify (fun w =>
    set_game_fields
      (List.filter
         (fun f => negb ((f_game_id f =? game_id) && eqb (f_name f) name))
         (game_fields w)) w).

(** [getUserSession]: the row of the user, inserted with step [idle]
    on first contact. *)
Definition getUserSession (jid : jsstring) : M Sess Patch Sess :=
  exec call (CGetUserSession jid);
  await row <- gets (fun w => user_sessions w !! jid);
  match row with
  | Some s => ret s
  | None =>
      exec modify (fun w =>
        set_user_sessions (<[jid := newSession]> (user_sessions w)) w);
      ret newSession
  end.

(** [updateUserSession]: the columns named in [updates] are written,
    the others are kept ([updated_at] is not modelled). *)
Definition updateUserSession (jid : jsstring) (updates : Patch)
  : M Sess Patch unit :=
  exec call (CUpdateUserSession jid updates);
  modify (fun w =>
    set_user_sessions (alter (applyPatch updates) jid (user_sessions w)) w).

(** Modelled from the spec: the schema is not among the sources; the
    identifier of an order is its key, so an insert without identifier
    or with one already present is rejected. *)
Definition createRequest (id : option jsstring) (r : Request)
  : M Sess Patch unit :=
  exec call (CCreateRequest id r);
  match id with
  | None => throw NullKey
  | Some i =>
      await row <- gets (fun w => requests w !! i);
      match row with
      | Some _ => throw DuplicateKey
      | None => modify (fun w => set_requests (<[i := r]> (requests w)) w)
      end
  end.

Definition getRequest (id : jsstring) : M Sess Patch (option Request) :=
  exec call (CGetRequest id);
  gets (fun w => requests w !! id).

Definition complete (t : Z) (r : Request) : Request :=
  mkRequest (r_user_jid r) (r_game_name r) (r_offer_desc r)
    (r_payment_method r) (r_payment_details r) (r_screenshot_url r)
    completed (Some t).

Definition completeRequest (id : jsstring) : M Sess Patch unit :=
  exec call (CCompleteRequest id);
  modify (fun w =>
    set_requests (alter (complete (now w)) id (requests w)) w).

Definition getAdminDialog (jid : jsstring) : M Sess Patch (option Dialog) :=
  exec call (CGetAdminDialog jid);
  gets (fun w => admin_dialogs w !! jid).

(** [setAdminDialog]: an upsert on the operator's identity. *)
Definition setAdminDialog (jid : jsstring) (command : DialogCommand)
  (step : Z) (data : DialogData) : M Sess Patch unit :=
  let d := mkDialog command step data in
  exec call (CSetAdminDialog jid d);
  modify (fun w => set_admin_dialogs (<[jid := d]> (admin_dialogs w)) w).

Definition clearAdminDialog (jid : jsstring) : M Sess Patch unit :=
  exec call (CClearAdminDialog jid);
  modify (fun w => set_admin_dialogs (delete jid (admin_dialogs w)) w).

(** *** The other writes of the catalog ([index.js] 121-124, 145-159) *)

(** [JSON.stringify] of a number: one that is not finite is sent as
    [null]. *)
Definition json_number (x : JsNumber) : option JsNumber :=
  if number_isFinite x then Some x else None.

Definition update_offer (u : OfferUpdates) (o : Offer) : Offer :=
  mkOffer (o_id o) (o_game_id o) (o_number o)
    (default (o_description o) (u_description u))
    (match u_price_mobile u with Some v => Some v | None => o_price_mobile o end)
    (match u_price_card u with Some v => Some v | None => o_price_card o end)
    (match u_price_usd u with
     | Some v => v ≫= json_number
     | None => o_price_usd o
     end).

Definition updateOffer (offer_id : Z) (updates : OfferUpdates)
  : M Sess Patch unit :=
  exec call (CUpdateOffer offer_id updates);
  modify (fun w =>
    set_offers
      (List.map (fun o => if o_id o =? offer_id then update_offer updates o
                          else o) (offers w)) w).

Definition methods_with_id (id : Z) (w : World Sess) : list PaymentMethod :=
  List.filter (fun m => m_id m =? id) (payment_methods w).

Definition getPaymentMethodById (id : Z) : M Sess Patch (option PaymentMethod) :=
  exec call (CGetPaymentMethodById id);
  await rows <- gets (methods_with_id id);
  maybeSingle rows.

(** Modelled from the spec: the schema is not among the sources; the
    data model gives a payment method an index, unique within its
    type, and a label, so an insert without index or label, or with an
    index already taken within the type, is rejected. *)
Definition createPaymentMethod (type : PayType) (number : option Z)
  (label : option jsstring) (details : Details) : M Sess Patch unit :=
  exec call (CCreatePaymentMethod type number label details);
  match number, label with
  | Some n, Some l =>
      await taken <- gets (fun w =>
        existsb (fun m => PayType_eqb (m_type m) type && (m_number m =? n))
          (payment_methods w));
      if taken then throw DuplicateKey
      else
        modify (fun w =>
          set_next_id (next_id w + 1)
            (set_payment_methods
               (payment_methods w ++ [mkPaymentMethod (next_id w) type n l details])
               w))
  | _, _ => throw NullKey
  end.

Definition update_method (u : MethodUpdates) (m : PaymentMethod)
  : PaymentMethod :=
  mkPaymentMethod (m_id m) (m_type m) (m_number m)
    (default (m_label m) (u_label u))
    (default (m_details m) (u_details u)).

Definition updatePaymentMethod (id : Z) (updates : MethodUpdates)
  : M Sess Patch unit :=
  exec call (CUpdatePaymentMethod id updates);
  modify (fun w =>
    set_payment_methods
      (List.map (fun m => if m_id m =? id then update_method updates m else m)
         (payment_methods w)) w).

(** *** Sending ([index.js] 282-288) *)

Definition sendMessage (jid : jsstring) (m : Msg) : M Sess Patch unit :=
  call (CSendMessage jid m).

Definition sendWithCancelHint (jid : jsstring) (m : Msg) : M Sess Patch unit :=
  sendMessage jid (WithCancelHint m).

(** The text of the main menu (546-554). *)
Definition main_menu (w : World Sess) : Msg :=
  match games_in_order w with
  | [] => NoGamesAvailable
  | gs => MainMenu gs
  end.

(** [sendMainMenu] (544-556) *)
Definition sendMainMenu (jid : jsstring) : M Sess Patch unit :=
  await gs <- getGames;
  match gs with
  | [] => sendMessage jid NoGamesAvailable
  | _ => sendMessage jid (MainMenu gs)
  end.

End Store.

(** What a run did, read off its calls. *)

(** The games the run tried to create. *)
Definition create_attempt {Patch} (c : Call Patch) : option (Z * jsstring) :=
  match c with
  | CCreateGame number name => Some (number, name)
  | _ => None
  end.

(** The failures of game creation the run reported. *)
Definition error_report {Patch} (c : Call Patch) : option (jsstring * Exn) :=
  match c with
  | CSendMessage _ (GameCreateError name e) => Some (name, e)
  | _ => None
  end.

(** The messages the run sent. *)
Definition sent {Patch} (c : Call Patch) : option (jsstring * Msg) :=
  match c with
  | CSendMessage jid m => Some (jid, m)
  | _ => None
  end.

(** A query of the catalog: games, offers, fields or payment methods. *)
Definition is_catalog_lookup {Patch} (c : Call Patch) : bool :=
  match c with
  | CGetGames | CGetGameByNumber _ | CGetGameById _ | CGetOffersByGameId _
  | CGetOfferByGameAndNumber _ _ | CGetOfferById _ | CGetOffersByIds _
  | CGetPaymentMethods _ | CGetPaymentMethodByNumber _ _ | CGetGameFields _
  | CGetPaymentMethodById _ =>
      true
  | _ => false
  end.

(** ** What the environment supplies to one handler run *)

(** The inbound message as far as the funnel looks at it:
    [msg.message?.imageMessage] and [msg.message?.documentMessage]. *)
Record Inbound := mkInbound {
  imageMessage : bool;
  documentMessage : bool
}.

Record Env := mkEnv {
  (** [process.env.ADMIN_JID] *)
  ADMIN_JID : jsstring;
  (** What [generateRequestId()] returns in this run (it is built from
      the clock and a random number). *)
  generateRequestId : jsstring;
  (** Download of the attachment, upload under the file name and the
      public URL of the stored file; [None] when one of them throws. *)
  storeScreenshot : jsstring -> option jsstring
}.

(** [l.length > 0] *)
Definition nonempty {A} (l : list A) : bool :=
  match l with
  | [] => false
  | _ => true
  end.

(** [jid.split('@')[0]] *)
Definition userNumber (jid : jsstring) : jsstring :=
  take_while (fun c => negb (c =? 64)%N) jid.

(** A string or [null] inside a template literal. *)
Definition interpolate (s : option jsstring) : jsstring :=
  match s with
  | Some v => v
  | None => lit "null"
  end.

(** ** The client funnel of [index.js] *)

Module V1.

Inductive Step :=
| idle | awaiting_game | awaiting_offer | awaiting_payment_method
| awaiting_payment_choice | awaiting_screenshot
| other_step.       (* any other text in the column *)

(** The columns of [user_sessions] this file reads and writes. *)
Record Session := mkSession {
  step : Step;
  selected_game : option Z;
  selected_offer_id : option Z;
  selected_payment_type : option PayType;
  selected_payment_number : option Z;
  request_id : option jsstring
}.

(** The argument of [updateUserSession]: for each column, [None] when
    the object does not name it, [Some v] when it sets it to [v]
    ([Some None] sets it to [null]). *)
Record Patch := mkPatch {
  p_step : option Step;
  p_selected_game : option (option Z);
  p_selected_offer_id : option (option Z);
  p_selected_payment_type : option (option PayType);
  p_selected_payment_number : option (option Z);
  p_request_id : option (option jsstring)
}.

Definition apply (p : Patch) (s : Session) : Session :=
  mkSession
    (default (step s) (p_step p))
    (default (selected_game s) (p_selected_game p))
    (default (selected_offer_id s) (p_selected_offer_id p))
    (default (selected_payment_type s) (p_selected_payment_type p))
    (default (selected_payment_number s) (p_selected_payment_number p))
    (default (request_id s) (p_request_id p)).

#[export] Instance session_model : SessionModel Session Patch := {|
  newSession := mkSession idle None None None None None;
  applyPatch := apply
|}.

Abbreviation Handler := (M Session Patch).

(** [{ step: 'idle', selected_game: null, selected_offer_id: null,
      selected_payment_type: null, selected_payment_number: null,
      request_id: null }] (296, 484) *)
Definition reset : Patch :=
  mkPatch (Some idle) (Some None) (Some None) (Some None) (Some None)
    (Some None).

Definition only_step (s : Step) : Patch :=
  mkPatch (Some s) None None None None None.

(** A session at rest: step [idle] and no selection. *)
Definition cleared : Session := mkSession idle None None None None None.

(** The reply of a step to an index that is missing or zero (314, 342,
    398). *)
Definition invalid_index_reply (st : Step) : Msg :=
  match st with
  | awaiting_offer => InvalidOfferNumber
  | awaiting_payment_choice => InvalidMethodNumber
  | _ => InvalidGameNumber
  end.

Section Funnel.

Context {U : Unicode} (env : Env).

(** [handleBack] (497-542) *)
Definition handleBack (jid : jsstring) (session : Session) : Handler unit :=
  match step session with
  | awaiting_game | idle => sendMainMenu jid
  | awaiting_offer =>
      exec sendMainMenu jid;
      updateUserSession jid
        (mkPatch (Some idle) (Some None) None None None None)
  | awaiting_payment_method =>
      await game <- getGameByNumber (selected_game session);
      match game with
      | None => sendMainMenu jid
      | Some game =>
          await offers <- getOffersByGameId (g_id game);
          exec sendWithCancelHint jid (BackOfferList game offers);
          updateUserSession jid
            (mkPatch (Some awaiting_offer) None (Some None) None None None)
      end
  | awaiting_payment_choice =>
      await cards <- getPaymentMethods card;
      await mobiles <- getPaymentMethods mobile;
      exec sendWithCancelHint jid
        (ChoosePaymentType (nonempty cards) (nonempty mobiles));
      updateUserSession jid
        (mkPatch (Some awaiting_payment_method) None None (Some None)
           (Some None) None)
  | awaiting_screenshot => sendWithCancelHint jid BackFromScreenshot
  | other_step => sendMainMenu jid
  end.

(** The body of the [try] of the screenshot step (444-484). *)
Definition submitScreenshot (jid : jsstring) (session : Session)
  : Handler unit :=
  let fileName :=
    lit "screenshots/" ++ interpolate (request_id session) ++ lit ".png" in
  exec call (CUploadScreenshot fileName);
  match storeScreenshot env fileName with
  | None => throw UploadFailed
  | Some screenshotUrl =>
      await game <- getGameByNumber (selected_game session);
      await offer <- getOfferById (selected_offer_id session);
      await method <- getPaymentMethodByNumber (selected_payment_type session)
                        (selected_payment_number session);
      match game, offer, method with
      | Some game, Some offer, Some method =>
          exec createRequest (request_id session)
            (mkRequest jid (g_name game) (o_description offer)
               (m_label method) (DetailsOfMethod (m_details method))
               (Some screenshotUrl) pending None);
          exec sendMessage (ADMIN_JID env)
            (NewRequest (request_id session) (userNumber jid) (g_name game)
               (o_description offer) (m_label method) screenshotUrl);
          exec sendMessage jid (RequestSent (request_id session));
          updateUserSession jid reset
      | _, _, _ => throw TypeError
      end
  end.

(** [handleClientMessage] (291-495) *)
Definition handleClientMessage (msg : Inbound) (jid text : jsstring)
  : Handler unit :=
  await session <- getUserSession jid;
  let lower := toLowerCase (trim text) in
  if eqb lower (lit "cancelar") then
    exec updateUserSession jid reset;
    sendMainMenu jid
  else if eqb lower (lit "volver") then
    handleBack jid session
  else
  match step session with
  | idle => sendMainMenu jid

  | awaiting_game =>
      let gameNumber := emojiToNumber text in
      if falsy gameNumber then sendWithCancelHint jid InvalidGameNumber
      else
      await game <- getGameByNumber gameNumber;
      match game with
      | None => sendWithCancelHint jid GameDoesNotExist
      | Some game =>
          await offers <- getOffersByGameId (g_id game);
          match offers with
          | [] => sendWithCancelHint jid GameHasNoOffers
          | _ =>
              exec sendWithCancelHint jid (OfferList game offers);
              updateUserSession jid
                (mkPatch (Some awaiting_offer) (Some gameNumber) None None
                   None None)
          end
      end

  | awaiting_offer =>
      let offerNumber := emojiToNumber text in
      if falsy offerNumber then sendWithCancelHint jid InvalidOfferNumber
      else
      await game <- getGameByNumber (selected_game session);
      match game with
      | None =>
          exec sendWithCancelHint jid GameNotFoundRestart;
          updateUserSession jid (only_step idle)
      | Some game =>
          await offer <- getOfferByGameAndNumber (g_id game) offerNumber;
          match offer with
          | None => sendWithCancelHint jid OfferNotFound
          | Some offer =>
              exec updateUserSession jid
                (mkPatch (Some awaiting_payment_method) None
                   (Some (Some (o_id offer))) None None None);
              await cards <- getPaymentMethods card;
              await mobiles <- getPaymentMethods mobile;
              match cards, mobiles with
              | [], [] =>
                  exec sendMessage jid NoPaymentMethodsConfigured;
                  updateUserSession jid (only_step idle)
              | _, _ =>
                  sendWithCancelHint jid
                    (ChoosePaymentType (nonempty cards) (nonempty mobiles))
              end
          end
      end

  | awaiting_payment_method =>
      let method := trim text in
      if negb (eqb method (lit "1")) && negb (eqb method (lit "2")) then
        sendWithCancelHint jid InvalidPaymentType
      else
      let type := if eqb method (lit "1") then card else mobile in
      await methods <- getPaymentMethods type;
      match methods with
      | [] => sendWithCancelHint jid NoMethodsOfThatType
      | _ =>
          exec sendWithCancelHint jid (MethodList type methods);
          updateUserSession jid
            (mkPatch (Some awaiting_payment_choice) None None
               (Some (Some type)) None None)
      end

  | awaiting_payment_choice =>
      let choiceNumber := emojiToNumber text in
      if falsy choiceNumber then sendWithCancelHint jid InvalidMethodNumber
      else
      await method <- getPaymentMethodByNumber (selected_payment_type session)
                        choiceNumber;
      match method with
      | None => sendWithCancelHint jid MethodNotFound
      | Some method =>
          await game <- getGameByNumber (selected_game session);
          await offer <- getOfferById (selected_offer_id session);
          match game, offer with
          | Some game, Some offer =>
              let requestId := generateRequestId env in
              exec sendMessage jid (PaymentInfo requestId game offer method);
              updateUserSession jid
                (mkPatch (Some awaiting_screenshot) None None None
                   (Some choiceNumber) (Some (Some requestId)))
          | _, _ =>
              exec sendWithCancelHint jid InternalErrorRestart;
              updateUserSession jid (only_step idle)
          end
      end

  | awaiting_screenshot =>
      if negb (imageMessage msg) && negb (documentMessage msg) then
        sendWithCancelHint jid ScreenshotRequired
      else
        try_catch (submitScreenshot jid session)
          (fun _ => sendWithCancelHint jid ScreenshotError)

  | other_step => sendMainMenu jid
  end.

End Funnel.

End V1.

(** ** The client funnel of the fields file *)

Module V2.

Inductive Step :=
| idle | awaiting_game | awaiting_offers | awaiting_fields
| other_step.       (* any other text in the column *)

(** The columns of [user_sessions] this file reads and writes;
    [field_values] is a JSON object. *)
Record Session := mkSession {
  step : Step;
  selected_game : option Z;
  selected_offers : option (list Z);
  field_values : option (gmap jsstring jsstring);
  current_field : option Z;
  request_id : option jsstring
}.

Record Patch := mkPatch {
  p_step : option Step;
  p_selected_game : option (option Z);
  p_selected_offers : option (option (list Z));
  p_field_values : option (option (gmap jsstring jsstring));
  p_current_field : option (option Z);
  p_request_id : option (option jsstring)
}.

Definition apply (p : Patch) (s : Session) : Session :=
  mkSession
    (default (step s) (p_step p))
    (default (selected_game s) (p_selected_game p))
    (default (selected_offers s) (p_selected_offers p))
    (default (field_values s) (p_field_values p))
    (default (current_field s) (p_current_field p))
    (default (request_id s) (p_request_id p)).

#[export] Instance session_model : SessionModel Session Patch := {|
  newSession := mkSession idle None None None None None;
  applyPatch := apply
|}.

Abbreviation Handler := (M Session Patch).

(** [{ step: 'idle', selected_game: null, selected_offers: null,
      field_values: null, current_field: null, request_id: null }]
    (344, 349, 504) *)
Definition reset : Patch :=
  mkPatch (Some idle) (Some None) (Some None) (Some None) (Some None)
    (Some None).

Definition only_step (s : Step) : Patch :=
  mkPatch (Some s) None None None None None.

(** A session at rest: step [idle] and no selection. *)
Definition cleared : Session := mkSession idle None None None None None.

Definition is_idle (s : Step) : bool :=
  match s with
  | idle => true
  | _ => false
  end.

(** The combining marks U+0300 to U+036F. *)
Definition is_combining_mark (c : N) : bool := ((768 <=? c) && (c <=? 879))%N.

(** [/oferta(s)?|oferts?/] (67) *)
Definition ofertas_regex : Regex :=
  RAlt (RSeq (RLit (lit "oferta")) (ROpt (RLit (lit "s"))))
       (RSeq (RLit (lit "ofert")) (ROpt (RLit (lit "s")))).

(** The first number without an offer, or the identifiers of the
    offers of all the numbers (the loop of 408-415). *)
Fixpoint resolveOffers (offers : list Offer) (numbers : list Z)
  (selectedOffers : list Z) : Z + list Z :=
  match numbers with
  | [] => inr selectedOffers
  | num :: rest =>
      match List.find (fun o => o_number o =? num) offers with
      | None => inl num
      | Some offer => resolveOffers offers rest (selectedOffers ++ [o_id offer])
      end
  end.

(** [offers.find(o => o.number === num)] finds an offer. *)
Definition resolves (offers : list Offer) (num : Z) : bool :=
  existsb (fun o => o_number o =? num) offers.

(** The first number of the list that no offer carries. *)
Definition first_invalid (offers : list Offer) (numbers : list Z) : option Z :=
  List.find (fun num => negb (resolves offers num)) numbers.

(** The identifiers of the offers found for the numbers. *)
Definition selected_ids (offers : list Offer) (numbers : list Z) : list Z :=
  omap (fun num => o_id <$> List.find (fun o => o_number o =? num) offers)
    numbers.

(** The pattern as the specification words it: "oferta(s)". *)
Definition spec_ofertas_regex : Regex :=
  RSeq (RLit (lit "oferta")) (ROpt (RLit (lit "s"))).

(** [text.split(/[,\s]+/).map(s => emojiToNumber(s)).filter(n => n !== null)]
    (394) *)
Definition parseNumbers (text : jsstring) : list Z :=
  omap emojiToNumber (split (fun c => (c =? 44)%N || is_space c) text).

Section Funnel.

Context {U : Unicode} (env : Env).

(** [text.toLowerCase().normalize("NFD").replace(/[\u0300-\u036f]/g, "")]
    (65) *)
Definition normalized (text : jsstring) : jsstring :=
  remove_all is_combining_mark (normalizeNFD (toLowerCase text)).

(** [containsOfertas] (63-68) *)
Definition containsOfertas (text : jsstring) : bool :=
  match text with
  | [] => false
  | _ => regex_test ofertas_regex (normalized text)
  end.

(** [sendRequestToAdmin] (468-505) *)
Definition sendRequestToAdmin (jid : jsstring) (session : Session)
  (offerIds : option (list Z))
  (fieldValues : option (gmap jsstring jsstring)) : Handler unit :=
  await game <- getGameByNumber (selected_game session);
  await offers <- getOffersByIds offerIds;
  let requestId := generateRequestId env in
  match game with
  | None => throw TypeError
  | Some game =>
      exec createRequest (Some requestId)
        (mkRequest jid (g_name game)
           (join (lit ", ") (List.map o_description offers))
           (lit "pendiente") (DetailsOfFields fieldValues) None pending None);
      match fieldValues with
      | None => throw TypeError
      | Some fv =>
          exec sendMessage (ADMIN_JID env)
            (NewRequestWithFields (userNumber jid) game offers fv requestId);
          exec sendMessage jid (RequestSentAwaitContact requestId);
          updateUserSession jid reset
      end
  end.

(** [handleBack] (507-538) *)
Definition handleBack (jid : jsstring) (session : Session) : Handler unit :=
  match step session with
  | awaiting_game | idle => sendMainMenu jid
  | awaiting_offers =>
      exec sendMainMenu jid;
      updateUserSession jid
        (mkPatch (Some idle) (Some None) None None None None)
  | awaiting_fields =>
      await game <- getGameByNumber (selected_game session);
      match game with
      | None => sendMainMenu jid
      | Some game =>
          await offers <- getOffersByGameId (g_id game);
          exec sendWithCancelHint jid (BackOfferListMulti game offers);
          updateUserSession jid
            (mkPatch (Some awaiting_offers) None (Some None) (Some None)
               (Some None) None)
      end
  | other_step => sendMainMenu jid
  end.

(** [handleClientMessage] (337-466) *)
Definition handleClientMessage (msg : Inbound) (jid text : jsstring)
  : Handler unit :=
  await session <- getUserSession jid;
  let lower := toLowerCase (trim text) in
  if containsOfertas text && negb (is_idle (step session)) then
    exec sendMainMenu jid;
    updateUserSession jid reset
  else if eqb lower (lit "cancelar") then
    exec updateUserSession jid reset;
    sendMainMenu jid
  else if eqb lower (lit "volver") then
    handleBack jid session
  else
  match step session with
  | idle => sendMainMenu jid

  | awaiting_game =>
      let gameNumber := emojiToNumber text in
      if falsy gameNumber then sendWithCancelHint jid InvalidGameNumber
      else
      await game <- getGameByNumber gameNumber;
      match game with
      | None => sendWithCancelHint jid GameDoesNotExist
      | Some game =>
          await offers <- getOffersByGameId (g_id game);
          match offers with
          | [] => sendWithCancelHint jid GameHasNoOffers
          | _ =>
              exec sendWithCancelHint jid (OfferListMulti game offers);
              updateUserSession jid
                (mkPatch (Some awaiting_offers) (Some gameNumber) None None
                   None None)
          end
      end

  | awaiting_offers =>
      let numbers := parseNumbers text in
      match numbers with
      | [] => sendWithCancelHint jid NoNumbersRecognized
      | _ =>
      await game <- getGameByNumber (selected_game session);
      match game with
      | None =>
          exec sendWithCancelHint jid GameNotFoundRestart;
          updateUserSession jid (only_step idle)
      | Some game =>
          await offers <- getOffersByGameId (g_id game);
          match resolveOffers offers numbers [] with
          | inl num => sendWithCancelHint jid (OfferNumberDoesNotExist num)
          | inr selectedOffers =>
              exec updateUserSession jid
                (mkPatch (Some awaiting_fields) None
                   (Some (Some selectedOffers)) (Some (Some ∅))
                   (Some (Some 0)) None);
              await fields <- getGameFields (g_id game);
              match fields with
              | [] => sendRequestToAdmin jid session (Some selectedOffers) (Some ∅)
              | field :: _ => sendMessage jid (AskFirstField (f_name field))
              end
          end
      end
      end

  | awaiting_fields =>
      await game <- getGameByNumber (selected_game session);
      match game with
      | None =>
          exec sendWithCancelHint jid GameNotFoundRestart;
          updateUserSession jid (only_step idle)
      | Some game =>
          await fields <- getGameFields (g_id game);
          let currentIdx := default 0 (current_field session) in
          if Z.of_nat (length fields) <=? currentIdx then
            sendRequestToAdmin jid session (selected_offers session)
              (field_values session)
          else
          match (if currentIdx <? 0 then None
                 else fields !! Z.to_nat currentIdx) with
          | None => throw TypeError
          | Some field =>
              let fieldValues :=
                <[f_name field := text]> (default ∅ (field_values session)) in
              if currentIdx + 1 <? Z.of_nat (length fields) then
                exec updateUserSession jid
                  (mkPatch None None None (Some (Some fieldValues))
                     (Some (Some (currentIdx + 1))) None);
                match fields !! Z.to_nat (currentIdx + 1) with
                | Some nextField => sendMessage jid (AskNextField (f_name nextField))
                | None => throw TypeError
                end
              else
                exec updateUserSession jid
                  (mkPatch None None None (Some (Some fieldValues)) None None);
                sendRequestToAdmin jid session (selected_offers session)
                  (Some fieldValues)
          end
      end

  | other_step => sendMainMenu jid
  end.

End Funnel.

End V2.

(** ** The operator: commands and dialogs ([index.js] 558-971)

    The same text in both files, apart from the [/campos] commands,
    which only the fields file has. *)

Section Operator.

Context {Sess Patch : Type} {SM : SessionModel Sess Patch} {U : Unicode}.

(** [parts[i] === word] *)
Definition part_is (parts : list jsstring) (i : nat) (word : jsstring) : bool :=
  match parts !! i with
  | Some p => eqb p word
  | None => false
  end.

(** [parts[i]] as a condition: defined and not empty. *)
Definition part_given (parts : list jsstring) (i : nat) : bool :=
  match parts !! i with
  | Some (_ :: _) => true
  | _ => false
  end.

(** [emojiToNumber(parts[i])] for a part that is given. *)
Definition part_number (parts : list jsstring) (i : nat) : option Z :=
  emojiToNumber (default [] (parts !! i)).

(** The word [/añadir]: the letter U+00F1 is not ASCII. *)
Definition anadir : jsstring := lit "/a" ++ [241%N] ++ lit "adir".

(** The [/completar] command (731-746). *)
Definition completar (jid requestId : jsstring) : M Sess Patch unit :=
  await request <- getRequest requestId;
  match request with
  | None => sendMessage jid RequestNotFound
  | Some request =>
      match r_status request with
      | completed => sendMessage jid RequestAlreadyCompleted
      | pending =>
          exec completeRequest requestId;
          exec sendMessage (r_user_jid request)
            (RechargeCompleted (r_game_name request) (r_offer_desc request));
          sendMessage jid (RequestMarkedCompleted requestId)
      end
  end.

(** [handleAdminCommand] (559-756).  The router of the fields file is
    the same with the three [/campos] commands after [/añadir]
    (F 592-644): [with_campos] tells which of the two files is run. *)
Definition handleAdminCommand (with_campos : bool) (jid text : jsstring)
  : M Sess Patch unit :=
  let parts := split is_space (trim text) in
  let command := toLowerCase (default [] (parts !! 0%nat)) in
  let cmd c := eqb command c in
  (* creation dialogs *)
  if cmd (lit "/crear") && part_is parts 1 (lit "tarjeta") then
    exec setAdminDialog jid crear_tarjeta 1 DataEmpty;
    sendMessage jid AskCardIndex
  else if cmd (lit "/crear") && part_is parts 1 (lit "saldo") then
    exec setAdminDialog jid crear_saldo 1 DataEmpty;
    sendMessage jid AskMobileIndex
  else if cmd (lit "/crear") && part_is parts 1 (lit "tabla") then
    exec setAdminDialog jid crear_tabla 1 (DataTable []);
    sendMessage jid AskTableLines
  else if cmd anadir && part_is parts 1 (lit "juego")
          && part_is parts 2 (lit "a") && part_given parts 3 then
    let gameNumber := part_number parts 3 in
    if falsy gameNumber then sendMessage jid AddOffersNeedsGameNumber
    else
    await game <- getGameByNumber gameNumber;
    match game with
    | None => sendMessage jid ThatGameDoesNotExist
    | Some game =>
        exec setAdminDialog jid anadir_ofertas 1
          (DataOffers (g_id game) gameNumber []);
        sendMessage jid (AddingOffers (g_name game))
    end
  (* fields of a game: the fields file only *)
  else if with_campos && cmd (lit "/campos") && part_is parts 1 (lit "agregar")
          && part_given parts 2 && part_given parts 3 then
    let gameNumber := part_number parts 2 in
    let fieldName := join (lit " ") (drop 3 parts) in
    await game <- getGameByNumber gameNumber;
    match game with
    | None => sendMessage jid AdminGameNotFound
    | Some game =>
        await fields <- getGameFields (g_id game);
        let nextOrder := Z.of_nat (length fields) + 1 in
        try_catch
          (exec createGameField (g_id game) fieldName nextOrder;
           sendMessage jid (FieldAdded fieldName (g_name game)))
          (fun err => sendMessage jid (FieldError err))
    end
  else if with_campos && cmd (lit "/campos") && part_is parts 1 (lit "quitar")
          && part_given parts 2 && part_given parts 3 then
    let gameNumber := part_number parts 2 in
    let fieldName := join (lit " ") (drop 3 parts) in
    await game <- getGameByNumber gameNumber;
    match game with
    | None => sendMessage jid AdminGameNotFound
    | Some game =>
        try_catch
          (exec deleteGameField (g_id game) fieldName;
           sendMessage jid (FieldRemoved fieldName (g_name game)))
          (fun err => sendMessage jid (FieldError err))
    end
  else if with_campos && cmd (lit "/campos") && part_is parts 1 (lit "listar")
          && part_given parts 2 then
    let gameNumber := part_number parts 2 in
    await game <- getGameByNumber gameNumber;
    match game with
    | None => sendMessage jid AdminGameNotFound
    | Some game =>
        await fields <- getGameFields (g_id game);
        match fields with
        | [] => sendMessage jid (GameHasNoFields (g_name game))
        | _ => sendMessage jid (FieldsListing game fields)
        end
    end
  (* edit dialogs *)
  else if cmd (lit "/editar") && part_is parts 1 (lit "juego")
          && part_given parts 2 then
    let gameNumber := part_number parts 2 in
    await game <- getGameByNumber gameNumber;
    match game with
    | None => sendMessage jid AdminGameNotFound
    | Some game =>
        exec setAdminDialog jid editar_juego 1
          (DataEditGame (g_id game) gameNumber);
        sendMessage jid (EditingGame (g_name game))
    end
  else if cmd (lit "/editar") && part_is parts 1 (lit "oferta")
          && part_given parts 2 && part_given parts 3 then
    let gameNumber := part_number parts 2 in
    let offerNumber := part_number parts 3 in
    await game <- getGameByNumber gameNumber;
    match game with
    | None => sendMessage jid AdminGameNotFound
    | Some game =>
        await offer <- getOfferByGameAndNumber (g_id game) offerNumber;
        match offer with
        | None => sendMessage jid AdminOfferNotFound
        | Some offer =>
            exec setAdminDialog jid editar_oferta 1
              (DataEditOffer (o_id offer) (g_name game));
            sendMessage jid (EditingOffer (o_description offer))
        end
    end
  else if cmd (lit "/editar")
          && (part_is parts 1 (lit "tarjeta") || part_is parts 1 (lit "saldo"))
          && part_given parts 2 then
    let type := if part_is parts 1 (lit "tarjeta") then card else mobile in
    let methodNumber := part_number parts 2 in
    await method <- getPaymentMethodByNumber (Some type) methodNumber;
    match method with
    | None => sendMessage jid AdminPaymentMethodNotFound
    | Some method =>
        exec setAdminDialog jid editar_metodo 1
          (DataEditMethod (m_id method) type methodNumber);
        sendMessage jid (EditingMethod (m_label method))
    end
  (* listings *)
  else if cmd (lit "/listar") && part_is parts 1 (lit "juegos") then
    await games <- getGames;
    match games with
    | [] => sendMessage jid NoGames
    | _ => sendMessage jid (GamesListing games)
    end
  else if cmd (lit "/listar") && part_is parts 1 (lit "ofertas")
          && part_given parts 2 then
    let gameNumber := part_number parts 2 in
    await game <- getGameByNumber gameNumber;
    match game with
    | None => sendMessage jid AdminGameNotFound
    | Some game =>
        await offers <- getOffersByGameId (g_id game);
        match offers with
        | [] => sendMessage jid NoOffersForGame
        | _ => sendMessage jid (OffersListing game offers)
        end
    end
  else if cmd (lit "/listar") && part_is parts 1 (lit "metodos") then
    await cards <- getPaymentMethods card;
    await mobiles <- getPaymentMethods mobile;
    sendMessage jid (MethodsListing cards mobiles)
  (* deletions *)
  else if cmd (lit "/borrar") && part_is parts 1 (lit "juego")
          && part_given parts 2 then
    let gameNumber := part_number parts 2 in
    await game <- getGameByNumber gameNumber;
    match game with
    | None => sendMessage jid AdminGameNotFound
    | Some game =>
        exec deleteGame (g_id game);
        sendMessage jid (GameDeleted (g_name game))
    end
  else if cmd (lit "/borrar") && part_is parts 1 (lit "oferta")
          && part_given parts 2 && part_given parts 3 then
    let gameNumber := part_number parts 2 in
    let offerNumber := part_number parts 3 in
    await game <- getGameByNumber gameNumber;
    match game with
    | None => sendMessage jid AdminGameNotFound
    | Some game =>
        await offer <- getOfferByGameAndNumber (g_id game) offerNumber;
        match offer with
        | None => sendMessage jid AdminOfferNotFound
        | Some offer =>
            exec deleteOffer (o_id offer);
            sendMessage jid (OfferDeleted (o_description offer))
        end
    end
  else if cmd (lit "/borrar")
          && (part_is parts 1 (lit "tarjeta") || part_is parts 1 (lit "saldo"))
          && part_given parts 2 then
    let type := if part_is parts 1 (lit "tarjeta") then card else mobile in
    let methodNumber := part_number parts 2 in
    await method <- getPaymentMethodByNumber (Some type) methodNumber;
    match method with
    | None => sendMessage jid AdminMethodNotFound
    | Some method =>
        exec deletePaymentMethod (m_id method);
        sendMessage jid (MethodDeleted (m_label method))
    end
  (* completion of a request *)
  else if cmd (lit "/completar") && part_given parts 1 then
    completar jid (default [] (parts !! 1%nat))
  (* cancellation of the dialog *)
  else if cmd (lit "/cancelar") then
    exec clearAdminDialog jid;
    sendMessage jid DialogCancelled
  else sendMessage jid UnknownCommand.

(** *** The bulk product table (871-907) *)

(** The class [[0-9️⃣🔟]]: the digits and the code units U+FE0F,
    U+20E3, U+D83D and U+DD1F. *)
Definition is_index_glyph (c : N) : bool :=
  (is_digit c || (c =? 65039) || (c =? 8419) || (c =? 55357) || (c =? 56607))%N.

(** [(.+)$]: all that is left, when it is not empty and holds no line
    terminator. *)
Definition rest_of_line (s : jsstring) : option jsstring :=
  match s with
  | [] => None
  | _ => if forallb (fun c => negb (is_line_terminator c)) s then Some s else None
  end.

(** [\s+(.+)$]: the run of white space is [n] characters at most and
    is shortened until the rest matches. *)
Fixpoint spaces_then_rest (n : nat) (s : jsstring) : option jsstring :=
  match n with
  | O => None
  | S n' =>
      match rest_of_line (drop n s) with
      | Some r => Some r
      | None => spaces_then_rest n' s
      end
  end.

(** [^([0-9️⃣🔟]+)\s+(.+)$]: likewise for the run of index glyphs. *)
Fixpoint index_then_rest (n : nat) (s : jsstring) : option (jsstring * jsstring) :=
  match n with
  | O => None
  | S n' =>
      let after := drop n s in
      match spaces_then_rest (length (take_while is_space after)) after with
      | Some r => Some (take n s, r)
      | None => index_then_rest n' s
      end
  end.

(** [line.match(/^([0-9️⃣🔟]+)\s+(.+)$/)]: the two groups. *)
Definition matchTableLine (line : jsstring) : option (jsstring * jsstring) :=
  index_then_rest (length (take_while is_index_glyph line)) line.

(** The two tests of the loop body (882-886): the line matches, and
    [num && name] holds of the number and the trimmed name read from
    it. *)
Definition table_entry (line : jsstring) : option (Z * jsstring) :=
  match matchTableLine line with
  | Some (index, rest) =>
      let num := emojiToNumber index in
      let name := trim rest in
      match num with
      | Some n => if negb (falsy num) && nonempty name then Some (n, name) else None
      | None => None
      end
  | None => None
  end.

(** One turn of the loop over the lines (881-895): the new count. *)
Definition createFromLine (jid : jsstring) (success : Z) (line : jsstring)
  : M Sess Patch Z :=
  match table_entry line with
  | Some (num, name) =>
      try_catch
        (exec createGame num name; ret (success + 1))
        (fun err =>
           exec sendMessage jid (GameCreateError name err);
           ret success)
  | None => ret success
  end.

Fixpoint createFromLines (jid : jsstring) (success : Z) (lines : list jsstring)
  : M Sess Patch Z :=
  match lines with
  | [] => ret success
  | line :: rest =>
      await success' <- createFromLine jid success line;
      createFromLines jid success' rest
  end.

(** [handleCreateTableDialog] *)
Definition handleCreateTableDialog (jid : jsstring) (dialog : Dialog)
  (text : jsstring) : M Sess Patch bool :=
  if d_step dialog =? 1 then
    match d_data dialog with
    | DataTable lines =>
        if eqb (toLowerCase text) (lit "/listo") then
          match lines with
          | [] =>
              exec sendMessage jid NoLinesReceived;
              exec clearAdminDialog jid;
              ret true
          | _ =>
              await success <- createFromLines jid 0 lines;
              exec sendMessage jid (GamesCreated success);
              exec clearAdminDialog jid;
              ret true
          end
        else
          exec setAdminDialog jid (d_command dialog) (d_step dialog)
            (DataTable (lines ++ [text]));
          exec sendMessage jid LineAdded;
          ret true
    | _ => throw TypeError
    end
  else ret false.

(** *** The bulk offer entry (909-971) *)

(** [!isNaN(parseFloat(s)) && isFinite(s)] (944) *)
Definition is_numeric (s : jsstring) : bool :=
  negb (isNaN (parseFloat s)) && isFinite s.

(** [parts.slice(from, to)] for indices within the array or beyond. *)
Definition slice {A} (from to : nat) (l : list A) : list A :=
  take (to - from) (drop from l).

(** The reading of one offer line (931-964): the draft, or the reply
    that refuses the line. *)
Definition parseOfferLine (text : jsstring) : Msg + OfferDraft :=
  let parts := split is_space (trim text) in
  if (length parts <? 4)%nat then inl OfferLineBadFormat
  else
  match emojiToNumber (default [] (parts !! 0%nat)) with
  | None => inl OfferNumberInvalid
  | Some number =>
      if number =? 0 then inl OfferNumberInvalid
      else
      let idx := (length parts - 1)%nat in
      let last := default [] (parts !! idx) in
      let '(usd, idx) :=
        if is_numeric last then (Some (parseFloat last), (idx - 1)%nat)
        else (None, idx) in
      if (2 <=? idx)%nat then
        let card := parseInt (default [] (parts !! idx)) in
        let mobile := parseInt (default [] (parts !! (idx - 1)%nat)) in
        let idx := (idx - 2)%nat in
        let desc := join (lit " ") (slice 1 (idx + 1) parts) in
        inr (mkOfferDraft number desc mobile card usd)
      else inl NoValidPrices
  end.

Fixpoint createOffers (jid : jsstring) (game_id : Z) (success : Z)
  (offers : list OfferDraft) : M Sess Patch Z :=
  match offers with
  | [] => ret success
  | off :: rest =>
      await success' <-
        try_catch
          (exec createOffer game_id off; ret (success + 1))
          (fun err =>
             exec sendMessage jid (OfferCreateError (od_desc off) err);
             ret success);
      createOffers jid game_id success' rest
  end.

(** [handleAddOffersDialog] *)
Definition handleAddOffersDialog (jid : jsstring) (dialog : Dialog)
  (text : jsstring) : M Sess Patch bool :=
  if d_step dialog =? 1 then
    match d_data dialog with
    | DataOffers game_id game_number offers =>
        if eqb (toLowerCase text) (lit "/fin") then
          match offers with
          | [] =>
              exec sendMessage jid NoOffersAdded;
              exec clearAdminDialog jid;
              ret true
          | _ =>
              await success <- createOffers jid game_id 0 offers;
              exec sendMessage jid (OffersAdded success);
              exec clearAdminDialog jid;
              ret true
          end
        else
          match parseOfferLine text with
          | inl refusal =>
              exec sendMessage jid refusal;
              ret true
          | inr draft =>
              exec setAdminDialog jid (d_command dialog) (d_step dialog)
                (DataOffers game_id game_number (offers ++ [draft]));
              exec sendMessage jid (OfferAccumulated (od_desc draft));
              ret true
          end
    | _ => throw TypeError
    end
  else ret false.

End Operator.

(** ** The operator: the dialogs of payment methods and of editions,
    and the entry of the dialogs ([index.js] 758-869, 973-1106)

    The same text in both files.  A handler reads the data of its
    dialog as the object its own command writes; a row whose data has
    the shape of another command is written by no code, and the run on
    it is stopped with [TypeError]. *)

Section Dialogs.

Context {Sess Patch : Type} {SM : SessionModel Sess Patch} {U : Unicode}.

(** The data of [crear_tarjeta] and [crear_saldo]: [{}] at the start,
    then [number], [label] and [card_number] as the steps add them. *)
Definition method_draft (d : DialogData)
  : option (option Z * option jsstring * option jsstring) :=
  match d with
  | DataEmpty => Some (None, None, None)
  | DataMethodDraft number label card_number => Some (number, label, card_number)
  | _ => None
  end.

(** The data of [editar_oferta]: [{ offer_id, game_name }] at the
    start, then [new_desc], [new_mobile] and [new_card]. *)
Definition offer_edit (d : DialogData)
  : option (Z * jsstring * option jsstring * option Z * option Z) :=
  match d with
  | DataEditOffer offer_id game_name => Some (offer_id, game_name, None, None, None)
  | DataEditOfferDraft offer_id game_name new_desc new_mobile new_card =>
      Some (offer_id, game_name, new_desc, new_mobile, new_card)
  | _ => None
  end.

(** The data of [editar_metodo]: [{ method_id, type, method_number }]
    at the start, then [new_label]. *)
Definition method_edit (d : DialogData)
  : option (Z * PayType * option Z * option jsstring) :=
  match d with
  | DataEditMethod method_id type method_number =>
      Some (method_id, type, method_number, None)
  | DataEditMethodDraft method_id type method_number new_label =>
      Some (method_id, type, method_number, new_label)
  | _ => None
  end.

(** [handleCreateCardDialog] (791-833) *)
Definition handleCreateCardDialog (jid : jsstring) (dialog : Dialog)
  (text : jsstring) : M Sess Patch bool :=
  if d_step dialog =? 1 then
    let number := emojiToNumber text in
    if falsy number then
      exec sendMessage jid InvalidIndexOrCancel;
      ret true
    else
    match method_draft (d_data dialog) with
    | Some (_, label, card_number) =>
        exec setAdminDialog jid (d_command dialog) 2
          (DataMethodDraft number label card_number);
        exec sendMessage jid AskCardLabel;
        ret true
    | None => throw TypeError
    end
  else if d_step dialog =? 2 then
    match method_draft (d_data dialog) with
    | Some (number, _, card_number) =>
        exec setAdminDialog jid (d_command dialog) 3
          (DataMethodDraft number (Some text) card_number);
        exec sendMessage jid AskCardNumber;
        ret true
    | None => throw TypeError
    end
  else if d_step dialog =? 3 then
    match method_draft (d_data dialog) with
    | Some (number, label, _) =>
        exec setAdminDialog jid (d_command dialog) 4
          (DataMethodDraft number label (Some (remove_all is_space text)));
        exec sendMessage jid AskConfirmNumber;
        ret true
    | None => throw TypeError
    end
  else if d_step dialog =? 4 then
    match method_draft (d_data dialog) with
    | Some (number, label, card_number) =>
        exec try_catch
          (exec createPaymentMethod card number label
                  (mkDetails card_number (Some text) None);
           match number with
           | Some n => sendMessage jid (CardSaved n)
           | None => throw TypeError
           end)
          (fun err => sendMessage jid (SaveError err));
        exec clearAdminDialog jid;
        ret true
    | None => throw TypeError
    end
  else ret false.

(** [handleCreateMobileDialog] (835-869) *)
Definition handleCreateMobileDialog (jid : jsstring) (dialog : Dialog)
  (text : jsstring) : M Sess Patch bool :=
  if d_step dialog =? 1 then
    let number := emojiToNumber text in
    if falsy number then
      exec sendMessage jid InvalidIndexRetry;
      ret true
    else
    match method_draft (d_data dialog) with
    | Some (_, label, card_number) =>
        exec setAdminDialog jid (d_command dialog) 2
          (DataMethodDraft number label card_number);
        exec sendMessage jid AskMobileLabel;
        ret true
    | None => throw TypeError
    end
  else if d_step dialog =? 2 then
    match method_draft (d_data dialog) with
    | Some (number, _, card_number) =>
        exec setAdminDialog jid (d_command dialog) 3
          (DataMethodDraft number (Some text) card_number);
        exec sendMessage jid AskPhoneNumber;
        ret true
    | None => throw TypeError
    end
  else if d_step dialog =? 3 then
    match method_draft (d_data dialog) with
    | Some (number, label, _) =>
        exec try_catch
          (exec createPaymentMethod mobile number label
                  (mkDetails None None (Some (remove_all is_space text)));
           match number with
           | Some n => sendMessage jid (MobileSaved n)
           | None => throw TypeError
           end)
          (fun err => sendMessage jid (SaveError err));
        exec clearAdminDialog jid;
        ret true
    | None => throw TypeError
    end
  else ret false.

(** [handleEditGameDialog] (973-990) *)
Definition handleEditGameDialog (jid : jsstring) (dialog : Dialog)
  (text : jsstring) : M Sess Patch bool :=
  if d_step dialog =? 1 then
    let newName := trim text in
    if negb (nonempty newName) then
      exec sendMessage jid NameCannotBeEmpty;
      ret true
    else
    match d_data dialog with
    | DataEditGame game_id _ =>
        exec try_catch
          (exec updateGameName game_id newName;
           sendMessage jid (GameUpdated newName))
          (fun err => sendMessage jid (UpdateError err));
        exec clearAdminDialog jid;
        ret true
    | _ => throw TypeError
    end
  else ret false.

(** [handleEditOfferDialog] (992-1048) *)
Definition handleEditOfferDialog (jid : jsstring) (dialog : Dialog)
  (text : jsstring) : M Sess Patch bool :=
  if d_step dialog =? 1 then
    match offer_edit (d_data dialog) with
    | Some (offer_id, game_name, _, new_mobile, new_card) =>
        exec setAdminDialog jid (d_command dialog) 2
          (DataEditOfferDraft offer_id game_name (Some text) new_mobile new_card);
        exec sendMessage jid AskNewMobilePrice;
        ret true
    | None => throw TypeError
    end
  else if d_step dialog =? 2 then
    match parseInt text with
    | None =>
        exec sendMessage jid InvalidPrice;
        ret true
    | Some price =>
        match offer_edit (d_data dialog) with
        | Some (offer_id, game_name, new_desc, _, new_card) =>
            exec setAdminDialog jid (d_command dialog) 3
              (DataEditOfferDraft offer_id game_name new_desc (Some price)
                 new_card);
            exec sendMessage jid AskNewCardPrice;
            ret true
        | None => throw TypeError
        end
    end
  else if d_step dialog =? 3 then
    match parseInt text with
    | None =>
        exec sendMessage jid InvalidPrice;
        ret true
    | Some price =>
        match offer_edit (d_data dialog) with
        | Some (offer_id, game_name, new_desc, new_mobile, _) =>
            exec setAdminDialog jid (d_command dialog) 4
              (DataEditOfferDraft offer_id game_name new_desc new_mobile
                 (Some price));
            exec sendMessage jid AskNewUsdPrice;
            ret true
        | None => throw TypeError
        end
    end
  else if d_step dialog =? 4 then
    let given := negb (eqb text (lit "0")) && negb (eqb (trim text) []) in
    if given && isNaN (parseFloat text) then
      exec sendMessage jid InvalidUsdPrice;
      ret true
    else
    let usd := if given then Some (parseFloat text) else None in
    match offer_edit (d_data dialog) with
    | Some (offer_id, _, new_desc, new_mobile, new_card) =>
        exec try_catch
          (exec updateOffer offer_id
                  (mkOfferUpdates new_desc new_mobile new_card (Some usd));
           sendMessage jid OfferUpdated)
          (fun err => sendMessage jid (UpdateError err));
        exec clearAdminDialog jid;
        ret true
    | None => throw TypeError
    end
  else ret false.

(** [handleEditMethodDialog] (1050-1106).  At step 2 of a card the
    new card number is put into [newDetails], a copy of the details of
    the method, and only [dialog.data] is stored (1069-1075). *)
Definition handleEditMethodDialog (jid : jsstring) (dialog : Dialog)
  (text : jsstring) : M Sess Patch bool :=
  if d_step dialog =? 1 then
    match method_edit (d_data dialog) with
    | Some (method_id, type, method_number, _) =>
        exec setAdminDialog jid (d_command dialog) 2
          (DataEditMethodDraft method_id type method_number (Some text));
        exec sendMessage jid
          match type with
          | card => AskNewCardNumber
          | mobile => AskNewPhoneNumber
          end;
        ret true
    | None => throw TypeError
    end
  else if d_step dialog =? 2 then
    match method_edit (d_data dialog) with
    | Some (method_id, type, method_number, new_label) =>
        await method <- getPaymentMethodById method_id;
        match method with
        | None =>
            exec sendMessage jid AdminMethodNotFound;
            exec clearAdminDialog jid;
            ret true
        | Some method =>
            match type with
            | card =>
                exec setAdminDialog jid (d_command dialog) 3 (d_data dialog);
                exec sendMessage jid AskNewConfirmNumber;
                ret true
            | mobile =>
                let newDetails :=
                  mkDetails (card_number (m_details method))
                    (confirm_number (m_details method))
                    (Some (remove_all is_space text)) in
                exec try_catch
                  (exec updatePaymentMethod method_id
                          (mkMethodUpdates new_label (Some newDetails));
                   sendMessage jid MethodUpdated)
                  (fun err => sendMessage jid (ErrorReply err));
                exec clearAdminDialog jid;
                ret true
            end
        end
    | None => throw TypeError
    end
  else if d_step dialog =? 3 then
    match method_edit (d_data dialog) with
    | Some (method_id, _, _, new_label) =>
        await method <- getPaymentMethodById method_id;
        match method with
        | None =>
            exec sendMessage jid AdminMethodNotFound;
            exec clearAdminDialog jid;
            ret true
        | Some method =>
            let newDetails :=
              mkDetails (card_number (m_details method)) (Some text)
                (phone_number (m_details method)) in
            exec try_catch
              (exec updatePaymentMethod method_id
                      (mkMethodUpdates new_label (Some newDetails));
               sendMessage jid CardUpdated)
              (fun err => sendMessage jid (ErrorReply err));
            exec clearAdminDialog jid;
            ret true
        end
    | None => throw TypeError
    end
  else ret false.

(** [handleAdminDialog] (759-789).  The seven commands are the ones
    the router writes; the [default] of the [switch] answers a row
    with another command, which no code writes. *)
Definition handleAdminDialog (jid text : jsstring) : M Sess Patch bool :=
  await dialog <- getAdminDialog jid;
  match dialog with
  | None => ret false
  | Some dialog =>
      let lower := toLowerCase (trim text) in
      if eqb lower (lit "cancelar") then
        exec clearAdminDialog jid;
        exec sendMessage jid DialogCancelled;
        ret true
      else
      match d_command dialog with
      | crear_tarjeta => handleCreateCardDialog jid dialog text
      | crear_saldo => handleCreateMobileDialog jid dialog text
      | crear_tabla => handleCreateTableDialog jid dialog text
      | anadir_ofertas => handleAddOffersDialog jid dialog text
      | editar_juego => handleEditGameDialog jid dialog text
      | editar_oferta => handleEditOfferDialog jid dialog text
      | editar_metodo => handleEditMethodDialog jid dialog text
      end
  end.

End Dialogs.

(** ** The inbound messages ([index.js] 32-41, 1141-1192; the fields
    file 58-60, 1192-1244) *)

(** [msg.message], as far as the code reads it. *)
Record MessageContent := mkMessageContent {
  mc_conversation : option jsstring;
  mc_extendedText : option jsstring;        (* [extendedTextMessage?.text] *)
  mc_image : option (option jsstring);      (* [imageMessage] and its caption *)
  mc_document : bool;                       (* [documentMessage] is present *)
  mc_buttonsText : option jsstring;         (* [buttonsMessage?.contentText] *)
  mc_templateText : option jsstring
    (* [templateMessage?.hydratedTemplate?.hydratedContentText] *)
}.

(** One entry of [messages]: [msg.key] and [msg.message]. *)
Record WAMessage := mkWAMessage {
  fromMe : bool;
  remoteJid : jsstring;
  participant : option jsstring;
  message : option MessageContent
}.

(** [a || b] for a text that may be missing: the empty text is falsy. *)
Definition or_else (a : option jsstring) (b : jsstring) : jsstring :=
  match a with
  | Some (c :: s) => c :: s
  | _ => b
  end.

(** [extractText] (32-41) *)
Definition extractText (msg : WAMessage) : jsstring :=
  match message msg with
  | None => []
  | Some m =>
      or_else (mc_conversation m)
        (or_else (mc_extendedText m)
           (or_else (mc_image m ≫= id)
              (or_else (mc_buttonsText m)
                 (or_else (mc_templateText m) []))))
  end.

(** What the funnel reads of the message. *)
Definition inbound (msg : WAMessage) : Inbound :=
  match message msg with
  | None => mkInbound false false
  | Some m => mkInbound (bool_decide (is_Some (mc_image m))) (mc_document m)
  end.

(** [s.endsWith(p)] *)
Definition endsWith (s p : jsstring) : bool := is_prefix (rev p) (rev s).

(** The test of a private chat in [index.js] (1159). *)
Definition isUserChat (jid : jsstring) : bool :=
  endsWith jid (lit "@s.whatsapp.net").

(** [isPrivateChat] of the fields file (F 58-60) *)
Definition isPrivateChat (jid : jsstring) : bool :=
  negb (endsWith jid (lit "@g.us")) && negb (includes (lit "@broadcast") jid).

Section Dispatch.

Context {Sess Patch : Type} {SM : SessionModel Sess Patch} {U : Unicode}.

(** What differs between the two files: the test of a private chat,
    the router and the funnel. *)
Variable isPrivate : jsstring -> bool.
Variable with_campos : bool.
Variable handleClientMessage :
  Inbound -> jsstring -> jsstring -> M Sess Patch unit.

Variable env : Env.

(** The body of the loop over the messages (1143-1191): the [try]
    block, and a [catch] that only logs. *)
Definition handleMessage (msg : WAMessage) : M Sess Patch unit :=
  try_catch
    (match message msg with
     | None => ret tt
     | Some _ =>
     if fromMe msg then ret tt
     else
     let remoteJid := remoteJid msg in
     let participant := or_else (participant msg) remoteJid in
     let text := extractText msg in
     if negb (isPrivate remoteJid) then ret tt
     else if nonempty text && eqb (trim text) (lit "/mid") then
       sendMessage remoteJid (MidReply participant)
     else
     let isAdmin := eqb participant (ADMIN_JID env) in
     if isAdmin then
       await handled <- handleAdminDialog remoteJid text;
       if handled then ret tt
       else if nonempty text && is_prefix (lit "/") text then
         handleAdminCommand with_campos remoteJid text
       else ret tt
     else handleClientMessage (inbound msg) remoteJid text
     end)
    (fun _ => ret tt).

Fixpoint handleMessages (messages : list WAMessage) : M Sess Patch unit :=
  match messages with
  | [] => ret tt
  | msg :: rest =>
      exec handleMessage msg;
      handleMessages rest
  end.

(** The listener of [messages.upsert] (1141-1192). *)
Definition onMessagesUpsert (type : jsstring) (messages : list WAMessage)
  : M Sess Patch unit :=
  if negb (eqb type (lit "notify")) then ret tt
  else handleMessages messages.

End Dispatch.

(** The listener of [index.js]. *)
Definition V1_onMessagesUpsert {U : Unicode} (env : Env)
  : jsstring -> list WAMessage -> V1.Handler unit :=
  onMessagesUpsert isUserChat false (V1.handleClientMessage env) env.

(** The listener of the fields file. *)
Definition V2_onMessagesUpsert {U : Unicode} (env : Env)
  : jsstring -> list WAMessage -> V2.Handler unit :=
  onMessagesUpsert isPrivateChat true (V2.handleClientMessage env) env.

(** One message handled by each of the files. *)
Definition V1_handleMessage {U : Unicode} (env : Env)
  : WAMessage -> V1.Handler unit :=
  handleMessage isUserChat false (V1.handleClientMessage env) env.

Definition V2_handleMessage {U : Unicode} (env : Env)
  : WAMessage -> V2.Handler unit :=
  handleMessage isPrivateChat true (V2.handleClientMessage env) env.

(** ** A small catalog to run the handlers on *)

Module Scenario.

Definition admin : jsstring := lit "5350000001@s.whatsapp.net".

Definition user : jsstring := lit "5350000002@s.whatsapp.net".

Definition env : Env :=
  mkEnv admin (lit "REQ-1700000000000-7")
    (fun fileName => Some (lit "https://storage/recargas/" ++ fileName)).

Definition gameA : Game := mkGame 1 1 (lit "Game A") [].

Definition gameB : Game := mkGame 2 2 (lit "Game B") [].

Definition offer (id game_id number : Z) (desc : string) : Offer :=
  mkOffer id game_id number (lit desc) (Some 100) (Some 150) None.

Definition mobileMethod : PaymentMethod :=
  mkPaymentMethod 31 mobile 1 (lit "Cubacel")
    (mkDetails None None (Some (lit "5355555555"))).

(** Game A has the offers 1, 2 and 3 and no field; game B has one offer
    and the field "player id"; the only payment method is a mobile
    balance. *)
Definition world {Sess} (sessions : gmap jsstring Sess) : World Sess :=
  mkWorld [gameA; gameB]
    [offer 11 1 1 "X"; offer 12 1 2 "Y"; offer 13 1 3 "Z"; offer 21 2 1 "W"]
    [mkGameField 2 (lit "player id") 1 true]
    [mobileMethod]
    sessions ∅ ∅ 100 1700000000000.

Definition text_only : Inbound := mkInbound false false.

Definition with_image : Inbound := mkInbound true false.

(** The user of [index.js] at a given step, with game A and its first
    offer selected. *)
Definition v1_at (s : V1.Step) : World V1.Session :=
  world {[ user := V1.mkSession s (Some 1) (Some 11) None None None ]}.

(** The user of [index.js] about to send the screenshot. *)
Definition v1_paying : World V1.Session :=
  world {[ user := V1.mkSession V1.awaiting_screenshot (Some 1) (Some 11)
                     (Some mobile) (Some 1) (Some (lit "REQ-1700000000000-7")) ]}.

(** The user of the fields file choosing offers of game A or B. *)
Definition v2_choosing (game_number : Z) : World V2.Session :=
  world {[ user := V2.mkSession V2.awaiting_offers (Some game_number) None None
                     None None ]}.

(** The user of the fields file at a given step. *)
Definition v2_at (s : V2.Step) : World V2.Session :=
  world {[ user := V2.mkSession s (Some 2) None None None None ]}.

(** The user of the fields file answering the only field of game B. *)
Definition v2_answering : World V2.Session :=
  world {[ user := V2.mkSession V2.awaiting_fields (Some 2) (Some [21])
                     (Some ∅) (Some 0) None ]}.

(** An order of the user waiting for the operator. *)
Definition pending_order : Request :=
  mkRequest user (lit "Game A") (lit "X") (lit "Cubacel")
    (DetailsOfMethod (m_details mobileMethod)) None pending None.

Definition with_order {Sess} (w : World Sess) : World Sess :=
  set_requests {[ lit "REQ-9" := pending_order ]} w.

(** U+1F48E, the gem of the format note of the offer dialog. *)
Definition gem : jsstring := [55357%N; 56462%N].

(** The example line of the prompt of the offer dialog (592). *)
Definition prompt_example : jsstring :=
  keycap 1 ++ lit " 110 " ++ gem ++ lit " 250 700".

Definition offers_dialog (accumulated : list OfferDraft) : Dialog :=
  mkDialog anadir_ofertas 1 (DataOffers 1 (Some 1) accumulated).

Definition earlier_draft : OfferDraft :=
  mkOfferDraft 2 (lit "60 gems") (Some 100) (Some 150) None.

(** A table of three lines; the second has no index. *)
Definition table_lines : list jsstring :=
  [keycap 1 ++ lit " Free Fire"; lit "Roblox"; keycap 3 ++ lit " Fortnite"].

Definition table_dialog (lines : list jsstring) : Dialog :=
  mkDialog crear_tabla 1 (DataTable lines).

Definition empty_world {Sess} : World Sess :=
  mkWorld [] [] [] [] ∅ ∅ ∅ 100 1700000000000.

End Scenario.

(** ** What holds of every run of a handler *)

Section Always.

Context {Sess Patch : Type}.

(** The run keeps [P] of the world, and every call it makes is a [Q]. *)
Definition always {A} (P : World Sess -> Prop) (Q : Call Patch -> Prop)
  (m : M Sess Patch A) : Prop :=
  forall w, P w -> P (final (m w)) /\ Forall Q (calls (m w)).

(** The run does not answer [false]: the message is taken. *)
Definition handles (m : M Sess Patch bool) : Prop :=
  forall w, outcome (m w) <> Ok false.

End Always.

(** A row of [admin_dialogs] as the router and the dialogs write it:
    the step is one of the steps of the command, and the data has the
    shape of the command. *)
Definition well_formed (d : Dialog) : bool :=
  let s := d_step d in
  match d_command d, d_data d with
  | crear_tarjeta, (DataEmpty | DataMethodDraft _ _ _) => (1 <=? s) && (s <=? 4)
  | crear_saldo, (DataEmpty | DataMethodDraft _ _ _) => (1 <=? s) && (s <=? 3)
  | crear_tabla, DataTable _ => s =? 1
  | anadir_ofertas, DataOffers _ _ _ => s =? 1
  | editar_juego, DataEditGame _ _ => s =? 1
  | editar_oferta, (DataEditOffer _ _ | DataEditOfferDraft _ _ _ _ _) =>
      (1 <=? s) && (s <=? 4)
  | editar_metodo, (DataEditMethod _ _ _ | DataEditMethodDraft _ _ _ _) =>
      (1 <=? s) && (s <=? 3)
  | _, _ => false
  end.

(** The calls of the funnel: the session of a user, the creation of an
    order, the upload of a screenshot. *)
Definition of_funnel {Patch} (c : Call Patch) : bool :=
  match c with
  | CGetUserSession _ | CUpdateUserSession _ _ | CCreateRequest _ _
  | CUploadScreenshot _ => true
  | _ => false
  end.

(** A call that concerns the chat [jid] only: its session, an order in
    its name, a message to it or to the operator. *)
Definition concerns {Patch} (jid operator : jsstring) (c : Call Patch) : Prop :=
  match c with
  | CGetUserSession j | CUpdateUserSession j _ => j = jid
  | CCreateRequest _ q => r_user_jid q = jid
  | CSendMessage j _ => j = jid \/ j = operator
  | CGetAdminDialog _ | CSetAdminDialog _ _ | CClearAdminDialog _
  | CCreateGame _ _ | CUpdateGame _ | CDeleteGame _ | CCreateOffer _ _
  | CDeleteOffer _ | CUpdateOffer _ _ | CCreatePaymentMethod _ _ _ _
  | CUpdatePaymentMethod _ _ | CDeletePaymentMethod _
  | CCreateGameField _ _ _ | CDeleteGameField _ _ | CCompleteRequest _ => False
  | _ => True
  end.

(** The catalog and the dialogs of the operator are those of [w0]. *)
Definition same_catalog {Sess} (w0 w : World Sess) : Prop :=
  games w = games w0 /\ offers w = offers w0 /\
  game_fields w = game_fields w0 /\ payment_methods w = payment_methods w0 /\
  admin_dialogs w = admin_dialogs w0.

(** The sender of a message: [msg.key.participant || remoteJid]. *)
Definition sender (msg : WAMessage) : jsstring :=
  or_else (participant msg) (remoteJid msg).

(** The moves of the funnel of [index.js]: a step is kept, left for
    [idle], followed by the next one, or left for the one before. *)
Definition V1_move (a b : V1.Step) : bool :=
  match a, b with
  | _, V1.idle => true
  | V1.awaiting_game, (V1.awaiting_game | V1.awaiting_offer) => true
  | V1.awaiting_offer, (V1.awaiting_offer | V1.awaiting_payment_method) => true
  | V1.awaiting_payment_method,
    (V1.awaiting_offer | V1.awaiting_payment_method
     | V1.awaiting_payment_choice) => true
  | V1.awaiting_payment_choice,
    (V1.awaiting_payment_method | V1.awaiting_payment_choice
     | V1.awaiting_screenshot) => true
  | V1.awaiting_screenshot, V1.awaiting_screenshot => true
  | V1.other_step, V1.other_step => true
  | _, _ => false
  end.

(** The moves of the funnel of the fields file. *)
Definition V2_move (a b : V2.Step) : bool :=
  match a, b with
  | _, V2.idle => true
  | V2.awaiting_game, (V2.awaiting_game | V2.awaiting_offers) => true
  | V2.awaiting_offers, (V2.awaiting_offers | V2.awaiting_fields) => true
  | V2.awaiting_fields, (V2.awaiting_offers | V2.awaiting_fields) => true
  | V2.other_step, V2.other_step => true
  | _, _ => false
  end.

(** The step of the session of a user; a user without a row is given
    one at [idle] by the first message. *)
Definition V1_step_of (w : World V1.Session) (jid : jsstring) : V1.Step :=
  match user_sessions w !! jid with
  | Some s => V1.step s
  | None => V1.idle
  end.

Definition V2_step_of (w : World V2.Session) (jid : jsstring) : V2.Step :=
  match user_sessions w !! jid with
  | Some s => V2.step s
  | None => V2.idle
  end.

(** The call creates no order in the name of [jid]. *)
Definition no_order_for {Patch} (jid : jsstring) (c : Call Patch) : Prop :=
  match c with
  | CCreateRequest _ q => r_user_jid q <> jid
  | _ => True
  end.

(** The text is the cancel word of the dialogs and of the funnels. *)
Definition is_cancel_word {U : Unicode} (text : jsstring) : bool :=
  eqb (toLowerCase (trim text)) (lit "cancelar").

(** The sessions are [S] and the identifiers of the orders are [D]. *)
Definition funnel_state {Sess} (S : gmap jsstring Sess) (D : gset jsstring)
  (w : World Sess) : Prop :=
  user_sessions w = S /\ dom (requests w) = D.

(** The call is none of the funnel. *)
Definition funnel_free {Patch} (c : Call Patch) : Prop := of_funnel c = false.

(** Nothing but the session of [jid] differs from [w0], orders apart. *)
Definition own_session_only {Sess} (w0 : World Sess) (jid : jsstring)
  (w : World Sess) : Prop :=
  same_catalog w0 w /\
  forall j, j <> jid -> user_sessions w !! j = user_sessions w0 !! j.

(** The order [q] is under [id], as it was or completed at [t]. *)
Definition order_kept {Sess} (id : jsstring) (q : Request) (t : Z)
  (w : World Sess) : Prop :=
  now w = t /\
  (requests w !! id = Some q \/ requests w !! id = Some (complete t q)).

(** Any call. *)
Definition any_call {Patch} (c : Call Patch) : Prop := True.

(** Every row of the dialogs is well formed. *)
Definition rows_well_formed {Sess} (w : World Sess) : Prop :=
  forall jid d, admin_dialogs w !! jid = Some d -> well_formed d = true.

(** A dialog row the call writes is well formed. *)
Definition writes_well_formed {Patch} (c : Call Patch) : Prop :=
  match c with
  | CSetAdminDialog _ d => well_formed d = true
  | _ => True
  end.

(** The session of [jid] is at [idle], or [jid] has none. *)
Definition V1_at_rest (jid : jsstring) (w : World V1.Session) : Prop :=
  V1_step_of w jid = V1.idle.

Definition V2_at_rest (jid : jsstring) (w : World V2.Session) : Prop :=
  V2_step_of w jid = V2.idle.

(** Every row of [admin_dialogs] is well formed. *)
Definition all_well_formed {Sess} (w : World Sess) : bool :=
  forallb (fun row => well_formed row.2) (map_to_list (admin_dialogs w)).

(** The value of a decimal numeral read after digits of value [acc]. *)
Fixpoint uint_value (d : Decimal.uint) (acc : Z) : Z :=
  match d with
  | Decimal.Nil => acc
  | Decimal.D0 d => uint_value d (10 * acc)
  | Decimal.D1 d => uint_value d (10 * acc + 1)
  | Decimal.D2 d => uint_value d (10 * acc + 2)
  | Decimal.D3 d => uint_value d (10 * acc + 3)
  | Decimal.D4 d => uint_value d (10 * acc + 4)
  | Decimal.D5 d => uint_value d (10 * acc + 5)
  | Decimal.D6 d => uint_value d (10 * acc + 6)
  | Decimal.D7 d => uint_value d (10 * acc + 7)
  | Decimal.D8 d => uint_value d (10 * acc + 8)
  | Decimal.D9 d => uint_value d (10 * acc + 9)
  end.

(** The largest integer a JavaScript number holds exactly,
    [Number.MAX_SAFE_INTEGER]. *)
Definition max_safe_integer : Z := 2 ^ 53 - 1.

(** ** The operator at work: worlds to run the dialogs on *)

Module Desk.

Import Scenario.

(** The operator with an open dialog, over the small catalog. *)
Definition with_dialog {Sess} (d : Dialog) : World Sess :=
  set_admin_dialogs {[ admin := d ]} (world ∅).

(** A card, besides the mobile balance of the catalog. *)
Definition cardMethod : PaymentMethod :=
  mkPaymentMethod 32 card 1 (lit "Metropolitano")
    (mkDetails (Some (lit "9200111122223333")) (Some (lit "55551234")) None).

Definition with_card {Sess} (w : World Sess) : World Sess :=
  set_payment_methods (payment_methods w ++ [cardMethod]) w.

(** A text message of a private chat. *)
Definition text_from (jid : jsstring) (text : string) : WAMessage :=
  mkWAMessage false jid None
    (Some (mkMessageContent (Some (lit text)) None None false None None)).

(** A user of [index.js] and one of the fields file at rest. *)
Definition v1_resting : World V1.Session := world {[ user := V1.cleared ]}.

Definition v2_resting : World V2.Session := world {[ user := V2.cleared ]}.


(** The user of [index.js] about to pick one of the mobile balances. *)
Definition v1_choosing_method : World V1.Session :=
  world {[ user := V1.mkSession V1.awaiting_payment_choice (Some 1) (Some 11)
                     (Some mobile) None None ]}.

(** What customers and the operator send in one batch. *)
Definition batch : list WAMessage :=
  [text_from user "1"; text_from admin "/completar REQ-9";
   text_from user "cancelar"; text_from admin "/crear tabla";
   text_from admin "1 Free Fire"].

End Desk.

(** * Properties *)

#[local] Arguments lit : simpl never.
#[local] Arguments eqb : simpl never.
#[local] Arguments order_by : simpl never.
#[local] Arguments interpolate : simpl never.
#[local] Arguments join : simpl never.
#[local] Arguments emojiToNumber : simpl never.
#[local] Arguments falsy : simpl never.
#[local] Arguments V2.resolveOffers : simpl never.
#[local] Arguments V2.parseNumbers : simpl never.

(** Unfolding of the store layer and of the monad, one step of the
    symbolic run of a handler. *)
Ltac unfold_store :=
  unfold getUserSession, updateUserSession, sendMainMenu, getGames,
    getGameByNumber, getOffersByGameId, getOfferByGameAndNumber, getOfferById,
    getOffersByIds, getPaymentMethods, getPaymentMethodByNumber, getGameFields,
    createRequest, getRequest, completeRequest, maybeSingle,
    createGameField, deleteGameField,
    setAdminDialog, clearAdminDialog, sendMessage, sendWithCancelHint,
    games_in_order, games_numbered, offers_of_game, offers_numbered,
    offers_with_id, offers_among, methods_of_type, methods_numbered,
    fields_of_game, bind, call, modify, gets, ret, throw, try_catch.

Ltac run := repeat (unfold_store; cbn).

(** Case analysis on the innermost test the run is stuck on. *)
Ltac split_match :=
  match goal with
  | |- context [match ?x with _ => _ end] =>
      lazymatch x with
      | context [match _ with _ => _ end] => fail
      | _ => destruct x eqn:?
      end
  end.

Ltac all_paths := repeat (split_match; run).

(** Which of the calls of a run the hypothesis [H : In c calls] names. *)
Ltac call_cases H :=
  cbn in H;
  repeat (destruct H as [H|H]; [try discriminate H|]);
  try (exfalso; exact H).

(** ** Menu indices *)

Lemma keycap_round_trip :
  Forall (fun n => emojiToNumber (numberToEmoji n) = Some n)
    [0; 1; 2; 3; 4; 5; 6; 7; 8; 9].
Proof. repeat constructor. Qed.

(** C3. Rendering the index ten gives the glyph U+1F51F, which holds no
    ASCII digit: [emojiToNumber] answers [null] on it instead of ten,
    while the indices zero to nine do come back. *)
Theorem keycap_ten_does_not_parse :
  numberToEmoji 10 = keycap_ten /\
  emojiToNumber (numberToEmoji 10) = None /\
  Forall (fun n => emojiToNumber (numberToEmoji n) = Some n)
    [0; 1; 2; 3; 4; 5; 6; 7; 8; 9].
Proof. repeat split; try reflexivity. apply keycap_round_trip. Qed.

Lemma eqb_true (a b : jsstring) : eqb a b = true <-> a = b.
Proof. unfold eqb. apply bool_decide_eq_true. Qed.

Lemma eqb_refl (a : jsstring) : eqb a a = true.
Proof. now apply eqb_true. Qed.

(** ** The client funnel of [index.js] *)

Section V1_facts.

Context {U : Unicode} (env : Env).

Implicit Types (w : World V1.Session) (s : V1.Session) (jid text : jsstring).

(** A pass of the funnel is completed when the user is told that the
    request was sent; then one order was inserted, pending, under the
    identifier of the session, and the session is at rest. *)
Lemma V1_completed_pass msg jid text w rid :
  let r := V1.handleClientMessage env msg jid text w in
  In (CSendMessage jid (RequestSent rid)) (calls r) ->
  exists id req,
    rid = Some id /\ requests w !! id = None /\
    requests (final r) = <[id := req]> (requests w) /\
    r_status req = pending /\ r_user_jid req = jid /\
    omap sent (calls r) =
      [(ADMIN_JID env,
        NewRequest rid (userNumber jid) (r_game_name req) (r_offer_desc req)
          (r_payment_method req) (default [] (r_screenshot_url req)));
       (jid, RequestSent rid)] /\
    user_sessions (final r) !! jid = Some V1.cleared.
Proof.
  cbn zeta. unfold V1.handleClientMessage, V1.handleBack, V1.submitScreenshot.
  run. all_paths; intros Hin; call_cases Hin.
  all: injection Hin as <-.
  all: eexists _, _; repeat split; eauto.
  all: rewrite lookup_alter_eq; try rewrite Heqo; reflexivity.
Qed.

Lemma V1_cancel_clears msg jid text w :
  eqb (toLowerCase (trim text)) (lit "cancelar") = true ->
  user_sessions (final (V1.handleClientMessage env msg jid text w)) !! jid
  = Some V1.cleared.
Proof.
  intros Hl. unfold V1.handleClientMessage. run.
  destruct (user_sessions w !! jid) eqn:E; run; rewrite Hl; run;
    destruct (order_by _ _); run.
  all: rewrite lookup_alter_eq; try rewrite E; try rewrite lookup_insert_eq;
    reflexivity.
Qed.

Lemma V1_falsy_index msg jid text w s :
  user_sessions w !! jid = Some s ->
  V1.step s = V1.awaiting_game \/ V1.step s = V1.awaiting_offer
    \/ V1.step s = V1.awaiting_payment_choice ->
  eqb (toLowerCase (trim text)) (lit "cancelar") = false ->
  eqb (toLowerCase (trim text)) (lit "volver") = false ->
  falsy (emojiToNumber text) = true ->
  V1.handleClientMessage env msg jid text w =
    mkRun (Ok tt) w
      [CGetUserSession jid;
       CSendMessage jid (WithCancelHint (V1.invalid_index_reply (V1.step s)))].
Proof.
  intros Hs Hst Hc Hv Hf. unfold V1.handleClientMessage. run.
  rewrite Hs. run. rewrite Hc, Hv.
  destruct Hst as [-> | [-> | ->]]; rewrite Hf; run; now destruct w.
Qed.

End V1_facts.

(** ** The client funnel of the fields file *)

Section V2_facts.

Context {U : Unicode} (env : Env).

Implicit Types (w : World V2.Session) (s : V2.Session) (jid text : jsstring).

(** A pass of the funnel is completed when the user is told that the
    request was sent. *)
Lemma V2_completed_pass msg jid text w rid :
  let r := V2.handleClientMessage env msg jid text w in
  In (CSendMessage jid (RequestSentAwaitContact rid)) (calls r) ->
  exists req,
    requests w !! rid = None /\
    requests (final r) = <[rid := req]> (requests w) /\
    r_status req = pending /\ r_user_jid req = jid /\
    user_sessions (final r) !! jid = Some V2.cleared.
Proof.
  cbn zeta.
  unfold V2.handleClientMessage, V2.handleBack, V2.sendRequestToAdmin.
  run. all_paths; intros Hin; call_cases Hin.
  all: injection Hin as <-.
  all: eexists; repeat split; eauto.
  all: rewrite lookup_alter_eq; try rewrite lookup_alter_eq;
    try rewrite Heqo; reflexivity.
Qed.

Lemma V2_cancel_clears msg jid text w :
  eqb (toLowerCase (trim text)) (lit "cancelar") = true ->
  user_sessions (final (V2.handleClientMessage env msg jid text w)) !! jid
  = Some V2.cleared.
Proof.
  intros Hl. unfold V2.handleClientMessage. run.
  destruct (user_sessions w !! jid) eqn:E; run;
    destruct (V2.containsOfertas text && _); run; try rewrite Hl; run;
    destruct (order_by _ _); run.
  all: rewrite lookup_alter_eq; try rewrite E; try rewrite lookup_insert_eq;
    reflexivity.
Qed.

End V2_facts.

Section V2_offers.

Context {U : Unicode} (env : Env).

Implicit Types (w : World V2.Session) (s : V2.Session) (jid text : jsstring).

Lemma find_offer_resolves offers num :
  List.find (fun o => o_number o =? num) offers = None <->
  V2.resolves offers num = false.
Proof.
  unfold V2.resolves. induction offers as [|o offers IH]; cbn; [easy|].
  destruct (o_number o =? num); cbn; [easy | exact IH].
Qed.

Lemma resolveOffers_cons offers n ns acc :
  V2.resolveOffers offers (n :: ns) acc =
  match List.find (fun o => o_number o =? n) offers with
  | None => inl n
  | Some offer => V2.resolveOffers offers ns (acc ++ [o_id offer])
  end.
Proof. reflexivity. Qed.

Lemma resolveOffers_invalid offers numbers :
  forallb (V2.resolves offers) numbers = false ->
  exists num,
    V2.first_invalid offers numbers = Some num /\
    forall acc, V2.resolveOffers offers numbers acc = inl num.
Proof.
  unfold V2.first_invalid.
  induction numbers as [|n numbers IH];
    cbn [forallb List.find]; [discriminate|].
  destruct (V2.resolves offers n) eqn:E; cbn.
  - intros H. destruct (IH H) as (num & Hf & Hr). exists num. split; [easy|].
    intros acc. rewrite resolveOffers_cons.
    destruct (List.find _ offers) eqn:F; [apply Hr|].
    apply find_offer_resolves in F. congruence.
  - intros _. exists n. split; [easy|]. intros acc.
    rewrite resolveOffers_cons.
    apply find_offer_resolves in E. now rewrite E.
Qed.

Lemma resolveOffers_valid offers numbers :
  forallb (V2.resolves offers) numbers = true ->
  forall acc,
    V2.resolveOffers offers numbers acc
    = inr (acc ++ V2.selected_ids offers numbers).
Proof.
  unfold V2.selected_ids.
  induction numbers as [|n numbers IH]; cbn [forallb omap list_omap];
    intros H acc.
  - now rewrite app_nil_r.
  - apply andb_true_iff in H as [Hn H]. rewrite resolveOffers_cons.
    destruct (List.find _ offers) eqn:F; cbn.
    + rewrite (IH H). now rewrite <- app_assoc.
    + apply find_offer_resolves in F. congruence.
Qed.

Lemma selected_ids_nonempty offers numbers :
  forallb (V2.resolves offers) numbers = true ->
  nonempty numbers = true -> nonempty (V2.selected_ids offers numbers) = true.
Proof.
  destruct numbers as [|n numbers]; [discriminate|]. cbn.
  intros H _. apply andb_true_iff in H as [Hn H].
  unfold V2.selected_ids. cbn.
  destruct (List.find _ offers) eqn:F; [reflexivity|].
  apply find_offer_resolves in F. congruence.
Qed.

(** The step of the offers, on a message that is no control word, for a
    session whose game is in the catalog. *)
Lemma V2_offers_invalid msg jid text w s game :
  user_sessions w !! jid = Some s ->
  V2.step s = V2.awaiting_offers ->
  V2.containsOfertas text = false ->
  eqb (toLowerCase (trim text)) (lit "cancelar") = false ->
  eqb (toLowerCase (trim text)) (lit "volver") = false ->
  games_numbered (V2.selected_game s) w = [game] ->
  forallb (V2.resolves (offers_of_game (g_id game) w)) (V2.parseNumbers text)
    = false ->
  exists num,
    V2.first_invalid (offers_of_game (g_id game) w) (V2.parseNumbers text)
      = Some num /\
    V2.handleClientMessage env msg jid text w =
      mkRun (Ok tt) w
        [CGetUserSession jid;
         CGetGameByNumber (V2.selected_game s);
         CGetOffersByGameId (g_id game);
         CSendMessage jid (WithCancelHint (OfferNumberDoesNotExist num))].
Proof.
  intros Hs Hst Ho Hc Hv Hg Hr.
  destruct (resolveOffers_invalid _ _ Hr) as (num & Hf & Hres).
  exists num. split; [exact Hf|].
  unfold V2.handleClientMessage.
  unfold getUserSession, bind, call, gets, ret. cbn. rewrite Hs. cbn.
  rewrite Ho, Hc, Hv, Hst. cbn.
  destruct (V2.parseNumbers text) as [|n ns] eqn:Hn; [discriminate|].
  unfold getGameByNumber, bind, call, gets, ret, maybeSingle. cbn.
  rewrite Hg. cbn.
  unfold getOffersByGameId, bind, call, gets, ret. cbn.
  rewrite Hres. run. now destruct w.
Qed.

End V2_offers.

Section V2_selection.

Context {U : Unicode} (env : Env).

Implicit Types (w : World V2.Session) (s : V2.Session) (jid text : jsstring).

(** A selection whose numbers all resolve, for a game with fields: the
    offers are stored and the first field is asked. *)
Lemma V2_offers_then_fields msg jid text w s game field fields :
  user_sessions w !! jid = Some s ->
  V2.step s = V2.awaiting_offers ->
  V2.containsOfertas text = false ->
  eqb (toLowerCase (trim text)) (lit "cancelar") = false ->
  eqb (toLowerCase (trim text)) (lit "volver") = false ->
  games_numbered (V2.selected_game s) w = [game] ->
  nonempty (V2.parseNumbers text) = true ->
  forallb (V2.resolves (offers_of_game (g_id game) w)) (V2.parseNumbers text)
    = true ->
  fields_of_game (g_id game) w = field :: fields ->
  let ids := V2.selected_ids (offers_of_game (g_id game) w) (V2.parseNumbers text) in
  let r := V2.handleClientMessage env msg jid text w in
  outcome r = Ok tt /\
  calls r =
    [CGetUserSession jid;
     CGetGameByNumber (V2.selected_game s);
     CGetOffersByGameId (g_id game);
     CUpdateUserSession jid
       (V2.mkPatch (Some V2.awaiting_fields) None (Some (Some ids))
          (Some (Some ∅)) (Some (Some 0)) None);
     CGetGameFields (g_id game);
     CSendMessage jid (AskFirstField (f_name field))] /\
  user_sessions (final r) !! jid =
    Some (V2.mkSession V2.awaiting_fields (V2.selected_game s) (Some ids)
            (Some ∅) (Some 0) (V2.request_id s)) /\
  requests (final r) = requests w.
Proof.
  intros Hs Hst Ho Hc Hv Hg Hn Hr Hf. cbn zeta.
  pose proof (resolveOffers_valid _ _ Hr []) as Hres. cbn [app] in Hres.
  remember (V2.selected_ids _ _) as ids eqn:Eids.
  unfold V2.handleClientMessage.
  unfold getUserSession, bind, call, gets, ret. cbn. rewrite Hs. cbn.
  rewrite Ho, Hc, Hv, Hst. cbn.
  destruct (V2.parseNumbers text) as [|n ns] eqn:Hp; [discriminate|].
  unfold getGameByNumber, bind, call, gets, ret, maybeSingle. cbn.
  rewrite Hg. cbn.
  unfold getOffersByGameId, bind, call, gets, ret. cbn.
  rewrite Hres.
  unfold fields_of_game in Hf. run. rewrite Hf. run.
  repeat split. rewrite lookup_alter_eq, Hs. reflexivity.
Qed.

(** The same selection for a game without fields: the order is
    submitted at once. *)
Lemma V2_offers_then_order msg jid text w s game :
  user_sessions w !! jid = Some s ->
  V2.step s = V2.awaiting_offers ->
  V2.containsOfertas text = false ->
  eqb (toLowerCase (trim text)) (lit "cancelar") = false ->
  eqb (toLowerCase (trim text)) (lit "volver") = false ->
  games_numbered (V2.selected_game s) w = [game] ->
  nonempty (V2.parseNumbers text) = true ->
  forallb (V2.resolves (offers_of_game (g_id game) w)) (V2.parseNumbers text)
    = true ->
  fields_of_game (g_id game) w = [] ->
  requests w !! generateRequestId env = None ->
  let ids := V2.selected_ids (offers_of_game (g_id game) w) (V2.parseNumbers text) in
  let rid := generateRequestId env in
  let r := V2.handleClientMessage env msg jid text w in
  outcome r = Ok tt /\
  requests (final r) =
    <[rid := mkRequest jid (g_name game)
               (join (lit ", ") (List.map o_description (offers_among ids w)))
               (lit "pendiente") (DetailsOfFields (Some ∅)) None pending None]>
      (requests w) /\
  omap sent (calls r) =
    [(ADMIN_JID env,
      NewRequestWithFields (userNumber jid) game (offers_among ids w) ∅ rid);
     (jid, RequestSentAwaitContact rid)] /\
  user_sessions (final r) !! jid = Some V2.cleared.
Proof.
  intros Hs Hst Ho Hc Hv Hg Hn Hr Hf Hfresh. cbn zeta.
  pose proof (selected_ids_nonempty _ _ Hr Hn) as Hids.
  pose proof (resolveOffers_valid _ _ Hr []) as Hres. cbn [app] in Hres.
  remember (V2.selected_ids _ _) as ids eqn:Eids.
  destruct ids as [|i ids]; [discriminate|].
  unfold V2.handleClientMessage.
  unfold getUserSession, bind, call, gets, ret. cbn. rewrite Hs. cbn.
  rewrite Ho, Hc, Hv, Hst. cbn.
  destruct (V2.parseNumbers text) as [|n ns] eqn:Hp; [discriminate|].
  unfold getGameByNumber, bind, call, gets, ret, maybeSingle. cbn.
  rewrite Hg. cbn.
  unfold getOffersByGameId, bind, call, gets, ret. cbn.
  rewrite Hres.
  unfold fields_of_game in Hf. unfold games_numbered in Hg.
  unfold V2.sendRequestToAdmin. run. rewrite Hf. run. rewrite Hg. run.
  rewrite Hfresh. run.
  repeat split. rewrite !lookup_alter_eq, Hs. reflexivity.
Qed.

End V2_selection.

(** ** The "oferta" trigger of the fields file *)

Lemma is_prefix_app (p q t : jsstring) :
  is_prefix (p ++ q) t = is_prefix p t && is_prefix q (drop (length p) t).
Proof.
  revert t. induction p as [|a p IH]; intros t; cbn.
  - now rewrite drop_0.
  - destruct t as [|b t]; cbn; [reflexivity|].
    rewrite IH. now rewrite andb_assoc.
Qed.

(** The regular expression of the source matches exactly the texts
    that contain "ofert". *)
Lemma ofertas_regex_includes (t : jsstring) :
  regex_test V2.ofertas_regex t = includes (lit "ofert") t.
Proof.
  induction t as [|c t IH].
  - reflexivity.
  - cbn [regex_test includes]. rewrite IH. f_equal.
    unfold V2.ofertas_regex. cbn [match_here].
    change (lit "oferta") with (lit "ofert" ++ lit "a").
    rewrite is_prefix_app.
    destruct (is_prefix (lit "ofert") (c :: t)); cbn [andb orb]; [|reflexivity].
    now rewrite !orb_true_r, ?andb_true_r, ?orb_diag.
Qed.

(** The pattern of the specification matches exactly the texts that
    contain "oferta". *)
Lemma spec_regex_includes (t : jsstring) :
  regex_test V2.spec_ofertas_regex t = includes (lit "oferta") t.
Proof.
  induction t as [|c t IH].
  - reflexivity.
  - cbn [regex_test includes]. rewrite IH. f_equal.
    unfold V2.spec_ofertas_regex. cbn [match_here].
    now rewrite !orb_true_r, andb_true_r.
Qed.

Section V2_trigger.

Context {U : Unicode} (env : Env).

Implicit Types (w : World V2.Session) (s : V2.Session) (jid text : jsstring).

Lemma containsOfertas_includes text :
  V2.containsOfertas text =
  nonempty text && includes (lit "ofert") (V2.normalized text).
Proof.
  unfold V2.containsOfertas. destruct text; [reflexivity|].
  now rewrite ofertas_regex_includes.
Qed.

Lemma V2_trigger_fires msg jid text w s :
  user_sessions w !! jid = Some s ->
  V2.is_idle (V2.step s) = false ->
  V2.containsOfertas text = true ->
  let r := V2.handleClientMessage env msg jid text w in
  outcome r = Ok tt /\
  calls r =
    [CGetUserSession jid; CGetGames; CSendMessage jid (main_menu w);
     CUpdateUserSession jid V2.reset] /\
  user_sessions (final r) !! jid = Some V2.cleared.
Proof.
  intros Hs Hi Ho. cbn zeta. unfold V2.handleClientMessage, main_menu. run.
  rewrite Hs. run. rewrite Ho, Hi. run.
  destruct (order_by _ _); run; repeat split;
    rewrite lookup_alter_eq, Hs; reflexivity.
Qed.

Lemma V2_trigger_idle msg jid text w s :
  user_sessions w !! jid = Some s ->
  V2.step s = V2.idle ->
  eqb (toLowerCase (trim text)) (lit "cancelar") = false ->
  V2.handleClientMessage env msg jid text w =
    mkRun (Ok tt) w
      [CGetUserSession jid; CGetGames; CSendMessage jid (main_menu w)].
Proof.
  intros Hs Hi Hc. unfold V2.handleClientMessage, V2.handleBack, main_menu. run.
  rewrite Hs. run. rewrite Hi, Hc, andb_false_r. run.
  destruct (eqb _ (lit "volver")); run; destruct (order_by _ _); run;
    now destruct w.
Qed.

(** Without the trigger word and without the cancel word, the session
    is written back to rest only by a completed pass. *)
Lemma V2_reset_only_on_completion msg jid text w :
  V2.containsOfertas text = false ->
  eqb (toLowerCase (trim text)) (lit "cancelar") = false ->
  let r := V2.handleClientMessage env msg jid text w in
  In (CUpdateUserSession jid V2.reset) (calls r) ->
  In (CSendMessage jid (RequestSentAwaitContact (generateRequestId env)))
     (calls r).
Proof.
  intros Ho Hc. cbn zeta.
  unfold V2.handleClientMessage, V2.handleBack, V2.sendRequestToAdmin.
  rewrite Ho, Hc. unfold V2.reset, V2.only_step.
  run. all_paths; intros Hin; call_cases Hin.
  all: cbn; tauto.
Qed.

End V2_trigger.

Section V1_payment.

Context {U : Unicode} (env : Env).

Implicit Types (w : World V1.Session) (s : V1.Session) (jid text : jsstring).

Lemma V1_invalid_payment_type msg jid text w s :
  user_sessions w !! jid = Some s ->
  V1.step s = V1.awaiting_payment_method ->
  eqb (toLowerCase (trim text)) (lit "cancelar") = false ->
  eqb (toLowerCase (trim text)) (lit "volver") = false ->
  eqb (trim text) (lit "1") = false ->
  eqb (trim text) (lit "2") = false ->
  V1.handleClientMessage env msg jid text w =
    mkRun (Ok tt) w
      [CGetUserSession jid;
       CSendMessage jid (WithCancelHint InvalidPaymentType)].
Proof.
  intros Hs Hst Hc Hv H1 H2. unfold V1.handleClientMessage. run.
  rewrite Hs. run. rewrite Hc, Hv, Hst, H1, H2. run. now destruct w.
Qed.

Lemma V1_no_methods_of_type msg jid text w s :
  user_sessions w !! jid = Some s ->
  V1.step s = V1.awaiting_payment_method ->
  eqb (toLowerCase (trim text)) (lit "cancelar") = false ->
  eqb (toLowerCase (trim text)) (lit "volver") = false ->
  eqb (trim text) (lit "1") || eqb (trim text) (lit "2") = true ->
  let type := if eqb (trim text) (lit "1") then card else mobile in
  methods_of_type type w = [] ->
  V1.handleClientMessage env msg jid text w =
    mkRun (Ok tt) w
      [CGetUserSession jid; CGetPaymentMethods type;
       CSendMessage jid (WithCancelHint NoMethodsOfThatType)].
Proof.
  intros Hs Hst Hc Hv H12 type Hm. unfold V1.handleClientMessage. run.
  rewrite Hs. run. rewrite Hc, Hv, Hst.
  replace (negb (eqb (trim text) (lit "1")) && negb (eqb (trim text) (lit "2")))
    with false by (now rewrite <- negb_orb, H12).
  fold type. unfold methods_of_type in Hm. rewrite Hm. run. now destruct w.
Qed.

(** Offer chosen while no payment method exists at all: the flow ends
    and the step goes back to [idle]. *)
Lemma V1_no_methods_at_all msg jid text w s game offer :
  user_sessions w !! jid = Some s ->
  V1.step s = V1.awaiting_offer ->
  eqb (toLowerCase (trim text)) (lit "cancelar") = false ->
  eqb (toLowerCase (trim text)) (lit "volver") = false ->
  falsy (emojiToNumber text) = false ->
  games_numbered (V1.selected_game s) w = [game] ->
  offers_numbered (g_id game) (emojiToNumber text) w = [offer] ->
  methods_of_type card w = [] ->
  methods_of_type mobile w = [] ->
  let r := V1.handleClientMessage env msg jid text w in
  outcome r = Ok tt /\
  omap sent (calls r) = [(jid, NoPaymentMethodsConfigured)] /\
  V1.step <$> user_sessions (final r) !! jid = Some V1.idle.
Proof.
  intros Hs Hst Hc Hv Hf Hg Ho Hcard Hmob. cbn zeta.
  unfold V1.handleClientMessage. run.
  rewrite Hs. run. rewrite Hc, Hv, Hst, Hf.
  unfold games_numbered in Hg. unfold offers_numbered in Ho.
  unfold methods_of_type in Hcard, Hmob.
  run. rewrite Hg. run. rewrite Ho. run. rewrite Hcard. run. rewrite Hmob. run.
  repeat split. rewrite !lookup_alter_eq, Hs. reflexivity.
Qed.

End V1_payment.

(** ** The operator *)

Section Operator_facts.

Context {Sess Patch : Type} {SM : SessionModel Sess Patch} {U : Unicode}.

Implicit Types (w : World Sess) (jid text : jsstring).

(** Evaluation of the comparisons between the words of the grammar. *)
Ltac compare_words :=
  repeat match goal with
  | |- context [eqb (lit ?a) ?b] =>
      let v := eval vm_compute in (eqb (lit a) b) in
      change (eqb (lit a) b) with v
  end.

(** A text whose first word is [/completar], followed by an
    identifier, runs the completion of that identifier. *)
Lemma route_completar with_campos jid text id :
  let parts := split is_space (trim text) in
  toLowerCase (default [] (parts !! 0%nat)) = lit "/completar" ->
  parts !! 1%nat = Some id ->
  nonempty id = true ->
  handleAdminCommand (Sess:=Sess) (Patch:=Patch) with_campos jid text
  = completar jid id.
Proof.
  intros parts Hcmd Hid Hne. unfold handleAdminCommand. fold parts.
  rewrite Hcmd. compare_words. rewrite !andb_false_r. cbn [andb].
  unfold part_given. rewrite Hid. destruct id; [discriminate|]. reflexivity.
Qed.

Lemma completar_pending jid id w req :
  requests w !! id = Some req ->
  r_status req = pending ->
  completar (Patch:=Patch) jid id w =
    mkRun (Ok tt)
      (set_requests (<[id := complete (now w) req]> (requests w)) w)
      [CGetRequest id; CCompleteRequest id;
       CSendMessage (r_user_jid req)
         (RechargeCompleted (r_game_name req) (r_offer_desc req));
       CSendMessage jid (RequestMarkedCompleted id)].
Proof.
  intros Hr Hp. unfold completar. run. rewrite Hr, Hp. run.
  do 2 f_equal. apply map_eq. intros k.
  destruct (decide (k = id)) as [->|Hk].
  - now rewrite lookup_alter_eq, lookup_insert_eq, Hr.
  - now rewrite lookup_alter_ne, lookup_insert_ne.
Qed.

Lemma completar_completed jid id w req :
  requests w !! id = Some req ->
  r_status req = completed ->
  completar (Patch:=Patch) jid id w =
    mkRun (Ok tt) w [CGetRequest id; CSendMessage jid RequestAlreadyCompleted].
Proof.
  intros Hr Hp. unfold completar. run. rewrite Hr, Hp. run. now destruct w.
Qed.

Lemma completar_unknown jid id w :
  requests w !! id = None ->
  completar (Patch:=Patch) jid id w =
    mkRun (Ok tt) w [CGetRequest id; CSendMessage jid RequestNotFound].
Proof.
  intros Hr. unfold completar. run. rewrite Hr. run. now destruct w.
Qed.

(** *** The bulk product table *)

Lemma createFromLines_run jid lines :
  forall success w,
    let r := createFromLines (Patch:=Patch) jid success lines w in
    exists n,
      outcome r = Ok n /\
      omap create_attempt (calls r) = omap table_entry lines /\
      omap sent (calls r) =
        List.map (fun '(name, e) => (jid, GameCreateError name e))
          (omap error_report (calls r)) /\
      n - success
        = Z.of_nat (length (games (final r))) - Z.of_nat (length (games w)) /\
      (n - success) + Z.of_nat (length (omap error_report (calls r)))
        = Z.of_nat (length (omap table_entry lines)) /\
      admin_dialogs (final r) = admin_dialogs w.
Proof.
  induction lines as [|line lines IH]; intros success w; cbn zeta.
  - exists success. cbn. repeat split; lia.
  - cbn [createFromLines]. unfold bind at 1. unfold createFromLine.
    cbn [omap list_omap].
    destruct (table_entry line) as [[num name]|] eqn:E.
    + unfold createGame, try_catch. run.
      destruct (existsb _ (games w)) eqn:T; run.
      * specialize (IH success w). cbn zeta in IH.
        destruct (createFromLines jid success lines w) as [o w' l].
        destruct IH as (n & Ho & Hc & Hs & Hg & He & Hd). cbn in *.
        exists n. subst o. cbn. rewrite Hc, Hs.
        repeat split; try easy; lia.
      * match goal with |- context [createFromLines jid (success + 1) lines ?w1] =>
          specialize (IH (success + 1) w1); cbn zeta in IH;
          destruct (createFromLines jid (success + 1) lines w1) as [o w' l]
        end.
        destruct IH as (n & Ho & Hc & Hs & Hg & He & Hd). cbn in *.
        exists n. subst o. cbn. rewrite Hc, Hs.
        rewrite length_app in Hg. cbn in Hg.
        repeat split; try easy; lia.
    + run. specialize (IH success w). cbn zeta in IH.
      destruct (createFromLines jid success lines w) as [o w' l].
      destruct IH as (n & Ho & Hc & Hs & Hg & He & Hd). cbn in *.
      exists n. subst o. cbn. repeat split; try easy; lia.
Qed.

Lemma table_batch_run jid dialog text lines w :
  d_step dialog = 1 ->
  d_data dialog = DataTable lines ->
  nonempty lines = true ->
  eqb (toLowerCase text) (lit "/listo") = true ->
  let r := handleCreateTableDialog (Patch:=Patch) jid dialog text w in
  exists success,
    outcome r = Ok true /\
    omap create_attempt (calls r) = omap table_entry lines /\
    omap sent (calls r) =
      List.map (fun '(name, e) => (jid, GameCreateError name e))
        (omap error_report (calls r))
      ++ [(jid, GamesCreated success)] /\
    success
      = Z.of_nat (length (games (final r))) - Z.of_nat (length (games w)) /\
    success + Z.of_nat (length (omap error_report (calls r)))
      = Z.of_nat (length (omap table_entry lines)) /\
    admin_dialogs (final r) !! jid = None.
Proof.
  intros Hstep Hdata Hne Hl. cbn zeta. unfold handleCreateTableDialog.
  rewrite Hstep, Hdata, Hl. cbn [Z.eqb Pos.eqb].
  destruct lines as [|line lines]; [discriminate|].
  remember (line :: lines) as ls.
  pose proof (createFromLines_run jid ls 0 w) as H. cbn zeta in H.
  run.
  destruct (createFromLines jid 0 ls w) as [o w' l].
  destruct H as (n & Ho & Hc & Hs & Hg & He & Hd). cbn in Ho, Hc, Hs, Hg, He, Hd.
  subst o. cbn. exists n.
  rewrite !omap_app. cbn. rewrite !app_nil_r, Hc, Hs.
  repeat split; try easy; try lia.
  apply lookup_delete_eq.
Qed.

(** *** The bulk offer entry *)

(** A refused line changes nothing: the lines accumulated so far stay
    in the dialog. *)
Lemma refused_line_keeps_dialog jid dialog text w game_id game_number offers refusal :
  d_step dialog = 1 ->
  d_data dialog = DataOffers game_id game_number offers ->
  eqb (toLowerCase text) (lit "/fin") = false ->
  parseOfferLine text = inl refusal ->
  handleAddOffersDialog (Patch:=Patch) jid dialog text w =
    mkRun (Ok true) w [CSendMessage jid refusal].
Proof.
  intros Hstep Hdata Hl Hp. unfold handleAddOffersDialog.
  rewrite Hstep, Hdata, Hl, Hp. run. now destruct w.
Qed.

(** An accepted line is appended to the lines accumulated so far. *)
Lemma accepted_line_appended jid dialog text w game_id game_number offers draft :
  d_step dialog = 1 ->
  d_data dialog = DataOffers game_id game_number offers ->
  eqb (toLowerCase text) (lit "/fin") = false ->
  parseOfferLine text = inr draft ->
  let d' := mkDialog (d_command dialog) 1
              (DataOffers game_id game_number (offers ++ [draft])) in
  handleAddOffersDialog (Patch:=Patch) jid dialog text w =
    mkRun (Ok true)
      (set_admin_dialogs (<[jid := d']> (admin_dialogs w)) w)
      [CSetAdminDialog jid d';
       CSendMessage jid (OfferAccumulated (od_desc draft))].
Proof.
  intros Hstep Hdata Hl Hp. cbn zeta. unfold handleAddOffersDialog.
  rewrite Hstep, Hdata, Hl, Hp. run. reflexivity.
Qed.

End Operator_facts.

(** Any line of four words or more whose first word holds a number
    other than zero is accepted: the prices are read but never
    tested. *)
Lemma offer_line_accepted (text : jsstring) (number : Z) :
  let parts := split is_space (trim text) in
  (4 <=? length parts)%nat = true ->
  emojiToNumber (default [] (parts !! 0%nat)) = Some number ->
  number <> 0 ->
  exists draft, parseOfferLine text = inr draft /\ od_number draft = number.
Proof.
  intros parts Hlen Hnum Hnz. unfold parseOfferLine. fold parts.
  apply Nat.leb_le in Hlen.
  replace (length parts <? 4)%nat with false
    by (symmetry; apply Nat.ltb_ge; lia).
  rewrite Hnum. replace (number =? 0) with false
    by (symmetry; now apply Z.eqb_neq).
  destruct (is_numeric _).
  - replace (2 <=? length parts - 1 - 1)%nat with true
      by (symmetry; apply Nat.leb_le; lia).
    eexists. split; reflexivity.
  - replace (2 <=? length parts - 1)%nat with true
      by (symmetry; apply Nat.leb_le; lia).
    eexists. split; reflexivity.
Qed.

(** The reply "no valid prices" is never given. *)
Lemma price_guard_never_fires (text : jsstring) :
  parseOfferLine text <> inl NoValidPrices.
Proof.
  unfold parseOfferLine.
  destruct (length _ <? 4)%nat eqn:Hlen; [discriminate|].
  apply Nat.ltb_ge in Hlen.
  destruct (emojiToNumber _) as [number|]; [|discriminate].
  destruct (number =? 0); [discriminate|].
  destruct (is_numeric _).
  - replace (2 <=? length (split is_space (trim text)) - 1 - 1)%nat with true
      by (symmetry; apply Nat.leb_le; lia).
    discriminate.
  - replace (2 <=? length (split is_space (trim text)) - 1)%nat with true
      by (symmetry; apply Nat.leb_le; lia).
    discriminate.
Qed.

(** * The claims *)

(** C1. Every completed pass of the client funnel, in either file,
    inserts exactly one order, with status [pending] and owned by the
    user.  [/completar <id>] turns a pending order into a completed
    one and tells its owner; run again it answers that the order was
    already completed and changes nothing; on an unknown identifier it
    answers that the order was not found and changes nothing. *)
Theorem order_created_pending_and_completed_once :
  (forall (U : Unicode) env msg jid text (w : World V1.Session) rid,
     let r := V1.handleClientMessage env msg jid text w in
     In (CSendMessage jid (RequestSent rid)) (calls r) ->
     exists id req,
       rid = Some id /\ requests w !! id = None /\
       requests (final r) = <[id := req]> (requests w) /\
       r_status req = pending /\ r_user_jid req = jid) /\
  (forall (U : Unicode) env msg jid text (w : World V2.Session) rid,
     let r := V2.handleClientMessage env msg jid text w in
     In (CSendMessage jid (RequestSentAwaitContact rid)) (calls r) ->
     exists req,
       requests w !! rid = None /\
       requests (final r) = <[rid := req]> (requests w) /\
       r_status req = pending /\ r_user_jid req = jid) /\
  (forall (Sess Patch : Type) (U : Unicode) with_campos jid text id
          (w : World Sess),
     let parts := split is_space (trim text) in
     toLowerCase (default [] (parts !! 0%nat)) = lit "/completar" ->
     parts !! 1%nat = Some id ->
     nonempty id = true ->
     let r := handleAdminCommand (Patch:=Patch) with_campos jid text w in
     match requests w !! id with
     | Some req =>
         match r_status req with
         | pending =>
             r = mkRun (Ok tt)
                   (set_requests (<[id := complete (now w) req]> (requests w)) w)
                   [CGetRequest id; CCompleteRequest id;
                    CSendMessage (r_user_jid req)
                      (RechargeCompleted (r_game_name req) (r_offer_desc req));
                    CSendMessage jid (RequestMarkedCompleted id)] /\
             handleAdminCommand (Patch:=Patch) with_campos jid text (final r) =
               mkRun (Ok tt) (final r)
                 [CGetRequest id; CSendMessage jid RequestAlreadyCompleted]
         | completed =>
             r = mkRun (Ok tt) w
                   [CGetRequest id; CSendMessage jid RequestAlreadyCompleted]
         end
     | None =>
         r = mkRun (Ok tt) w [CGetRequest id; CSendMessage jid RequestNotFound]
     end).
Proof.
  split; [|split].
  - intros U env msg jid text w rid r Hin.
    destruct (V1_completed_pass env msg jid text w rid Hin)
      as (id & req & H1 & H2 & H3 & H4 & H5 & _).
    now exists id, req.
  - intros U env msg jid text w rid r Hin.
    destruct (V2_completed_pass env msg jid text w rid Hin)
      as (req & H1 & H2 & H3 & H4 & _).
    now exists req.
  - intros Sess Patch U with_campos jid text id w parts Hcmd Hid Hne r. subst r.
    rewrite (route_completar (Sess:=Sess) (Patch:=Patch) with_campos jid text id
               Hcmd Hid Hne).
    destruct (requests w !! id) as [req|] eqn:Hr.
    + destruct (r_status req) eqn:Hst.
      * rewrite (completar_pending jid id w req Hr Hst). split; [reflexivity|].
        apply (completar_completed jid id _ (complete (now w) req)); cbn.
        -- apply lookup_insert_eq.
        -- reflexivity.
      * apply (completar_completed jid id w req Hr Hst).
    + apply (completar_unknown jid id w Hr).
Qed.

Lemma order_created_pending_and_completed_once_witness :
  (exists id req,
     Some (generateRequestId Scenario.env) = Some id /\
     requests Scenario.v1_paying !! id = None /\
     requests
       (final (V1.handleClientMessage (U:=Latin1) Scenario.env
                 Scenario.with_image Scenario.user [] Scenario.v1_paying))
     = <[id := req]> (requests Scenario.v1_paying) /\
     r_status req = pending /\ r_user_jid req = Scenario.user) /\
  (exists req,
     requests Scenario.v2_answering !! generateRequestId Scenario.env = None /\
     requests
       (final (V2.handleClientMessage (U:=Latin1) Scenario.env
                 Scenario.text_only Scenario.user (lit "12345")
                 Scenario.v2_answering))
     = <[generateRequestId Scenario.env := req]> (requests Scenario.v2_answering) /\
     r_status req = pending /\ r_user_jid req = Scenario.user) /\
  (r_status <$>
     requests
       (final (handleAdminCommand (U:=Latin1) (Patch:=V1.Patch) false
                 Scenario.admin
                 (lit "/completar REQ-9")
                 (Scenario.with_order Scenario.v1_paying)))
     !! lit "REQ-9") = Some completed.
Proof.
  split; [|split].
  - apply (proj1 order_created_pending_and_completed_once Latin1 Scenario.env
             Scenario.with_image Scenario.user [] Scenario.v1_paying).
    vm_compute. tauto.
  - apply (proj1 (proj2 order_created_pending_and_completed_once) Latin1
             Scenario.env Scenario.text_only Scenario.user (lit "12345")
             Scenario.v2_answering).
    vm_compute. tauto.
  - pose proof (proj2 (proj2 order_created_pending_and_completed_once)
                  V1.Session V1.Patch Latin1 false Scenario.admin
                  (lit "/completar REQ-9") (lit "REQ-9")
                  (Scenario.with_order Scenario.v1_paying)
                  eq_refl eq_refl eq_refl) as H.
    cbn zeta in H.
    change (requests (Scenario.with_order Scenario.v1_paying) !! lit "REQ-9")
      with (Some Scenario.pending_order) in H.
    cbn in H. destruct H as [-> _]. reflexivity.
Defined.

(** C2. In either file, a message whose trimmed, lower-cased text is
    the cancel word, and likewise a completed pass of the funnel,
    leaves the session of the user with step [idle] and every
    selection column [null]. *)
Theorem session_cleared_on_cancel_and_completion :
  (forall (U : Unicode) env msg jid text (w : World V1.Session),
     eqb (toLowerCase (trim text)) (lit "cancelar") = true ->
     user_sessions (final (V1.handleClientMessage env msg jid text w)) !! jid
     = Some (V1.mkSession V1.idle None None None None None)) /\
  (forall (U : Unicode) env msg jid text (w : World V2.Session),
     eqb (toLowerCase (trim text)) (lit "cancelar") = true ->
     user_sessions (final (V2.handleClientMessage env msg jid text w)) !! jid
     = Some (V2.mkSession V2.idle None None None None None)) /\
  (forall (U : Unicode) env msg jid text (w : World V1.Session) rid,
     let r := V1.handleClientMessage env msg jid text w in
     In (CSendMessage jid (RequestSent rid)) (calls r) ->
     user_sessions (final r) !! jid
     = Some (V1.mkSession V1.idle None None None None None)) /\
  (forall (U : Unicode) env msg jid text (w : World V2.Session) rid,
     let r := V2.handleClientMessage env msg jid text w in
     In (CSendMessage jid (RequestSentAwaitContact rid)) (calls r) ->
     user_sessions (final r) !! jid
     = Some (V2.mkSession V2.idle None None None None None)).
Proof.
  repeat split.
  - intros. now apply V1_cancel_clears.
  - intros. now apply V2_cancel_clears.
  - intros U env msg jid text w rid r Hin.
    destruct (V1_completed_pass env msg jid text w rid Hin)
      as (id & req & _ & _ & _ & _ & _ & _ & H). exact H.
  - intros U env msg jid text w rid r Hin.
    destruct (V2_completed_pass env msg jid text w rid Hin)
      as (req & _ & _ & _ & _ & H). exact H.
Qed.

Lemma session_cleared_on_cancel_and_completion_witness :
  user_sessions
    (final (V1.handleClientMessage (U:=Latin1) Scenario.env Scenario.text_only
              Scenario.user (lit " Cancelar ") Scenario.v1_paying))
    !! Scenario.user
  = Some (V1.mkSession V1.idle None None None None None) /\
  user_sessions
    (final (V2.handleClientMessage (U:=Latin1) Scenario.env Scenario.text_only
              Scenario.user (lit "12345") Scenario.v2_answering))
    !! Scenario.user
  = Some (V2.mkSession V2.idle None None None None None).
Proof.
  split.
  - apply (proj1 session_cleared_on_cancel_and_completion Latin1).
    vm_compute. reflexivity.
  - apply (proj2 (proj2 (proj2 session_cleared_on_cancel_and_completion))
             Latin1 Scenario.env Scenario.text_only Scenario.user (lit "12345")
             Scenario.v2_answering (generateRequestId Scenario.env)).
    vm_compute. tauto.
Defined.

(** C4. In the step of the offers, when one of the numbers of the
    message is not the number of an offer of the selected game, nothing
    is stored: the reply names the first such number and the world,
    the session with it, is left as it was. *)
Theorem offer_selection_all_or_nothing
  (U : Unicode) env msg jid text (w : World V2.Session) s game :
  user_sessions w !! jid = Some s ->
  V2.step s = V2.awaiting_offers ->
  V2.containsOfertas text = false ->
  eqb (toLowerCase (trim text)) (lit "cancelar") = false ->
  eqb (toLowerCase (trim text)) (lit "volver") = false ->
  games_numbered (V2.selected_game s) w = [game] ->
  forallb (V2.resolves (offers_of_game (g_id game) w)) (V2.parseNumbers text)
    = false ->
  let r := V2.handleClientMessage env msg jid text w in
  exists num,
    V2.first_invalid (offers_of_game (g_id game) w) (V2.parseNumbers text)
      = Some num /\
    omap sent (calls r) = [(jid, WithCancelHint (OfferNumberDoesNotExist num))] /\
    final r = w /\
    user_sessions (final r) !! jid = Some s.
Proof.
  intros Hs Hst Ho Hc Hv Hg Hr r.
  destruct (V2_offers_invalid env msg jid text w s game Hs Hst Ho Hc Hv Hg Hr)
    as (num & Hf & Hrun).
  exists num. subst r. rewrite Hrun. cbn. now repeat split.
Qed.

Lemma offer_selection_all_or_nothing_witness :
  let w := Scenario.v2_choosing 1 in
  let r := V2.handleClientMessage (U:=Latin1) Scenario.env Scenario.text_only
             Scenario.user (lit "1,9") w in
  omap sent (calls r)
    = [(Scenario.user, WithCancelHint (OfferNumberDoesNotExist 9))] /\
  final r = w.
Proof.
  cbn zeta.
  destruct (offer_selection_all_or_nothing Latin1 Scenario.env
              Scenario.text_only Scenario.user (lit "1,9")
              (Scenario.v2_choosing 1)
              (V2.mkSession V2.awaiting_offers (Some 1) None None None None)
              Scenario.gameA)
    as (num & Hf & Hsent & Hw & _); try (vm_compute; reflexivity).
  vm_compute in Hf. injection Hf as <-. split; assumption.
Defined.

(** C5, at an explicit input: the user answers "1" while no card is
    configured; the reply asks to try the other type and the step is
    still the choice of the payment type, not [idle]. *)
Lemma chosen_type_without_methods_keeps_step :
  let w := Scenario.v1_at V1.awaiting_payment_method in
  let r := V1.handleClientMessage (U:=Latin1) Scenario.env Scenario.text_only
             Scenario.user (lit "1") w in
  methods_of_type card w = [] /\
  omap sent (calls r) = [(Scenario.user, WithCancelHint NoMethodsOfThatType)] /\
  V1.step <$> user_sessions (final r) !! Scenario.user
    = Some V1.awaiting_payment_method /\
  V1.step <$> user_sessions (final r) !! Scenario.user <> Some V1.idle.
Proof. vm_compute. repeat split; discriminate. Qed.

(** C5, amended. In the step of the payment type, a message that is no
    control word and whose trimmed text is neither "1" nor "2" is
    answered with the invalid-choice reply and changes nothing; "1" or
    "2" for a type without methods is answered with the request to try
    the other type and changes nothing either.  The flow ends with the
    no-methods-configured reply and the step back at [idle] one step
    earlier: when an offer is chosen while no method of any type
    exists. *)
Theorem payment_type_choice :
  (forall (U : Unicode) env msg jid text (w : World V1.Session) s,
     user_sessions w !! jid = Some s ->
     V1.step s = V1.awaiting_payment_method ->
     eqb (toLowerCase (trim text)) (lit "cancelar") = false ->
     eqb (toLowerCase (trim text)) (lit "volver") = false ->
     let r := V1.handleClientMessage env msg jid text w in
     (eqb (trim text) (lit "1") = false ->
      eqb (trim text) (lit "2") = false ->
      r = mkRun (Ok tt) w
            [CGetUserSession jid;
             CSendMessage jid (WithCancelHint InvalidPaymentType)]) /\
     (eqb (trim text) (lit "1") || eqb (trim text) (lit "2") = true ->
      let type := if eqb (trim text) (lit "1") then card else mobile in
      methods_of_type type w = [] ->
      r = mkRun (Ok tt) w
            [CGetUserSession jid; CGetPaymentMethods type;
             CSendMessage jid (WithCancelHint NoMethodsOfThatType)])) /\
  (forall (U : Unicode) env msg jid text (w : World V1.Session) s game offer,
     user_sessions w !! jid = Some s ->
     V1.step s = V1.awaiting_offer ->
     eqb (toLowerCase (trim text)) (lit "cancelar") = false ->
     eqb (toLowerCase (trim text)) (lit "volver") = false ->
     falsy (emojiToNumber text) = false ->
     games_numbered (V1.selected_game s) w = [game] ->
     offers_numbered (g_id game) (emojiToNumber text) w = [offer] ->
     methods_of_type card w = [] ->
     methods_of_type mobile w = [] ->
     let r := V1.handleClientMessage env msg jid text w in
     outcome r = Ok tt /\
     omap sent (calls r) = [(jid, NoPaymentMethodsConfigured)] /\
     V1.step <$> user_sessions (final r) !! jid = Some V1.idle).
Proof.
  split.
  - intros U env msg jid text w s Hs Hst Hc Hv r. subst r. split.
    + intros H1 H2. now apply (V1_invalid_payment_type env msg jid text w s).
    + intros H12 type Hm. now apply (V1_no_methods_of_type env msg jid text w s).
  - intros U env msg jid text w s game offer Hs Hst Hc Hv Hf Hg Ho Hcard Hmob.
    now apply (V1_no_methods_at_all env msg jid text w s game offer).
Qed.

Lemma payment_type_choice_witness :
  let w := Scenario.v1_at V1.awaiting_payment_method in
  V1.handleClientMessage (U:=Latin1) Scenario.env Scenario.text_only
    Scenario.user (lit "3") w
  = mkRun (Ok tt) w
      [CGetUserSession Scenario.user;
       CSendMessage Scenario.user (WithCancelHint InvalidPaymentType)] /\
  V1.handleClientMessage (U:=Latin1) Scenario.env Scenario.text_only
    Scenario.user (lit " 1 ") w
  = mkRun (Ok tt) w
      [CGetUserSession Scenario.user; CGetPaymentMethods card;
       CSendMessage Scenario.user (WithCancelHint NoMethodsOfThatType)].
Proof.
  cbn zeta. split.
  - apply (proj1 payment_type_choice Latin1 Scenario.env Scenario.text_only
             Scenario.user (lit "3") (Scenario.v1_at V1.awaiting_payment_method)
             (V1.mkSession V1.awaiting_payment_method (Some 1) (Some 11) None
                None None));
      vm_compute; reflexivity.
  - apply (proj1 payment_type_choice Latin1 Scenario.env Scenario.text_only
             Scenario.user (lit " 1 ") (Scenario.v1_at V1.awaiting_payment_method)
             (V1.mkSession V1.awaiting_payment_method (Some 1) (Some 11) None
                None None));
      vm_compute; reflexivity.
Defined.

(** C6, at an explicit input: a table of three lines whose second line
    has no index.  Two games are created and the summary says so, but
    nothing is reported about the second line. *)
Lemma malformed_table_line_not_reported :
  let r := handleCreateTableDialog (U:=Latin1) (Patch:=V1.Patch) Scenario.admin
             (Scenario.table_dialog Scenario.table_lines) (lit "/listo")
             (Scenario.empty_world (Sess:=V1.Session)) in
  omap table_entry Scenario.table_lines
    = [(1, lit "Free Fire"); (3, lit "Fortnite")] /\
  List.map g_name (games (final r)) = [lit "Free Fire"; lit "Fortnite"] /\
  omap error_report (calls r) = [] /\
  omap sent (calls r) = [(Scenario.admin, GamesCreated 2)].
Proof. vm_compute. repeat split. Qed.

(** C6, amended. When the operator ends a table that is not empty,
    every line that reads as an index and a name is tried, in order,
    whatever became of the lines before it; a line that does not read
    so is passed over without any report; each creation the store
    refuses is reported on its own; and the last message is the
    summary with the number of games created. *)
Theorem table_batch_partial_failure
  (Sess Patch : Type) (U : Unicode) jid dialog text lines (w : World Sess) :
  d_step dialog = 1 ->
  d_data dialog = DataTable lines ->
  nonempty lines = true ->
  eqb (toLowerCase text) (lit "/listo") = true ->
  let r := handleCreateTableDialog (Patch:=Patch) jid dialog text w in
  exists success,
    outcome r = Ok true /\
    omap create_attempt (calls r) = omap table_entry lines /\
    omap sent (calls r) =
      List.map (fun '(name, e) => (jid, GameCreateError name e))
        (omap error_report (calls r))
      ++ [(jid, GamesCreated success)] /\
    success
      = Z.of_nat (length (games (final r))) - Z.of_nat (length (games w)) /\
    success + Z.of_nat (length (omap error_report (calls r)))
      = Z.of_nat (length (omap table_entry lines)) /\
    admin_dialogs (final r) !! jid = None.
Proof. intros. now apply table_batch_run. Qed.

Lemma table_batch_partial_failure_witness :
  let r := handleCreateTableDialog (U:=Latin1) (Patch:=V1.Patch) Scenario.admin
             (Scenario.table_dialog
                (Scenario.table_lines ++ [lit "1 Free Fire again"]))
             (lit "/listo") (Scenario.empty_world (Sess:=V1.Session)) in
  omap sent (calls r)
  = [(Scenario.admin, GameCreateError (lit "Free Fire again") DuplicateKey);
     (Scenario.admin, GamesCreated 2)].
Proof.
  cbn zeta.
  destruct (table_batch_partial_failure V1.Session V1.Patch Latin1
              Scenario.admin
              (Scenario.table_dialog
                 (Scenario.table_lines ++ [lit "1 Free Fire again"]))
              (lit "/listo")
              (Scenario.table_lines ++ [lit "1 Free Fire again"])
              Scenario.empty_world eq_refl eq_refl eq_refl eq_refl)
    as (success & _ & _ & Hsent & Hn & _).
  rewrite Hsent. vm_compute in Hn. subst success. vm_compute. reflexivity.
Defined.

(** C7. The example line of the dialog's own prompt,
    [1️⃣ 110 💎 250 700]: the last token reads as a number and becomes
    the USD price, the token before it the card price, and the gem the
    mobile price, which is [NaN].  No test refuses the line: it is
    appended to the accumulated offers (the earlier ones are kept) and
    acknowledged. *)
Theorem offer_line_prices_unchecked :
  let bad := mkOfferDraft 1 (lit "110") None (Some 250) (Some (JsDecimal 700 0)) in
  let d' := Scenario.offers_dialog [Scenario.earlier_draft; bad] in
  parseInt Scenario.gem = None /\
  parseOfferLine Scenario.prompt_example = inr bad /\
  handleAddOffersDialog (U:=Latin1) (Patch:=V1.Patch) Scenario.admin
    (Scenario.offers_dialog [Scenario.earlier_draft]) Scenario.prompt_example
    (Scenario.empty_world (Sess:=V1.Session))
  = mkRun (Ok true)
      (set_admin_dialogs {[ Scenario.admin := d' ]} Scenario.empty_world)
      [CSetAdminDialog Scenario.admin d';
       CSendMessage Scenario.admin (OfferAccumulated (lit "110"))].
Proof. vm_compute. repeat split. Qed.

(** C8, at an explicit input: the text "ofert" does not match the
    pattern "oferta(s)", yet it resets a session that is in progress. *)
Lemma ofert_alone_triggers_reset :
  let w := Scenario.v2_at V2.awaiting_game in
  let r := V2.handleClientMessage (U:=Latin1) Scenario.env Scenario.text_only
             Scenario.user (lit "ofert") w in
  regex_test V2.spec_ofertas_regex (V2.normalized (U:=Latin1) (lit "ofert"))
    = false /\
  calls r =
    [CGetUserSession Scenario.user; CGetGames;
     CSendMessage Scenario.user (main_menu w);
     CUpdateUserSession Scenario.user V2.reset] /\
  user_sessions w !! Scenario.user
    = Some (V2.mkSession V2.awaiting_game (Some 2) None None None None) /\
  user_sessions (final r) !! Scenario.user = Some V2.cleared.
Proof. vm_compute. repeat split. Qed.

(** C8, amended. The trigger is the test of [/oferta(s)?|oferts?/] on
    the lower-cased text without its diacritics, which holds exactly
    when that text contains "ofert".  When it holds and the session is
    not idle, the main menu is sent and the session is cleared.  When
    the session is idle the trigger does not fire: a message that is
    not the cancel word gets the main menu and nothing is written.
    When it does not hold, and the message is not the cancel word, the
    session is only cleared by a completed pass of the funnel. *)
Theorem ofertas_trigger :
  (forall (U : Unicode) text,
     V2.containsOfertas text
     = nonempty text && includes (lit "ofert") (V2.normalized text)) /\
  (forall (U : Unicode) env msg jid text (w : World V2.Session) s,
     user_sessions w !! jid = Some s ->
     V2.is_idle (V2.step s) = false ->
     V2.containsOfertas text = true ->
     let r := V2.handleClientMessage env msg jid text w in
     outcome r = Ok tt /\
     calls r =
       [CGetUserSession jid; CGetGames; CSendMessage jid (main_menu w);
        CUpdateUserSession jid V2.reset] /\
     user_sessions (final r) !! jid
     = Some (V2.mkSession V2.idle None None None None None)) /\
  (forall (U : Unicode) env msg jid text (w : World V2.Session) s,
     user_sessions w !! jid = Some s ->
     V2.step s = V2.idle ->
     eqb (toLowerCase (trim text)) (lit "cancelar") = false ->
     V2.handleClientMessage env msg jid text w =
       mkRun (Ok tt) w
         [CGetUserSession jid; CGetGames; CSendMessage jid (main_menu w)]) /\
  (forall (U : Unicode) env msg jid text (w : World V2.Session),
     V2.containsOfertas text = false ->
     eqb (toLowerCase (trim text)) (lit "cancelar") = false ->
     let r := V2.handleClientMessage env msg jid text w in
     In (CUpdateUserSession jid V2.reset) (calls r) ->
     In (CSendMessage jid (RequestSentAwaitContact (generateRequestId env)))
        (calls r)).
Proof.
  repeat split.
  - intros. apply containsOfertas_includes.
  - now apply (V2_trigger_fires env msg jid text w s).
  - now apply (V2_trigger_fires env msg jid text w s).
  - now apply (V2_trigger_fires env msg jid text w s).
  - intros. now apply (V2_trigger_idle env msg jid text w s).
  - intros U env msg jid text w Ho Hc r. now apply V2_reset_only_on_completion.
Qed.

Lemma ofertas_trigger_witness :
  user_sessions
    (final (V2.handleClientMessage (U:=Latin1) Scenario.env Scenario.text_only
              Scenario.user (lit "quiero OFERTAS") Scenario.v2_answering))
    !! Scenario.user
  = Some (V2.mkSession V2.idle None None None None None) /\
  V2.handleClientMessage (U:=Latin1) Scenario.env Scenario.text_only
    Scenario.user (lit "ofertas") (Scenario.v2_at V2.idle)
  = mkRun (Ok tt) (Scenario.v2_at V2.idle)
      [CGetUserSession Scenario.user; CGetGames;
       CSendMessage Scenario.user (main_menu (Scenario.v2_at V2.idle))].
Proof.
  split.
  - apply (proj1 (proj2 ofertas_trigger) Latin1 Scenario.env Scenario.text_only
             Scenario.user (lit "quiero OFERTAS") Scenario.v2_answering
             (V2.mkSession V2.awaiting_fields (Some 2) (Some [21]) (Some ∅)
                (Some 0) None));
      vm_compute; reflexivity.
  - apply (proj1 (proj2 (proj2 ofertas_trigger)) Latin1 Scenario.env
             Scenario.text_only Scenario.user (lit "ofertas")
             (Scenario.v2_at V2.idle)
             (V2.mkSession V2.idle (Some 2) None None None None));
      vm_compute; reflexivity.
Defined.

(** C9, at an explicit input: game A has no field; after the choice of
    its first offer the session is at [idle] and the order is already
    in the table, with payment method "pendiente". *)
Lemma no_fields_submits_order :
  let w := Scenario.v2_choosing 1 in
  let r := V2.handleClientMessage (U:=Latin1) Scenario.env Scenario.text_only
             Scenario.user (lit "1") w in
  fields_of_game (g_id Scenario.gameA) w = [] /\
  user_sessions (final r) !! Scenario.user = Some V2.cleared /\
  requests (final r) =
    {[ generateRequestId Scenario.env :=
         mkRequest Scenario.user (lit "Game A") (lit "X") (lit "pendiente")
           (DetailsOfFields (Some ∅)) None pending None ]}.
Proof. vm_compute. repeat split. Qed.

(** C9, amended. After a selection whose numbers all resolve, the
    identifiers of the offers are stored with step [awaiting_fields],
    no field value and field index zero.  If the game has fields, the
    name of the first is asked and the session stays so.  If it has
    none, the order is inserted at once (status pending, payment method
    "pendiente", no field value), the operator and the user are told,
    and the session is cleared. *)
Theorem after_offer_selection
  (U : Unicode) env msg jid text (w : World V2.Session) s game :
  user_sessions w !! jid = Some s ->
  V2.step s = V2.awaiting_offers ->
  V2.containsOfertas text = false ->
  eqb (toLowerCase (trim text)) (lit "cancelar") = false ->
  eqb (toLowerCase (trim text)) (lit "volver") = false ->
  games_numbered (V2.selected_game s) w = [game] ->
  nonempty (V2.parseNumbers text) = true ->
  forallb (V2.resolves (offers_of_game (g_id game) w)) (V2.parseNumbers text)
    = true ->
  let ids := V2.selected_ids (offers_of_game (g_id game) w) (V2.parseNumbers text) in
  let rid := generateRequestId env in
  let r := V2.handleClientMessage env msg jid text w in
  In (CUpdateUserSession jid
        (V2.mkPatch (Some V2.awaiting_fields) None (Some (Some ids))
           (Some (Some ∅)) (Some (Some 0)) None)) (calls r) /\
  (forall field fields,
     fields_of_game (g_id game) w = field :: fields ->
     outcome r = Ok tt /\
     omap sent (calls r) = [(jid, AskFirstField (f_name field))] /\
     user_sessions (final r) !! jid =
       Some (V2.mkSession V2.awaiting_fields (V2.selected_game s) (Some ids)
               (Some ∅) (Some 0) (V2.request_id s)) /\
     requests (final r) = requests w) /\
  (fields_of_game (g_id game) w = [] ->
   requests w !! rid = None ->
   outcome r = Ok tt /\
   requests (final r) =
     <[rid := mkRequest jid (g_name game)
                (join (lit ", ") (List.map o_description (offers_among ids w)))
                (lit "pendiente") (DetailsOfFields (Some ∅)) None pending None]>
       (requests w) /\
   omap sent (calls r) =
     [(ADMIN_JID env,
       NewRequestWithFields (userNumber jid) game (offers_among ids w) ∅ rid);
      (jid, RequestSentAwaitContact rid)] /\
   user_sessions (final r) !! jid
   = Some (V2.mkSession V2.idle None None None None None)).
Proof.
  intros Hs Hst Ho Hc Hv Hg Hn Hr ids rid r.
  assert (Hfields : forall field fields,
            fields_of_game (g_id game) w = field :: fields ->
            outcome r = Ok tt /\
            calls r =
              [CGetUserSession jid;
               CGetGameByNumber (V2.selected_game s);
               CGetOffersByGameId (g_id game);
               CUpdateUserSession jid
                 (V2.mkPatch (Some V2.awaiting_fields) None (Some (Some ids))
                    (Some (Some ∅)) (Some (Some 0)) None);
               CGetGameFields (g_id game);
               CSendMessage jid (AskFirstField (f_name field))] /\
            user_sessions (final r) !! jid =
              Some (V2.mkSession V2.awaiting_fields (V2.selected_game s)
                      (Some ids) (Some ∅) (Some 0) (V2.request_id s)) /\
            requests (final r) = requests w).
  { intros field fields Hf.
    now apply (V2_offers_then_fields env msg jid text w s game field fields). }
  split; [|split].
  - destruct (fields_of_game (g_id game) w) as [|field fields] eqn:Hf.
    + subst r. clear Hfields. revert Hf.
      pose proof (resolveOffers_valid _ _ Hr []) as Hres. cbn [app] in Hres.
      fold ids in Hres. clearbody ids.
      unfold V2.handleClientMessage.
      unfold getUserSession, bind, call, gets, ret. cbn. rewrite Hs. cbn.
      rewrite Ho, Hc, Hv, Hst. cbn.
      destruct (V2.parseNumbers text) as [|n ns] eqn:Hp; [discriminate|].
      unfold getGameByNumber, bind, call, gets, ret, maybeSingle. cbn.
      rewrite Hg. cbn.
      unfold getOffersByGameId, bind, call, gets, ret. cbn.
      rewrite Hres. intros Hf. unfold fields_of_game in Hf.
      unfold V2.sendRequestToAdmin. run. rewrite Hf. run.
      all_paths; cbn; tauto.
    + destruct (Hfields field fields eq_refl) as (_ & Hcalls & _).
      rewrite Hcalls. cbn. tauto.
  - intros field fields Hf.
    destruct (Hfields field fields Hf) as (H1 & H2 & H3 & H4).
    rewrite H2. now repeat split.
  - intros Hf Hfresh.
    now apply (V2_offers_then_order env msg jid text w s game).
Qed.

Lemma after_offer_selection_witness :
  let r := V2.handleClientMessage (U:=Latin1) Scenario.env Scenario.text_only
             Scenario.user (lit "1") (Scenario.v2_choosing 2) in
  omap sent (calls r) = [(Scenario.user, AskFirstField (lit "player id"))] /\
  user_sessions (final r) !! Scenario.user =
    Some (V2.mkSession V2.awaiting_fields (Some 2) (Some [21]) (Some ∅)
            (Some 0) None).
Proof.
  cbn zeta.
  destruct (after_offer_selection Latin1 Scenario.env Scenario.text_only
              Scenario.user (lit "1") (Scenario.v2_choosing 2)
              (V2.mkSession V2.awaiting_offers (Some 2) None None None None)
              Scenario.gameB)
    as (_ & Hfields & _); try (vm_compute; reflexivity).
  destruct (Hfields (mkGameField 2 (lit "player id") 1 true) [])
    as (_ & Hsent & Hsess & _); [vm_compute; reflexivity|].
  split; [exact Hsent|]. rewrite Hsess. vm_compute. reflexivity.
Defined.

(** C10. In [index.js], in the three steps that read a menu index, a
    text whose digits read as zero is treated exactly as a text without
    digits: the same invalid-selection reply is sent, no query of the
    catalog is made and the world, the session with it, is left as it
    was. *)
Theorem zero_index_is_invalid_selection
  (U : Unicode) env msg jid zero unparsable (w : World V1.Session) s :
  user_sessions w !! jid = Some s ->
  V1.step s = V1.awaiting_game \/ V1.step s = V1.awaiting_offer
    \/ V1.step s = V1.awaiting_payment_choice ->
  emojiToNumber zero = Some 0 ->
  emojiToNumber unparsable = None ->
  eqb (toLowerCase (trim zero)) (lit "cancelar") = false ->
  eqb (toLowerCase (trim zero)) (lit "volver") = false ->
  eqb (toLowerCase (trim unparsable)) (lit "cancelar") = false ->
  eqb (toLowerCase (trim unparsable)) (lit "volver") = false ->
  let r := V1.handleClientMessage env msg jid zero w in
  r = V1.handleClientMessage env msg jid unparsable w /\
  calls r =
    [CGetUserSession jid;
     CSendMessage jid (WithCancelHint (V1.invalid_index_reply (V1.step s)))] /\
  existsb is_catalog_lookup (calls r) = false /\
  final r = w.
Proof.
  intros Hs Hst Hz Hu Hc Hv Hc' Hv' r. subst r.
  rewrite (V1_falsy_index env msg jid zero w s Hs Hst Hc Hv)
    by (now rewrite Hz).
  rewrite (V1_falsy_index env msg jid unparsable w s Hs Hst Hc' Hv')
    by (now rewrite Hu).
  now repeat split.
Qed.

Lemma zero_index_is_invalid_selection_witness :
  let w := Scenario.v1_at V1.awaiting_offer in
  let r := V1.handleClientMessage (U:=Latin1) Scenario.env Scenario.text_only
             Scenario.user (keycap 0) w in
  r = V1.handleClientMessage (U:=Latin1) Scenario.env Scenario.text_only
        Scenario.user (lit "hola") w /\
  calls r =
    [CGetUserSession Scenario.user;
     CSendMessage Scenario.user (WithCancelHint InvalidOfferNumber)].
Proof.
  cbn zeta.
  destruct (zero_index_is_invalid_selection Latin1 Scenario.env
              Scenario.text_only Scenario.user (keycap 0) (lit "hola")
              (Scenario.v1_at V1.awaiting_offer)
              (V1.mkSession V1.awaiting_offer (Some 1) (Some 11) None None None))
    as (Heq & Hcalls & _); try (vm_compute; reflexivity).
  - right. left. reflexivity.
  - split; assumption.
Defined.

(** * Further properties of the code *)

(** ** What every run keeps *)

Section Always_facts.

Context {Sess Patch : Type} {SM : SessionModel Sess Patch}.

Variable P : World Sess -> Prop.
Variable Q : Call Patch -> Prop.

Lemma always_ret {A} (a : A) : always P Q (ret a).
Proof. intros w H. split; [exact H|constructor]. Qed.

Lemma always_throw {A} e : always P Q (@throw Sess Patch A e).
Proof. intros w H. split; [exact H|constructor]. Qed.

Lemma always_gets {A} (f : World Sess -> A) : always P Q (gets f).
Proof. intros w H. split; [exact H|constructor]. Qed.

Lemma always_call c : Q c -> always P Q (call c).
Proof. intros Hc w H. split; [exact H|]. repeat constructor. exact Hc. Qed.

Lemma always_modify f : (forall w, P w -> P (f w)) -> always P Q (modify f).
Proof. intros Hf w H. split; [now apply Hf|constructor]. Qed.

Lemma always_bind {A B} (m : M Sess Patch A) (k : A -> M Sess Patch B) :
  always P Q m -> (forall a, always P Q (k a)) -> always P Q (bind m k).
Proof.
  intros Hm Hk w H. unfold bind. specialize (Hm w H).
  destruct (m w) as [[a|e] w1 l1]; cbn in *; [|exact Hm].
  destruct Hm as [H1 Hl1]. specialize (Hk a w1 H1).
  destruct (k a w1) as [o w2 l2]; cbn in *.
  split; [tauto|]. apply Forall_app. tauto.
Qed.

Lemma always_try_catch {A} (m : M Sess Patch A) h :
  always P Q m -> (forall e, always P Q (h e)) -> always P Q (try_catch m h).
Proof.
  intros Hm Hh w H. unfold try_catch. specialize (Hm w H).
  destruct (m w) as [[a|e] w1 l1]; cbn in *; [exact Hm|].
  destruct Hm as [H1 Hl1]. specialize (Hh e w1 H1).
  destruct (h e w1) as [o w2 l2]; cbn in *.
  split; [tauto|]. apply Forall_app. tauto.
Qed.

End Always_facts.

Ltac head_of t :=
  lazymatch t with
  | ?f _ => head_of f
  | _ => t
  end.

(** One step of the proof that a handler keeps [P] and calls only [Q]:
    [known] closes the loops and the calls proved apart, [tP] shows
    that a write keeps [P], [tQ] that a call is a [Q]. *)
Ltac always_step known tP tQ :=
  first
  [ known
  | lazymatch goal with
    | |- always _ _ (bind _ _) => apply always_bind; [|intro]
    | |- always _ _ (try_catch _ _) => apply always_try_catch; [|intro]
    | |- always _ _ (ret _) => apply always_ret
    | |- always _ _ (throw _) => apply always_throw
    | |- always _ _ (gets _) => apply always_gets
    | |- always _ _ (call _) => apply always_call; tQ
    | |- always _ _ (modify _) => apply always_modify; tP
    | |- always _ _ (match ?x with _ => _ end) =>
        destruct x eqn:?; try congruence
    | |- always _ _ (let _ := _ in _) => cbv zeta
    | |- always _ _ ((fun _ => _) _) => cbv beta
    | |- always _ _ ?m => let h := head_of m in unfold h
    end ].

Ltac always_run known tP tQ := repeat always_step known tP tQ.

(** ** Who can change what *)

Section Operator_isolation.

Context {Sess Patch : Type} {SM : SessionModel Sess Patch} {U : Unicode}.

Variable S : gmap jsstring Sess.
Variable D : gset jsstring.

Ltac keep_P :=
  intros ? [? ?]; split; cbn; try assumption;
  try (rewrite dom_alter_L; assumption).

Lemma createFromLines_isolated jid n ls :
  always (funnel_state S D) (@funnel_free Patch) (createFromLines jid n ls).
Proof.
  revert n. induction ls as [|l ls IH]; intros n; cbn [createFromLines].
  - apply always_ret.
  - always_run ltac:(apply IH) keep_P ltac:(reflexivity).
Qed.

Lemma createOffers_isolated jid g n ls :
  always (funnel_state S D) (@funnel_free Patch) (createOffers jid g n ls).
Proof.
  revert n. induction ls as [|l ls IH]; intros n; cbn [createOffers].
  - apply always_ret.
  - always_run ltac:(apply IH) keep_P ltac:(reflexivity).
Qed.

Lemma handleAdminCommand_isolated b jid text :
  always (funnel_state S D) (@funnel_free Patch)
    (handleAdminCommand b jid text).
Proof. always_run fail keep_P ltac:(reflexivity). Qed.

Lemma handleAdminDialog_isolated jid text :
  always (funnel_state S D) (@funnel_free Patch) (handleAdminDialog jid text).
Proof.
  always_run
    ltac:(first [apply createFromLines_isolated | apply createOffers_isolated])
    keep_P ltac:(reflexivity).
Qed.

Lemma operator_message_isolated isPrivate b client env msg :
  sender msg = ADMIN_JID env ->
  always (funnel_state S D) (@funnel_free Patch)
    (handleMessage isPrivate b client env msg).
Proof.
  intros Hs. unfold handleMessage. fold (sender msg). rewrite Hs, eqb_refl.
  always_run
    ltac:(first [apply handleAdminDialog_isolated
                | apply handleAdminCommand_isolated])
    keep_P ltac:(reflexivity).
Qed.

End Operator_isolation.

Lemma eqb_false (a b : jsstring) : eqb a b = false <-> a <> b.
Proof. unfold eqb. apply bool_decide_eq_false. Qed.

Section Client_isolation.

Context {U : Unicode} (env : Env).

Ltac keep_catalog jid :=
  intros ? [(?&?&?&?&?) Hframe]; split;
  [ repeat split; cbn; assumption
  | intros j Hj; cbn;
    rewrite ?lookup_insert_ne, ?lookup_alter_ne by congruence;
    now apply Hframe ].

Ltac concerned := cbn; auto.

Lemma V1_client_isolated (w0 : World V1.Session) msg jid text :
  always (own_session_only w0 jid) (concerns jid (ADMIN_JID env))
    (V1.handleClientMessage env msg jid text).
Proof. always_run fail ltac:(keep_catalog jid) concerned. Qed.

Lemma V2_client_isolated (w0 : World V2.Session) msg jid text :
  always (own_session_only w0 jid) (concerns jid (ADMIN_JID env))
    (V2.handleClientMessage env msg jid text).
Proof. always_run fail ltac:(keep_catalog jid) concerned. Qed.

Lemma client_message_isolated {Sess Patch}
  (w0 : World Sess) isPrivate b
  (client : Inbound -> jsstring -> jsstring -> M Sess Patch unit) msg :
  (forall inb jid text,
     always (own_session_only w0 jid) (concerns jid (ADMIN_JID env))
       (client inb jid text)) ->
  sender msg <> ADMIN_JID env ->
  always (own_session_only w0 (remoteJid msg))
    (concerns (remoteJid msg) (ADMIN_JID env))
    (handleMessage isPrivate b client env msg).
Proof.
  intros Hc Hs. apply eqb_false in Hs. unfold handleMessage.
  fold (sender msg). rewrite Hs.
  always_run ltac:(apply Hc) ltac:(keep_catalog (remoteJid msg)) concerned.
Qed.

End Client_isolation.

(** The loop over the messages keeps what each message keeps. *)
Lemma handleMessages_always {Sess Patch} {U : Unicode}
  (P : World Sess -> Prop) (Q : Call Patch -> Prop)
  isPrivate b client env messages :
  (forall msg, always P Q (handleMessage isPrivate b client env msg)) ->
  always P Q (handleMessages isPrivate b client env messages).
Proof.
  intros H. induction messages as [|msg rest IH]; cbn [handleMessages].
  - apply always_ret.
  - apply always_bind; [apply H|intros _; exact IH].
Qed.

Lemma onMessagesUpsert_always {Sess Patch} {U : Unicode}
  (P : World Sess -> Prop) (Q : Call Patch -> Prop)
  isPrivate b client env type messages :
  (forall msg, always P Q (handleMessage isPrivate b client env msg)) ->
  always P Q (onMessagesUpsert isPrivate b client env type messages).
Proof.
  intros H. unfold onMessagesUpsert.
  destruct (negb _); [apply always_ret|now apply handleMessages_always].
Qed.

(** ** Orders are kept *)

Section Orders_kept.

Context {Sess Patch : Type} {SM : SessionModel Sess Patch} {U : Unicode}.

Variables (id : jsstring) (q : Request) (t : Z).

Lemma createRequest_keeps i r :
  always (@order_kept Sess id q t) (@any_call Patch) (createRequest i r).
Proof.
  intros w [Ht H]. split; [|apply Forall_forall; intros; exact I].
  unfold createRequest. run. destruct i as [i|]; run; [|now split].
  destruct (requests w !! i) eqn:E; run; (split; [assumption|]);
    try assumption.
  cbn. rewrite lookup_insert_ne; [exact H|].
  intros ->. rewrite E in H. now destruct H.
Qed.

Lemma completeRequest_keeps i :
  always (@order_kept Sess id q t) (@any_call Patch) (completeRequest i).
Proof.
  intros w [Ht H]. split; [|apply Forall_forall; intros; exact I].
  unfold completeRequest. run. split; [assumption|]. cbn.
  destruct (decide (i = id)) as [->|Hne].
  - rewrite lookup_alter_eq, Ht. right. now destruct H as [-> | ->].
  - rewrite lookup_alter_ne by assumption. exact H.
Qed.

Ltac keep_P := intros ? [? ?]; split; cbn; assumption.

Ltac known_orders :=
  first [apply createRequest_keeps | apply completeRequest_keeps].

Lemma createFromLines_orders jid n ls :
  always (@order_kept Sess id q t) (@any_call Patch) (createFromLines jid n ls).
Proof.
  revert n. induction ls as [|l ls IH]; intros n; cbn [createFromLines].
  - apply always_ret.
  - always_run ltac:(apply IH) keep_P ltac:(exact I).
Qed.

Lemma createOffers_orders jid g n ls :
  always (@order_kept Sess id q t) (@any_call Patch) (createOffers jid g n ls).
Proof.
  revert n. induction ls as [|l ls IH]; intros n; cbn [createOffers].
  - apply always_ret.
  - always_run ltac:(apply IH) keep_P ltac:(exact I).
Qed.

Lemma handleMessage_orders isPrivate b client env msg :
  (forall inb jid text,
     always (@order_kept Sess id q t) (@any_call Patch)
       (client inb jid text)) ->
  always (@order_kept Sess id q t) (@any_call Patch)
    (handleMessage isPrivate b client env msg).
Proof.
  intros Hc.
  always_run
    ltac:(first [apply Hc | known_orders | apply createFromLines_orders
                | apply createOffers_orders])
    keep_P ltac:(exact I).
Qed.

End Orders_kept.

Lemma V1_client_orders {U : Unicode} env id q t inb jid text :
  always (order_kept id q t) any_call
    (V1.handleClientMessage env inb jid text).
Proof.
  always_run
    ltac:(first [apply createRequest_keeps | apply completeRequest_keeps])
    ltac:(intros ? [? ?]; split; cbn; assumption) ltac:(exact I).
Qed.

Lemma V2_client_orders {U : Unicode} env id q t inb jid text :
  always (order_kept id q t) any_call
    (V2.handleClientMessage env inb jid text).
Proof.
  always_run
    ltac:(first [apply createRequest_keeps | apply completeRequest_keeps])
    ltac:(intros ? [? ?]; split; cbn; assumption) ltac:(exact I).
Qed.

(** ** The rows of the dialogs stay well formed *)

Section Dialogs_well_formed.

Context {Sess Patch : Type} {SM : SessionModel Sess Patch} {U : Unicode}.

Ltac shape :=
  repeat match goal with
  | H : (_ =? _) = true |- _ => apply Z.eqb_eq in H
  | H : method_edit ?d = Some _ |- _ => destruct d; try discriminate H; clear H
  end;
  cbn;
  repeat match goal with
  | H : d_command _ = _ |- _ => rewrite H
  | H : d_step _ = _ |- _ => rewrite H
  end;
  try reflexivity.

Ltac keep_P :=
  let Hl := fresh in
  intros ? ? ? ? Hl; cbn in Hl;
  first
  [ apply lookup_insert_Some in Hl as [[_ <-]|[_ Hl]]; [shape|eauto]
  | apply lookup_delete_Some in Hl as [_ Hl]; eauto
  | eauto ].

Ltac call_Q := cbn; try exact I; shape.

Lemma createFromLines_shape jid n ls :
  always (@rows_well_formed Sess) (@writes_well_formed Patch)
    (createFromLines jid n ls).
Proof.
  revert n. induction ls as [|l ls IH]; intros n; cbn [createFromLines].
  - apply always_ret.
  - always_run ltac:(apply IH) keep_P call_Q.
Qed.

Lemma createOffers_shape jid g n ls :
  always (@rows_well_formed Sess) (@writes_well_formed Patch)
    (createOffers jid g n ls).
Proof.
  revert n. induction ls as [|l ls IH]; intros n; cbn [createOffers].
  - apply always_ret.
  - always_run ltac:(apply IH) keep_P call_Q.
Qed.

Lemma handleMessage_shape isPrivate b client env msg :
  (forall inb jid text,
     always (@rows_well_formed Sess) (@writes_well_formed Patch)
       (client inb jid text)) ->
  always (@rows_well_formed Sess) (@writes_well_formed Patch)
    (handleMessage isPrivate b client env msg).
Proof.
  intros Hc.
  always_run
    ltac:(first [apply Hc | apply createFromLines_shape
                | apply createOffers_shape])
    keep_P call_Q.
Qed.

End Dialogs_well_formed.

Lemma V1_client_shape {U : Unicode} env inb jid text :
  always rows_well_formed writes_well_formed
    (V1.handleClientMessage env inb jid text).
Proof.
  always_run fail ltac:(intros ? ? ? ? ?; cbn in *; eauto) ltac:(exact I).
Qed.

Lemma V2_client_shape {U : Unicode} env inb jid text :
  always rows_well_formed writes_well_formed
    (V2.handleClientMessage env inb jid text).
Proof.
  always_run fail ltac:(intros ? ? ? ? ?; cbn in *; eauto) ltac:(exact I).
Qed.

Lemma all_well_formed_rows {Sess} (w : World Sess) :
  all_well_formed w = true <-> rows_well_formed w.
Proof.
  unfold all_well_formed, rows_well_formed. rewrite forallb_forall. split.
  - intros H j d Hd. apply (H (j, d)).
    apply list_elem_of_In. now apply elem_of_map_to_list.
  - intros H [j d] Hin. apply list_elem_of_In, elem_of_map_to_list in Hin.
    exact (H j d Hin).
Qed.

(** ** The steps of the funnels *)

Section Step_graph.

Context {U : Unicode} (env : Env).

Ltac graph E :=
  unfold V1_step_of, V2_step_of; cbn;
  rewrite ?lookup_alter_eq, ?lookup_insert_eq, ?E; cbn;
  repeat match goal with H : V1.step _ = _ |- _ => rewrite H end;
  repeat match goal with H : V2.step _ = _ |- _ => rewrite H end;
  try reflexivity;
  try (destruct (V1.step _); reflexivity);
  try (destruct (V2.step _); reflexivity).

Lemma V1_moves msg jid text w :
  V1_move (V1_step_of w jid)
    (V1_step_of (final (V1.handleClientMessage env msg jid text w)) jid) = true.
Proof.
  unfold V1.handleClientMessage, V1.handleBack, V1.submitScreenshot.
  destruct (user_sessions w !! jid) as [s|] eqn:E.
  - run. rewrite E. run. all_paths; graph E.
  - run. rewrite E. run. all_paths; graph E.
Qed.

Lemma V2_moves msg jid text w :
  V2_move (V2_step_of w jid)
    (V2_step_of (final (V2.handleClientMessage env msg jid text w)) jid) = true.
Proof.
  unfold V2.handleClientMessage, V2.handleBack, V2.sendRequestToAdmin.
  destruct (user_sessions w !! jid) as [s|] eqn:E.
  - run. rewrite E. run. all_paths; graph E.
  - run. rewrite E. run. all_paths; graph E.
Qed.

End Step_graph.

(** ** A funnel that is never entered *)

(** What one message that is not the operator's does: nothing, the
    reply to [/mid], or the run of the funnel. *)
Lemma handleMessage_of_client {Sess Patch} {U : Unicode} isPrivate b
  (client : Inbound -> jsstring -> jsstring -> M Sess Patch unit) env msg w :
  sender msg <> ADMIN_JID env ->
  let r := handleMessage isPrivate b client env msg w in
  let r' := client (inbound msg) (remoteJid msg) (extractText msg) w in
  (final r = w /\
   (calls r = [] \/
    calls r = [CSendMessage (remoteJid msg) (MidReply (sender msg))])) \/
  (final r = final r' /\ calls r = calls r').
Proof.
  intros Hs r r'. subst r r'. apply eqb_false in Hs.
  unfold handleMessage. fold (sender msg). rewrite Hs. unfold try_catch.
  destruct (message msg); [|left; now split; [|left]].
  destruct (fromMe msg); [left; now split; [|left]|].
  destruct (negb (isPrivate _)); [left; now split; [|left]|].
  destruct (_ && _); [left; now split; [|right]|].
  right. destruct (client _ _ _ w) as [[[]|e] w1 l1]; cbn;
    rewrite ?app_nil_r; now split.
Qed.

Ltac funnel_calls :=
  cbn;
  repeat (apply List.Forall_cons;
          [cbn; intros ?; first [discriminate | auto]|]);
  apply List.Forall_nil.

Section Never_entered.

Context {U : Unicode} (env : Env).

Lemma V1_move_from_idle b : V1_move V1.idle b = true -> b = V1.idle.
Proof. now destruct b. Qed.

Lemma V2_move_from_idle b : V2_move V2.idle b = true -> b = V2.idle.
Proof. now destruct b. Qed.

Lemma V1_idle_run msg jid text w :
  V1_step_of w jid = V1.idle ->
  let r := V1.handleClientMessage env msg jid text w in
  V1_step_of (final r) jid = V1.idle /\
  Forall (fun c => of_funnel c = true ->
                   c = CGetUserSession jid \/ c = CUpdateUserSession jid V1.reset)
    (calls r).
Proof.
  intros Hi r. split.
  - apply V1_move_from_idle. rewrite <- Hi. apply V1_moves.
  - subst r. revert Hi. unfold V1_step_of.
    unfold V1.handleClientMessage, V1.handleBack.
    destruct (user_sessions w !! jid) as [s|] eqn:E; intros Hi.
    + run. rewrite E. run. rewrite Hi. all_paths.
      all: funnel_calls.
    + run. rewrite E. run. all_paths.
      all: funnel_calls.
Qed.

Lemma V2_idle_run msg jid text w :
  V2_step_of w jid = V2.idle ->
  let r := V2.handleClientMessage env msg jid text w in
  V2_step_of (final r) jid = V2.idle /\
  Forall (fun c => of_funnel c = true ->
                   c = CGetUserSession jid \/ c = CUpdateUserSession jid V2.reset)
    (calls r).
Proof.
  intros Hi r. split.
  - apply V2_move_from_idle. rewrite <- Hi. apply V2_moves.
  - subst r. revert Hi. unfold V2_step_of.
    unfold V2.handleClientMessage, V2.handleBack.
    destruct (user_sessions w !! jid) as [s|] eqn:E; intros Hi.
    + run. rewrite E. run. rewrite Hi. all_paths.
      all: funnel_calls.
    + run. rewrite E. run. all_paths.
      all: funnel_calls.
Qed.

End Never_entered.

Section Never_entered_batch.

Context {U : Unicode} (env : Env).

Lemma no_funnel_no_order {Patch} jid (l : list (Call Patch)) :
  Forall funnel_free l -> Forall (no_order_for jid) l.
Proof.
  intros H. eapply Forall_impl; [exact H|].
  intros c Hc. destruct c; try exact I. discriminate Hc.
Qed.

Lemma V1_message_keeps_idle jid msg :
  always (V1_at_rest jid) (no_order_for jid)
    (V1_handleMessage env msg).
Proof.
  intros w Hw. unfold V1_handleMessage.
  destruct (decide (sender msg = ADMIN_JID env)) as [Ha|Ha].
  - destruct (operator_message_isolated
                (user_sessions w) (dom (requests w))
                isUserChat false (V1.handleClientMessage env) env msg Ha w
                (conj eq_refl eq_refl)) as [[Hs _] Hc].
    split; [|now apply no_funnel_no_order].
    unfold V1_at_rest, V1_step_of in *. rewrite Hs. exact Hw.
  - destruct (handleMessage_of_client isUserChat false
                (V1.handleClientMessage env) env msg w Ha)
      as [[-> Hc]|[-> ->]].
    + split; [exact Hw|]. destruct Hc as [-> | ->]; repeat constructor.
    + destruct (decide (remoteJid msg = jid)) as [<-|Hne].
      * destruct (V1_idle_run env (inbound msg) _ (extractText msg) w Hw)
          as [H1 H2].
        split; [exact H1|]. eapply Forall_impl; [exact H2|].
        intros c Hc. destruct c; try exact I.
        destruct (Hc eq_refl); discriminate.
      * destruct (V1_client_isolated env w (inbound msg) (remoteJid msg)
                    (extractText msg) w) as [[_ Hf] Hc].
        { split; [now repeat split|auto]. }
        split.
        -- unfold V1_at_rest, V1_step_of in *. rewrite Hf by congruence.
           exact Hw.
        -- eapply Forall_impl; [exact Hc|].
           intros c Hq. destruct c; try exact I. cbn in *. congruence.
Qed.

Lemma V2_message_keeps_idle jid msg :
  always (V2_at_rest jid) (no_order_for jid)
    (V2_handleMessage env msg).
Proof.
  intros w Hw. unfold V2_handleMessage.
  destruct (decide (sender msg = ADMIN_JID env)) as [Ha|Ha].
  - destruct (operator_message_isolated
                (user_sessions w) (dom (requests w))
                isPrivateChat true (V2.handleClientMessage env) env msg Ha w
                (conj eq_refl eq_refl)) as [[Hs _] Hc].
    split; [|now apply no_funnel_no_order].
    unfold V2_at_rest, V2_step_of in *. rewrite Hs. exact Hw.
  - destruct (handleMessage_of_client isPrivateChat true
                (V2.handleClientMessage env) env msg w Ha)
      as [[-> Hc]|[-> ->]].
    + split; [exact Hw|]. destruct Hc as [-> | ->]; repeat constructor.
    + destruct (decide (remoteJid msg = jid)) as [<-|Hne].
      * destruct (V2_idle_run env (inbound msg) _ (extractText msg) w Hw)
          as [H1 H2].
        split; [exact H1|]. eapply Forall_impl; [exact H2|].
        intros c Hc. destruct c; try exact I.
        destruct (Hc eq_refl); discriminate.
      * destruct (V2_client_isolated env w (inbound msg) (remoteJid msg)
                    (extractText msg) w) as [[_ Hf] Hc].
        { split; [now repeat split|auto]. }
        split.
        -- unfold V2_at_rest, V2_step_of in *. rewrite Hf by congruence.
           exact Hw.
        -- eapply Forall_impl; [exact Hc|].
           intros c Hq. destruct c; try exact I. cbn in *. congruence.
Qed.

End Never_entered_batch.

(** ** An open dialog takes the message *)

Section Handles.

Context {Sess Patch : Type} {SM : SessionModel Sess Patch} {U : Unicode}.

Lemma handles_bind {A} (m : M Sess Patch A) (k : A -> M Sess Patch bool) :
  (forall a, handles (k a)) -> handles (bind m k).
Proof.
  intros Hk w. unfold bind. destruct (m w) as [[a|e] w1 l1]; [|discriminate].
  specialize (Hk a w1). now destruct (k a w1).
Qed.

Lemma handles_ret_true : handles (@ret Sess Patch bool true).
Proof. intros w. discriminate. Qed.

Lemma handles_throw e : handles (@throw Sess Patch bool e).
Proof. intros w. discriminate. Qed.

Ltac in_range :=
  repeat match goal with
  | H : _ && _ = true |- _ => apply andb_true_iff in H as [? ?]
  | H : (_ <=? _) = true |- _ => apply Z.leb_le in H
  | H : (_ =? _) = true |- _ => apply Z.eqb_eq in H
  | H : (_ =? _) = false |- _ => apply Z.eqb_neq in H
  end.

Ltac handles_step :=
  lazymatch goal with
  | |- handles (bind _ _) => apply handles_bind; intro
  | |- handles (ret true) => apply handles_ret_true
  | |- handles (throw _) => apply handles_throw
  | |- handles (ret false) => exfalso; in_range; lia
  | |- handles (match ?x with _ => _ end) => destruct x eqn:?
  | |- handles (let _ := _ in _) => cbv zeta
  end.

Lemma dialog_handles jid d text :
  well_formed d = true ->
  handles (match d_command d with
           | crear_tarjeta => handleCreateCardDialog jid d text
           | crear_saldo => handleCreateMobileDialog jid d text
           | crear_tabla => handleCreateTableDialog jid d text
           | anadir_ofertas => handleAddOffersDialog jid d text
           | editar_juego => handleEditGameDialog jid d text
           | editar_oferta => handleEditOfferDialog jid d text
           | editar_metodo => handleEditMethodDialog jid d text
           end : M Sess Patch bool).
Proof.
  destruct d as [c s data]. unfold well_formed. cbn [d_command d_step d_data].
  intros Hwf.
  destruct c, data; try discriminate Hwf;
    unfold handleCreateCardDialog, handleCreateMobileDialog,
      handleCreateTableDialog, handleAddOffersDialog, handleEditGameDialog,
      handleEditOfferDialog, handleEditMethodDialog;
    cbn [d_command d_step d_data method_draft offer_edit method_edit];
    repeat handles_step.
Qed.

Lemma handleAdminDialog_handles jid text (w : World Sess) d :
  admin_dialogs w !! jid = Some d -> well_formed d = true ->
  outcome (handleAdminDialog (Patch:=Patch) jid text w) <> Ok false.
Proof.
  intros Hd Hwf. unfold handleAdminDialog. unfold getAdminDialog.
  unfold bind at 1. unfold bind at 1. cbn. rewrite Hd.
  pose proof (dialog_handles jid d text Hwf) as Hh.
  destruct (eqb _ _).
  - run. discriminate.
  - specialize (Hh w). destruct (match d_command d with _ => _ end w).
    exact Hh.
Qed.

End Handles.

Section Priority.

Context {Sess Patch : Type} {U : Unicode}.

(** X9. An open dialog takes the message: while the operator has a
    well-formed dialog row, a message of the operator that is not
    [/mid] is read as input of the dialog and of nothing else; no
    command is run, whatever the text, slash commands included. *)
Theorem open_dialog_takes_the_message isPrivate b
  (client : Inbound -> jsstring -> jsstring -> M Sess Patch unit)
  env msg w d content :
  message msg = Some content -> fromMe msg = false ->
  isPrivate (remoteJid msg) = true ->
  eqb (trim (extractText msg)) (lit "/mid") = false ->
  sender msg = ADMIN_JID env ->
  admin_dialogs w !! remoteJid msg = Some d -> well_formed d = true ->
  let r := handleMessage isPrivate b client env msg w in
  let r' := handleAdminDialog (remoteJid msg) (extractText msg) w in
  final r = final r' /\ calls r = calls r'.
Proof.
  intros Hm Hf Hp Hmid Ha Hd Hwf r r'. subst r r'.
  pose proof (handleAdminDialog_handles (Patch:=Patch) (remoteJid msg)
                (extractText msg) w d Hd Hwf) as Hh.
  unfold handleMessage. fold (sender msg).
  rewrite Hm, Hf, Hp, Ha, eqb_refl, Hmid, andb_false_r. cbn [negb].
  unfold try_catch, bind.
  destruct (handleAdminDialog _ _ w) as [[[]|e] w1 l1]; cbn;
    rewrite ?app_nil_r; easy.
Qed.

End Priority.

(** ** The dialogs from the first step to the last *)

Section Flows.

Context {Sess Patch : Type} {SM : SessionModel Sess Patch} {U : Unicode}.

Implicit Types (w : World Sess) (jid text : jsstring).

Lemma falsy_Some n : n <> 0 -> falsy (Some n) = false.
Proof. intros H. unfold falsy. now apply Z.eqb_neq. Qed.

Ltac enter :=
  unfold handleAdminDialog, handleCreateCardDialog, handleCreateMobileDialog,
    handleEditGameDialog, handleEditOfferDialog, handleEditMethodDialog,
    createPaymentMethod, updateOffer, updatePaymentMethod, updateGameName,
    getPaymentMethodById, getAdminDialog, methods_with_id.

(** X10. The card dialog from its first step to its last: the index,
    the label, the card number and the number to confirm create one
    card with that index and label, the card number without its white
    space and the confirm number as typed; the dialog is closed. *)
Theorem card_dialog_creates_card jid t1 t2 t3 t4 n w :
  admin_dialogs w !! jid = Some (mkDialog crear_tarjeta 1 DataEmpty) ->
  forallb (fun t => negb (is_cancel_word t)) [t1; t2; t3; t4] = true ->
  emojiToNumber t1 = Some n -> n <> 0 ->
  existsb (fun m => PayType_eqb (m_type m) card && (m_number m =? n))
    (payment_methods w) = false ->
  let r := (exec handleAdminDialog jid t1;
            exec handleAdminDialog jid t2;
            exec handleAdminDialog jid t3;
            handleAdminDialog (Patch:=Patch) jid t4) w in
  outcome r = Ok true /\
  payment_methods (final r) =
    payment_methods w ++
    [mkPaymentMethod (next_id w) card n t2
       (mkDetails (Some (remove_all is_space t3)) (Some t4) None)] /\
  admin_dialogs (final r) !! jid = None /\
  omap sent (calls r) =
    [(jid, AskCardLabel); (jid, AskCardNumber); (jid, AskConfirmNumber);
     (jid, CardSaved n)].
Proof.
  intros Hd Hc Hn Hz Hfree r. subst r.
  cbn in Hc. unfold is_cancel_word in Hc.
  repeat (apply andb_true_iff in Hc as [?%negb_true_iff Hc]).
  apply falsy_Some in Hz.
  enter. run.
  repeat (rewrite ?Hd, ?lookup_insert_eq; run;
          repeat match goal with H : eqb _ _ = false |- _ => rewrite H end;
          rewrite ?Hn, ?Hz, ?Hfree; run).
  rewrite lookup_delete_eq. now repeat split.
Qed.

(** X11. The mobile balance dialog from its first step to its last:
    the index, the label and the phone number create one mobile
    balance with the phone number without its white space; the dialog
    is closed. *)
Theorem balance_dialog_creates_balance jid t1 t2 t3 n w :
  admin_dialogs w !! jid = Some (mkDialog crear_saldo 1 DataEmpty) ->
  forallb (fun t => negb (is_cancel_word t)) [t1; t2; t3] = true ->
  emojiToNumber t1 = Some n -> n <> 0 ->
  existsb (fun m => PayType_eqb (m_type m) mobile && (m_number m =? n))
    (payment_methods w) = false ->
  let r := (exec handleAdminDialog jid t1;
            exec handleAdminDialog jid t2;
            handleAdminDialog (Patch:=Patch) jid t3) w in
  outcome r = Ok true /\
  payment_methods (final r) =
    payment_methods w ++
    [mkPaymentMethod (next_id w) mobile n t2
       (mkDetails None None (Some (remove_all is_space t3)))] /\
  admin_dialogs (final r) !! jid = None /\
  omap sent (calls r) =
    [(jid, AskMobileLabel); (jid, AskPhoneNumber); (jid, MobileSaved n)].
Proof.
  intros Hd Hc Hn Hz Hfree r. subst r.
  cbn in Hc. unfold is_cancel_word in Hc.
  repeat (apply andb_true_iff in Hc as [?%negb_true_iff Hc]).
  apply falsy_Some in Hz.
  enter. run.
  repeat (rewrite ?Hd, ?lookup_insert_eq; run;
          repeat match goal with H : eqb _ _ = false |- _ => rewrite H end;
          rewrite ?Hn, ?Hz, ?Hfree; run).
  rewrite lookup_delete_eq. now repeat split.
Qed.

(** X12. Both creation dialogs refuse, at their first step, a text
    without a digit or that reads as zero: the reply is sent and the
    dialog stays where it is. *)
Theorem creation_index_refused jid text w data :
  is_cancel_word text = false ->
  falsy (emojiToNumber text) = true ->
  (admin_dialogs w !! jid = Some (mkDialog crear_tarjeta 1 data) ->
   handleAdminDialog (Patch:=Patch) jid text w =
     mkRun (Ok true) w
       [CGetAdminDialog jid; CSendMessage jid InvalidIndexOrCancel]) /\
  (admin_dialogs w !! jid = Some (mkDialog crear_saldo 1 data) ->
   handleAdminDialog (Patch:=Patch) jid text w =
     mkRun (Ok true) w
       [CGetAdminDialog jid; CSendMessage jid InvalidIndexRetry]).
Proof.
  unfold is_cancel_word. intros Hc Hf.
  split; intros Hd; enter; run; rewrite Hd; run; rewrite Hc; run;
    rewrite Hf; run; reflexivity.
Qed.

(** X13. The offer edition from its first step to its last: the
    offer of the dialog gets the description as typed, the two prices
    read by [parseInt], and the USD price read by [parseFloat], or no
    USD price when the last text is ["0"] or blank; its index and its
    game are kept, the other offers are untouched. *)
Theorem offer_edit_updates_offer jid t1 t2 t3 t4 oid gname pm pc w :
  admin_dialogs w !! jid =
    Some (mkDialog editar_oferta 1 (DataEditOffer oid gname)) ->
  forallb (fun t => negb (is_cancel_word t)) [t1; t2; t3; t4] = true ->
  parseInt t2 = Some pm -> parseInt t3 = Some pc ->
  let blank := eqb t4 (lit "0") || eqb (trim t4) [] in
  blank || negb (isNaN (parseFloat t4)) = true ->
  let r := (exec handleAdminDialog jid t1;
            exec handleAdminDialog jid t2;
            exec handleAdminDialog jid t3;
            handleAdminDialog (Patch:=Patch) jid t4) w in
  outcome r = Ok true /\
  offers (final r) =
    List.map
      (fun o => if o_id o =? oid
                then mkOffer (o_id o) (o_game_id o) (o_number o) t1
                       (Some pm) (Some pc)
                       (if blank then None else json_number (parseFloat t4))
                else o)
      (offers w) /\
  admin_dialogs (final r) !! jid = None /\
  omap sent (calls r) =
    [(jid, AskNewMobilePrice); (jid, AskNewCardPrice); (jid, AskNewUsdPrice);
     (jid, OfferUpdated)].
Proof.
  intros Hd Hc Hm Hk blank Hu r. subst r.
  cbn in Hc. unfold is_cancel_word in Hc.
  repeat (apply andb_true_iff in Hc as [?%negb_true_iff Hc]).
  enter. run.
  repeat (rewrite ?Hd, ?lookup_insert_eq; run;
          repeat match goal with H : eqb _ _ = false |- _ => rewrite H end;
          rewrite ?Hm, ?Hk; run).
  subst blank. revert Hu.
  destruct (eqb t4 (lit "0")), (eqb (trim t4) []); cbn;
    try destruct (isNaN (parseFloat t4)); cbn; try discriminate; intros _;
    run; rewrite lookup_delete_eq; now repeat split.
Qed.

(** X14. The offer edition refuses a price that does not read as a
    number: at the steps of the two prices a text [parseInt] cannot
    read, at the step of the USD price a text other than ["0"] and not
    blank that [parseFloat] cannot read; the dialog stays at its
    step. *)
Theorem offer_edit_price_refused jid text w oid gname d m c step :
  is_cancel_word text = false ->
  admin_dialogs w !! jid =
    Some (mkDialog editar_oferta step (DataEditOfferDraft oid gname d m c)) ->
  (step = 2 \/ step = 3) /\ parseInt text = None \/
  step = 4 /\ eqb text (lit "0") = false /\ eqb (trim text) [] = false /\
    isNaN (parseFloat text) = true ->
  handleAdminDialog (Patch:=Patch) jid text w =
    mkRun (Ok true) w
      [CGetAdminDialog jid;
       CSendMessage jid (if step =? 4 then InvalidUsdPrice else InvalidPrice)].
Proof.
  unfold is_cancel_word.
  intros Hc Hd [[[-> | ->] Hp]|(-> & H0 & Hb & Hn)];
    enter; run; rewrite Hd; run; rewrite Hc; run.
  - rewrite Hp. reflexivity.
  - rewrite Hp. reflexivity.
  - rewrite H0, Hb, Hn. reflexivity.
Qed.

(** X15. The edition of a card keeps its card number: of the three
    texts of the dialog, the label and the number to confirm are
    stored, and the new card number is dropped, whatever it is. *)
Theorem card_edit_keeps_card_number jid t1 t2 t3 mid num m w :
  admin_dialogs w !! jid =
    Some (mkDialog editar_metodo 1 (DataEditMethod mid card num)) ->
  forallb (fun t => negb (is_cancel_word t)) [t1; t2; t3] = true ->
  methods_with_id mid w = [m] ->
  let r := (exec handleAdminDialog jid t1;
            exec handleAdminDialog jid t2;
            handleAdminDialog (Patch:=Patch) jid t3) w in
  outcome r = Ok true /\
  payment_methods (final r) =
    List.map
      (fun m' => if m_id m' =? mid
                 then mkPaymentMethod (m_id m') (m_type m') (m_number m') t1
                        (mkDetails (card_number (m_details m)) (Some t3)
                           (phone_number (m_details m)))
                 else m')
      (payment_methods w) /\
  admin_dialogs (final r) !! jid = None /\
  omap sent (calls r) =
    [(jid, AskNewCardNumber); (jid, AskNewConfirmNumber); (jid, CardUpdated)].
Proof.
  intros Hd Hc Hm r. subst r. unfold methods_with_id in Hm.
  cbn in Hc. unfold is_cancel_word in Hc.
  repeat (apply andb_true_iff in Hc as [?%negb_true_iff Hc]).
  enter. run.
  repeat (rewrite ?Hd, ?lookup_insert_eq; run;
          repeat match goal with H : eqb _ _ = false |- _ => rewrite H end;
          rewrite ?Hm; run).
  rewrite lookup_delete_eq. now repeat split.
Qed.

(** X16. The edition of a mobile balance stores the label and the
    phone number without its white space, and keeps the other entries
    of the details. *)
Theorem balance_edit_merges_phone jid t1 t2 mid num m w :
  admin_dialogs w !! jid =
    Some (mkDialog editar_metodo 1 (DataEditMethod mid mobile num)) ->
  forallb (fun t => negb (is_cancel_word t)) [t1; t2] = true ->
  methods_with_id mid w = [m] ->
  let r := (exec handleAdminDialog jid t1;
            handleAdminDialog (Patch:=Patch) jid t2) w in
  outcome r = Ok true /\
  payment_methods (final r) =
    List.map
      (fun m' => if m_id m' =? mid
                 then mkPaymentMethod (m_id m') (m_type m') (m_number m') t1
                        (mkDetails (card_number (m_details m))
                           (confirm_number (m_details m))
                           (Some (remove_all is_space t2)))
                 else m')
      (payment_methods w) /\
  admin_dialogs (final r) !! jid = None /\
  omap sent (calls r) = [(jid, AskNewPhoneNumber); (jid, MethodUpdated)].
Proof.
  intros Hd Hc Hm r. subst r. unfold methods_with_id in Hm.
  cbn in Hc. unfold is_cancel_word in Hc.
  repeat (apply andb_true_iff in Hc as [?%negb_true_iff Hc]).
  enter. run.
  repeat (rewrite ?Hd, ?lookup_insert_eq; run;
          repeat match goal with H : eqb _ _ = false |- _ => rewrite H end;
          rewrite ?Hm; run).
  rewrite lookup_delete_eq. now repeat split.
Qed.

(** X17. When the payment method under edition is no longer in the
    table, the dialog is closed with the not-found reply and nothing
    is written. *)
Theorem edited_method_gone jid text w mid ty num label step :
  is_cancel_word text = false ->
  step = 2 \/ step = 3 ->
  admin_dialogs w !! jid =
    Some (mkDialog editar_metodo step (DataEditMethodDraft mid ty num label)) ->
  methods_with_id mid w = [] ->
  handleAdminDialog (Patch:=Patch) jid text w =
    mkRun (Ok true) (set_admin_dialogs (delete jid (admin_dialogs w)) w)
      [CGetAdminDialog jid; CGetPaymentMethodById mid;
       CSendMessage jid AdminMethodNotFound; CClearAdminDialog jid].
Proof.
  unfold is_cancel_word, methods_with_id. intros Hc [-> | ->] Hd Hm;
    enter; run; rewrite Hd; run; rewrite Hc; run; rewrite Hm; reflexivity.
Qed.

(** X18. The edition of a game: a blank name is refused and the
    dialog stays open; any other text, trimmed, becomes the name of
    the game of the dialog, the other games are untouched and the
    dialog is closed. *)
Theorem game_edit_renames jid text w gid num :
  admin_dialogs w !! jid = Some (mkDialog editar_juego 1 (DataEditGame gid num)) ->
  is_cancel_word text = false ->
  let r := handleAdminDialog (Patch:=Patch) jid text w in
  outcome r = Ok true /\
  match trim text with
  | [] =>
      final r = w /\ omap sent (calls r) = [(jid, NameCannotBeEmpty)]
  | newName =>
      games (final r) =
        List.map (fun g => if g_id g =? gid
                           then mkGame (g_id g) (g_number g) newName
                                  (g_description g)
                           else g) (games w) /\
      admin_dialogs (final r) !! jid = None /\
      omap sent (calls r) = [(jid, GameUpdated newName)]
  end.
Proof.
  intros Hd Hc r. subst r. unfold is_cancel_word in Hc.
  enter. run. rewrite Hd. run. rewrite Hc. run.
  destruct (trim text) eqn:E; run; [now repeat split|].
  rewrite lookup_delete_eq. now repeat split.
Qed.

End Flows.

(** ** When an order is created *)

Section Order_creation.

Context {U : Unicode} (env : Env).

(** X19. In [index.js] an order is created only at the screenshot
    step, from a message with an image or a document whose file was
    stored: the order is pending, in the name of the sender, under the
    identifier of the session, with the address of the stored file. *)
Theorem V1_order_needs_stored_attachment msg jid text w i q :
  let r := V1.handleClientMessage env msg jid text w in
  In (CCreateRequest i q) (calls r) ->
  exists s url,
    user_sessions w !! jid = Some s /\
    V1.step s = V1.awaiting_screenshot /\
    imageMessage msg || documentMessage msg = true /\
    storeScreenshot env
      (lit "screenshots/" ++ interpolate (V1.request_id s) ++ lit ".png")
      = Some url /\
    i = V1.request_id s /\
    r_user_jid q = jid /\ r_status q = pending /\
    r_screenshot_url q = Some url.
Proof.
  cbn zeta. unfold V1.handleClientMessage, V1.handleBack, V1.submitScreenshot.
  destruct (user_sessions w !! jid) as [s|] eqn:E.
  - run. rewrite E. run. all_paths; intros Hin; call_cases Hin.
    all: injection Hin as <- <-.
    all: exists s; eexists; repeat split; eauto.
    all: destruct (imageMessage msg), (documentMessage msg); cbn in *;
      congruence.
  - run. rewrite E. run. all_paths; intros Hin; call_cases Hin.
Qed.

(** X20. At the screenshot step a message without attachment, or
    whose attachment cannot be stored, changes nothing: the user is
    asked for the screenshot, or told of the failure, and can send it
    again. *)
Theorem V1_no_order_without_upload msg jid text w s :
  user_sessions w !! jid = Some s ->
  V1.step s = V1.awaiting_screenshot ->
  is_cancel_word text = false ->
  eqb (toLowerCase (trim text)) (lit "volver") = false ->
  let fileName :=
    lit "screenshots/" ++ interpolate (V1.request_id s) ++ lit ".png" in
  let r := V1.handleClientMessage env msg jid text w in
  (imageMessage msg || documentMessage msg = false ->
   r = mkRun (Ok tt) w
         [CGetUserSession jid;
          CSendMessage jid (WithCancelHint ScreenshotRequired)]) /\
  (imageMessage msg || documentMessage msg = true ->
   storeScreenshot env fileName = None ->
   r = mkRun (Ok tt) w
         [CGetUserSession jid; CUploadScreenshot fileName;
          CSendMessage jid (WithCancelHint ScreenshotError)]).
Proof.
  intros Hs Hst Hc Hv fileName r. subst r fileName.
  unfold is_cancel_word in Hc.
  unfold V1.handleClientMessage, V1.submitScreenshot.
  split.
  - intros Ha. run. rewrite Hs. run. rewrite Hc, Hv, Hst. run.
    destruct (imageMessage msg), (documentMessage msg); try discriminate.
    reflexivity.
  - intros Ha Hu. run. rewrite Hs. run. rewrite Hc, Hv, Hst. run.
    destruct (imageMessage msg), (documentMessage msg); try discriminate;
      run; rewrite Hu; reflexivity.
Qed.

(** X21. In the fields file an order is created only from the offers
    step or the fields step; it is pending, in the name of the sender,
    under the identifier generated for it, with payment method
    ["pendiente"] and no screenshot. *)
Theorem V2_order_only_after_offers msg jid text w i q :
  let r := V2.handleClientMessage env msg jid text w in
  In (CCreateRequest i q) (calls r) ->
  (V2_step_of w jid = V2.awaiting_offers \/
   V2_step_of w jid = V2.awaiting_fields) /\
  i = Some (generateRequestId env) /\
  r_user_jid q = jid /\ r_status q = pending /\
  r_payment_method q = lit "pendiente" /\
  r_screenshot_url q = None.
Proof.
  cbn zeta. unfold V2_step_of.
  unfold V2.handleClientMessage, V2.handleBack, V2.sendRequestToAdmin.
  destruct (user_sessions w !! jid) as [s|] eqn:E.
  - run. rewrite E. run. all_paths; intros Hin; call_cases Hin.
    all: injection Hin as <- <-.
    all: repeat split; auto.
  - run. rewrite E. run. all_paths; intros Hin; call_cases Hin.
Qed.

End Order_creation.

(** ** The answers to the fields *)

Section Field_answers.

Context {U : Unicode} (env : Env).



End Field_answers.

(** ** Indices that come back *)

Lemma uint_digits_run d :
  forallb is_digit (lit (NilEmpty.string_of_uint d)) = true.
Proof. unfold lit. induction d; cbn; auto. Qed.

Lemma uint_digits d :
  forallb is_digit (lit (NilZero.string_of_uint d)) = true.
Proof. destruct d; try apply uint_digits_run. reflexivity. Qed.

Lemma uint_fold d acc :
  fold_left (fun acc c => 10 * acc + digit_val c)
    (lit (NilEmpty.string_of_uint d)) acc
  = uint_value d acc.
Proof.
  unfold lit in *. revert acc. induction d; intros acc; cbn; try reflexivity;
    rewrite <- IHd; f_equal; unfold digit_val; cbn; lia.
Qed.

Lemma of_uint_acc_value d acc :
  Z.pos (Pos.of_uint_acc d acc) = uint_value d (Z.pos acc).
Proof.
  revert acc. induction d; intros acc; cbn [Pos.of_uint_acc uint_value];
    try reflexivity; rewrite IHd; f_equal; lia.
Qed.

Lemma of_uint_value d : Z.of_N (Pos.of_uint d) = uint_value d 0.
Proof.
  induction d; cbn [Pos.of_uint uint_value]; try reflexivity;
    try exact IHd; cbn [Z.of_N]; rewrite of_uint_acc_value; reflexivity.
Qed.

Lemma toString_value p :
  digits_value (toString (Z.pos p)) = Z.pos p /\
  forallb is_digit (toString (Z.pos p)) = true /\
  toString (Z.pos p) <> [].
Proof.
  unfold toString. cbn [Z.to_int NilZero.string_of_int].
  assert (Hne : Pos.to_uint p <> Decimal.Nil).
  { intros E. pose proof (DecimalPos.Unsigned.of_to p) as H.
    rewrite E in H. discriminate H. }
  assert (Hs : NilZero.string_of_uint (Pos.to_uint p) =
               NilEmpty.string_of_uint (Pos.to_uint p))
    by (destruct (Pos.to_uint p); [contradiction|reflexivity..]).
  repeat split.
  - unfold digits_value. rewrite Hs, uint_fold, <- of_uint_value.
    now rewrite DecimalPos.Unsigned.of_to.
  - apply uint_digits.
  - rewrite Hs. destruct (Pos.to_uint p); [contradiction|discriminate..].
Qed.

Lemma filter_all {A} (p : A -> bool) l :
  forallb p l = true -> List.filter p l = l.
Proof.
  induction l as [|x l IH]; cbn; [reflexivity|].
  intros [Hx Hl]%andb_true_iff. rewrite Hx. f_equal. auto.
Qed.

Lemma index_comes_back n :
  0 <= n -> n <> 10 -> emojiToNumber (numberToEmoji n) = Some n.
Proof.
  intros Hn H10.
  destruct (Z_lt_le_dec n 10) as [Hlt|Hge].
  - pose proof keycap_round_trip as Hk. rewrite Forall_forall in Hk.
    apply Hk. change (n ∈ seqZ 0 10). apply elem_of_seqZ. lia.
  - assert (Hbig : (0 <=? n) && (n <=? 10) = false).
    { apply andb_false_iff. right. apply Z.leb_gt. lia. }
    unfold numberToEmoji. rewrite Hbig.
    destruct n as [|p|p]; try lia.
    destruct (toString_value p) as (Hv & Hd & Hne).
    unfold emojiToNumber, remove_all.
    rewrite filter_all.
    + rewrite Hv. destruct (toString (Z.pos p)); [contradiction|reflexivity].
    + clear Hv Hne. induction (toString (Z.pos p)) as [|c l IH];
        [reflexivity|].
      cbn in *. apply andb_true_iff in Hd as [-> Hl]. cbn. auto.
Qed.

(** ** The properties at the level of the messages *)

Import Scenario.

(** X1. An index that is rendered and read again comes back, whenever
    it is a safe integer from zero on other than ten: the keycaps of
    zero to nine hold their digit, and from eleven on the index is
    written in digits. *)
Theorem index_round_trip n :
  0 <= n -> n <= max_safe_integer -> n <> 10 ->
  emojiToNumber (numberToEmoji n) = Some n.
Proof. intros Hn _ H10. now apply index_comes_back. Qed.

Lemma index_round_trip_witness :
  emojiToNumber (numberToEmoji 25) = Some 25.
Proof. apply index_round_trip; [lia|vm_compute; discriminate|lia]. Defined.

(** X2. A message of the operator never enters the funnel, in either
    file: no session is read or written, no order is created or
    removed, no screenshot is stored. *)
Theorem operator_never_enters_funnel {Sess Patch} {U : Unicode} isPrivate
  with_campos (client : Inbound -> jsstring -> jsstring -> M Sess Patch unit)
  env msg (w : World Sess) :
  eqb (sender msg) (ADMIN_JID env) = true ->
  let r := handleMessage isPrivate with_campos client env msg w in
  user_sessions (final r) = user_sessions w /\
  dom (requests (final r)) = dom (requests w) /\
  Forall funnel_free (calls r).
Proof.
  intros Ha%eqb_true r.
  destruct (operator_message_isolated (user_sessions w) (dom (requests w))
              isPrivate with_campos client env msg Ha w (conj eq_refl eq_refl))
    as [[H1 H2] H3].
  now repeat split.
Qed.

Lemma operator_never_enters_funnel_witness :
  let w := v1_at V1.awaiting_offer in
  let r := V1_handleMessage (U:=Latin1) env
             (Desk.text_from admin "/borrar juego 1") w in
  user_sessions (final r) = user_sessions w /\
  dom (requests (final r)) = dom (requests w) /\
  Forall funnel_free (calls r).
Proof.
  cbn zeta.
  apply (operator_never_enters_funnel (U:=Latin1) isUserChat false
           (V1.handleClientMessage env) env
           (Desk.text_from admin "/borrar juego 1")).
  vm_compute. reflexivity.
Defined.

(** X3. A message that is not the operator's changes neither the
    catalog nor the dialogs of the operator, and no session but the one
    of its chat; what it sends goes to its chat or to the operator, and
    an order it creates is in the name of its chat. *)
Theorem customer_changes_only_own_session {U : Unicode} env msg
  (w1 : World V1.Session) (w2 : World V2.Session) :
  eqb (sender msg) (ADMIN_JID env) = false ->
  let r1 := V1_handleMessage env msg w1 in
  let r2 := V2_handleMessage env msg w2 in
  (same_catalog w1 (final r1) /\
   (forall j, j <> remoteJid msg ->
              user_sessions (final r1) !! j = user_sessions w1 !! j) /\
   Forall (concerns (remoteJid msg) (ADMIN_JID env)) (calls r1)) /\
  (same_catalog w2 (final r2) /\
   (forall j, j <> remoteJid msg ->
              user_sessions (final r2) !! j = user_sessions w2 !! j) /\
   Forall (concerns (remoteJid msg) (ADMIN_JID env)) (calls r2)).
Proof.
  intros Ha%eqb_false r1 r2.
  assert (Hp : forall Sess (w : World Sess),
            own_session_only w (remoteJid msg) w)
    by (intros; split; [now repeat split|auto]).
  split.
  - destruct (client_message_isolated env w1 isUserChat false
                (V1.handleClientMessage env) msg
                (fun inb jid text => V1_client_isolated env w1 inb jid text)
                Ha w1 (Hp _ w1)) as [[H1 H2] H3].
    exact (conj H1 (conj H2 H3)).
  - destruct (client_message_isolated env w2 isPrivateChat true
                (V2.handleClientMessage env) msg
                (fun inb jid text => V2_client_isolated env w2 inb jid text)
                Ha w2 (Hp _ w2)) as [[H1 H2] H3].
    exact (conj H1 (conj H2 H3)).
Qed.

Lemma customer_changes_only_own_session_witness :
  let msg := Desk.text_from user "/borrar juego 1" in
  let r1 := V1_handleMessage (U:=Latin1) env msg (v1_at V1.awaiting_offer) in
  let r2 := V2_handleMessage (U:=Latin1) env msg (v2_choosing 1) in
  games (final r1) = [gameA; gameB] /\ games (final r2) = [gameA; gameB].
Proof.
  cbn zeta.
  destruct (customer_changes_only_own_session (U:=Latin1) env
              (Desk.text_from user "/borrar juego 1")
              (v1_at V1.awaiting_offer) (v2_choosing 1))
    as [[(H1 & _) _] [(H2 & _) _]]; [vm_compute; reflexivity|].
  split; assumption.
Defined.

(** X4. An order is never lost: whatever a batch of messages holds, an
    order that is in the table is still there afterwards, as it was or
    marked completed at the time of the run. *)
Theorem orders_are_kept {U : Unicode} env type messages id q
  (w1 : World V1.Session) (w2 : World V2.Session) :
  requests w1 !! id = Some q ->
  requests w2 !! id = Some q ->
  let r1 := V1_onMessagesUpsert env type messages w1 in
  let r2 := V2_onMessagesUpsert env type messages w2 in
  (requests (final r1) !! id = Some q \/
   requests (final r1) !! id = Some (complete (now w1) q)) /\
  (requests (final r2) !! id = Some q \/
   requests (final r2) !! id = Some (complete (now w2) q)).
Proof.
  intros H1 H2 r1 r2. split.
  - apply (onMessagesUpsert_always _ _ isUserChat false
             (V1.handleClientMessage env) env type messages
             (fun msg => handleMessage_orders id q (now w1) _ _ _ env msg
                (V1_client_orders env id q (now w1))) w1).
    split; [reflexivity|now left].
  - apply (onMessagesUpsert_always _ _ isPrivateChat true
             (V2.handleClientMessage env) env type messages
             (fun msg => handleMessage_orders id q (now w2) _ _ _ env msg
                (V2_client_orders env id q (now w2))) w2).
    split; [reflexivity|now left].
Qed.

Lemma orders_are_kept_witness :
  let r1 := V1_onMessagesUpsert (U:=Latin1) env (lit "notify") Desk.batch
              (with_order (v1_at V1.awaiting_offer)) in
  let r2 := V2_onMessagesUpsert (U:=Latin1) env (lit "notify") Desk.batch
              (with_order (v2_choosing 1)) in
  is_Some (requests (final r1) !! lit "REQ-9") /\
  is_Some (requests (final r2) !! lit "REQ-9").
Proof.
  cbn zeta.
  destruct (orders_are_kept (U:=Latin1) env (lit "notify") Desk.batch
              (lit "REQ-9") pending_order
              (with_order (v1_at V1.awaiting_offer))
              (with_order (v2_choosing 1)))
    as [[H1|H1] [H2|H2]]; try (vm_compute; reflexivity);
    rewrite H1, H2; split; eexists; reflexivity.
Defined.

(** X5. The rows of the dialogs stay well formed: when every row has a
    step of its command and data of the shape of its command, so it is
    after any batch of messages. *)
Theorem dialogs_stay_well_formed {U : Unicode} env type messages
  (w1 : World V1.Session) (w2 : World V2.Session) :
  all_well_formed w1 = true ->
  all_well_formed w2 = true ->
  all_well_formed (final (V1_onMessagesUpsert env type messages w1)) = true /\
  all_well_formed (final (V2_onMessagesUpsert env type messages w2)) = true.
Proof.
  intros H1 H2. split.
  - apply all_well_formed_rows.
    apply (onMessagesUpsert_always _ _ isUserChat false
             (V1.handleClientMessage env) env type messages
             (fun msg => handleMessage_shape _ _ _ env msg
                (V1_client_shape env)) w1).
    now apply all_well_formed_rows.
  - apply all_well_formed_rows.
    apply (onMessagesUpsert_always _ _ isPrivateChat true
             (V2.handleClientMessage env) env type messages
             (fun msg => handleMessage_shape _ _ _ env msg
                (V2_client_shape env)) w2).
    now apply all_well_formed_rows.
Qed.

Lemma dialogs_stay_well_formed_witness :
  all_well_formed
    (final (V1_onMessagesUpsert (U:=Latin1) env (lit "notify") Desk.batch
              (v1_at V1.awaiting_offer))) = true /\
  all_well_formed
    (final (V2_onMessagesUpsert (U:=Latin1) env (lit "notify") Desk.batch
              (v2_choosing 1))) = true.
Proof.
  apply (dialogs_stay_well_formed (U:=Latin1) env (lit "notify") Desk.batch);
    vm_compute; reflexivity.
Defined.

(** X6. The steps of the funnel of [index.js]: one message keeps the
    step of its user, sets it to [idle], moves it to the next step or
    to the one before; no message moves a user to [awaiting_game]. *)
Theorem V1_step_graph {U : Unicode} env msg jid text (w : World V1.Session) :
  V1_move (V1_step_of w jid)
    (V1_step_of (final (V1.handleClientMessage env msg jid text w)) jid) = true.
Proof. apply V1_moves. Qed.

(** X7. The steps of the funnel of the fields file: one message keeps
    the step of its user, sets it to [idle], moves it from the game to
    the offers, from the offers to the fields, or from the fields back
    to the offers; no message moves a user to [awaiting_game]. *)
Theorem V2_step_graph {U : Unicode} env msg jid text (w : World V2.Session) :
  V2_move (V2_step_of w jid)
    (V2_step_of (final (V2.handleClientMessage env msg jid text w)) jid) = true.
Proof. apply V2_moves. Qed.

(** X8. A user at rest stays at rest: when the session of a user is at
    [idle], or the user has none, then after any batch of messages, of
    whomever, the session is at [idle] and no order was created in the
    name of the user.  The menu is sent at [idle] and the step is left
    as it is, in both files. *)
Theorem funnel_is_never_entered {U : Unicode} env type messages jid
  (w1 : World V1.Session) (w2 : World V2.Session) :
  V1_step_of w1 jid = V1.idle ->
  V2_step_of w2 jid = V2.idle ->
  let r1 := V1_onMessagesUpsert env type messages w1 in
  let r2 := V2_onMessagesUpsert env type messages w2 in
  (V1_step_of (final r1) jid = V1.idle /\ Forall (no_order_for jid) (calls r1)) /\
  (V2_step_of (final r2) jid = V2.idle /\ Forall (no_order_for jid) (calls r2)).
Proof.
  intros H1 H2 r1 r2. split.
  - exact (onMessagesUpsert_always _ _ isUserChat false
             (V1.handleClientMessage env) env type messages
             (V1_message_keeps_idle env jid) w1 H1).
  - exact (onMessagesUpsert_always _ _ isPrivateChat true
             (V2.handleClientMessage env) env type messages
             (V2_message_keeps_idle env jid) w2 H2).
Qed.

Lemma funnel_is_never_entered_witness :
  let r1 := V1_onMessagesUpsert (U:=Latin1) env (lit "notify") Desk.batch
              Desk.v1_resting in
  let r2 := V2_onMessagesUpsert (U:=Latin1) env (lit "notify") Desk.batch
              Desk.v2_resting in
  V1_step_of (final r1) user = V1.idle /\ V2_step_of (final r2) user = V2.idle.
Proof.
  cbn zeta.
  destruct (funnel_is_never_entered (U:=Latin1) env (lit "notify") Desk.batch
              user Desk.v1_resting Desk.v2_resting)
    as [[H1 _] [H2 _]]; try reflexivity.
  split; assumption.
Defined.

(** ** The further properties on the small catalog *)

(** A hypothesis on a concrete input, settled by evaluation. *)
Ltac evaluated :=
  first [lia | vm_compute; reflexivity | vm_compute; discriminate].

Lemma open_dialog_takes_the_message_witness :
  calls (V1_handleMessage (U:=Latin1) env
           (Desk.text_from admin "/listar juegos")
           (Desk.with_dialog (table_dialog []))) =
    [CGetAdminDialog admin;
     CSetAdminDialog admin (table_dialog [lit "/listar juegos"]);
     CSendMessage admin LineAdded].
Proof.
  destruct (open_dialog_takes_the_message (U:=Latin1) isUserChat false
              (V1.handleClientMessage (U:=Latin1) env) env
              (Desk.text_from admin "/listar juegos")
              (Desk.with_dialog (table_dialog [])) (table_dialog [])
              (mkMessageContent (Some (lit "/listar juegos")) None None false
                 None None))
    as [_ Hc]; [evaluated..|].
  etrans; [exact Hc|]. vm_compute. reflexivity.
Defined.

Lemma card_dialog_creates_card_witness :
  let w : World V1.Session :=
    Desk.with_dialog (mkDialog crear_tarjeta 1 DataEmpty) in
  let r := (exec handleAdminDialog (U:=Latin1) admin (keycap 2);
            exec handleAdminDialog (U:=Latin1) admin (lit "Banco");
            exec handleAdminDialog (U:=Latin1) admin (lit "9200 1111 2222 3333");
            handleAdminDialog (U:=Latin1) (Patch:=V1.Patch) admin
              (lit "55551234")) w in
  payment_methods (final r) =
    [mobileMethod;
     mkPaymentMethod 100 card 2 (lit "Banco")
       (mkDetails (Some (lit "9200111122223333")) (Some (lit "55551234")) None)].
Proof.
  cbn zeta.
  destruct (card_dialog_creates_card (U:=Latin1) (Sess:=V1.Session)
              (Patch:=V1.Patch) admin
              (keycap 2) (lit "Banco") (lit "9200 1111 2222 3333")
              (lit "55551234") 2
              (Desk.with_dialog (mkDialog crear_tarjeta 1 DataEmpty)))
    as (_ & H & _); [evaluated..|].
  exact H.
Defined.

Lemma balance_dialog_creates_balance_witness :
  let w : World V1.Session :=
    Desk.with_dialog (mkDialog crear_saldo 1 DataEmpty) in
  let r := (exec handleAdminDialog (U:=Latin1) admin (keycap 2);
            exec handleAdminDialog (U:=Latin1) admin (lit "Etecsa");
            handleAdminDialog (U:=Latin1) (Patch:=V1.Patch) admin
              (lit "53 5000 0000")) w in
  payment_methods (final r) =
    [mobileMethod;
     mkPaymentMethod 100 mobile 2 (lit "Etecsa")
       (mkDetails None None (Some (lit "5350000000")))].
Proof.
  cbn zeta.
  destruct (balance_dialog_creates_balance (U:=Latin1) (Sess:=V1.Session)
              (Patch:=V1.Patch) admin
              (keycap 2) (lit "Etecsa") (lit "53 5000 0000") 2
              (Desk.with_dialog (mkDialog crear_saldo 1 DataEmpty)))
    as (_ & H & _); [evaluated..|].
  exact H.
Defined.

Lemma creation_index_refused_witness :
  let w : World V1.Session :=
    Desk.with_dialog (mkDialog crear_tarjeta 1 DataEmpty) in
  handleAdminDialog (U:=Latin1) (Patch:=V1.Patch) admin (keycap 0) w =
    mkRun (Ok true) w
      [CGetAdminDialog admin; CSendMessage admin InvalidIndexOrCancel].
Proof.
  cbn zeta.
  apply (creation_index_refused (U:=Latin1) (Sess:=V1.Session)
              (Patch:=V1.Patch) admin (keycap 0)
           (Desk.with_dialog (mkDialog crear_tarjeta 1 DataEmpty)) DataEmpty);
    vm_compute; reflexivity.
Defined.

Lemma offer_edit_updates_offer_witness :
  let w : World V1.Session :=
    Desk.with_dialog (mkDialog editar_oferta 1 (DataEditOffer 11 (lit "Game A"))) in
  let r := (exec handleAdminDialog (U:=Latin1) admin (lit "110 gems");
            exec handleAdminDialog (U:=Latin1) admin (lit "120");
            exec handleAdminDialog (U:=Latin1) admin (lit "170");
            handleAdminDialog (U:=Latin1) (Patch:=V1.Patch) admin (lit "0")) w in
  offers (final r) =
    [mkOffer 11 1 1 (lit "110 gems") (Some 120) (Some 170) None;
     offer 12 1 2 "Y"; offer 13 1 3 "Z"; offer 21 2 1 "W"].
Proof.
  cbn zeta.
  destruct (offer_edit_updates_offer (U:=Latin1) (Sess:=V1.Session)
              (Patch:=V1.Patch) admin
              (lit "110 gems") (lit "120") (lit "170") (lit "0") 11
              (lit "Game A") 120 170
              (Desk.with_dialog
                 (mkDialog editar_oferta 1 (DataEditOffer 11 (lit "Game A")))))
    as (_ & H & _); [evaluated..|].
  exact H.
Defined.

Lemma offer_edit_price_refused_witness :
  let w : World V1.Session :=
    Desk.with_dialog
      (mkDialog editar_oferta 2
         (DataEditOfferDraft 11 (lit "Game A") (Some (lit "110 gems")) None None)) in
  handleAdminDialog (U:=Latin1) (Patch:=V1.Patch) admin (lit "gratis") w =
    mkRun (Ok true) w [CGetAdminDialog admin; CSendMessage admin InvalidPrice].
Proof.
  cbn zeta.
  apply (offer_edit_price_refused (U:=Latin1) (Sess:=V1.Session)
              (Patch:=V1.Patch) admin
           (lit "gratis") _ 11 (lit "Game A") (Some (lit "110 gems")) None None 2);
    [vm_compute; reflexivity | vm_compute; reflexivity |].
  left. split; [left; reflexivity | vm_compute; reflexivity].
Defined.

Lemma card_edit_keeps_card_number_witness :
  let w : World V1.Session :=
    Desk.with_card
      (Desk.with_dialog (mkDialog editar_metodo 1 (DataEditMethod 32 card (Some 1)))) in
  let r := (exec handleAdminDialog (U:=Latin1) admin (lit "BPA");
            exec handleAdminDialog (U:=Latin1) admin (lit "9999 8888 7777 6666");
            handleAdminDialog (U:=Latin1) (Patch:=V1.Patch) admin (lit "777")) w in
  payment_methods (final r) =
    [mobileMethod;
     mkPaymentMethod 32 card 1 (lit "BPA")
       (mkDetails (Some (lit "9200111122223333")) (Some (lit "777")) None)].
Proof.
  cbn zeta.
  destruct (card_edit_keeps_card_number (U:=Latin1) (Sess:=V1.Session)
              (Patch:=V1.Patch) admin
              (lit "BPA") (lit "9999 8888 7777 6666") (lit "777") 32 (Some 1)
              Desk.cardMethod
              (Desk.with_card
                 (Desk.with_dialog
                    (mkDialog editar_metodo 1 (DataEditMethod 32 card (Some 1))))))
    as (_ & H & _); [evaluated..|].
  exact H.
Defined.

Lemma balance_edit_merges_phone_witness :
  let w : World V1.Session :=
    Desk.with_dialog (mkDialog editar_metodo 1 (DataEditMethod 31 mobile (Some 1))) in
  let r := (exec handleAdminDialog (U:=Latin1) admin (lit "Etecsa");
            handleAdminDialog (U:=Latin1) (Patch:=V1.Patch) admin
              (lit "53 5000 0000")) w in
  payment_methods (final r) =
    [mkPaymentMethod 31 mobile 1 (lit "Etecsa")
       (mkDetails None None (Some (lit "5350000000")))].
Proof.
  cbn zeta.
  destruct (balance_edit_merges_phone (U:=Latin1) (Sess:=V1.Session)
              (Patch:=V1.Patch) admin
              (lit "Etecsa") (lit "53 5000 0000") 31 (Some 1) mobileMethod
              (Desk.with_dialog
                 (mkDialog editar_metodo 1 (DataEditMethod 31 mobile (Some 1)))))
    as (_ & H & _); [evaluated..|].
  exact H.
Defined.

Lemma edited_method_gone_witness :
  let w : World V1.Session :=
    Desk.with_dialog
      (mkDialog editar_metodo 2
         (DataEditMethodDraft 99 card (Some 1) (Some (lit "BPA")))) in
  admin_dialogs
    (final (handleAdminDialog (U:=Latin1) (Patch:=V1.Patch) admin
              (lit "9999") w)) = ∅.
Proof.
  cbn zeta.
  rewrite (edited_method_gone (U:=Latin1) (Sess:=V1.Session)
              (Patch:=V1.Patch) admin (lit "9999")
             _ 99 card (Some 1) (Some (lit "BPA")) 2);
    try (vm_compute; reflexivity).
  left. reflexivity.
Defined.

Lemma game_edit_renames_witness :
  let w : World V1.Session :=
    Desk.with_dialog (mkDialog editar_juego 1 (DataEditGame 1 (Some 1))) in
  games (final (handleAdminDialog (U:=Latin1) (Patch:=V1.Patch) admin
                  (lit " /cancelar ") w)) =
    [mkGame 1 1 (lit "/cancelar") []; gameB].
Proof.
  cbn zeta.
  destruct (game_edit_renames (U:=Latin1) (Sess:=V1.Session)
              (Patch:=V1.Patch) admin
              (lit " /cancelar ")
              (Desk.with_dialog (mkDialog editar_juego 1 (DataEditGame 1 (Some 1))))
              1 (Some 1))
    as (_ & H); [evaluated..|].
  vm_compute in H. destruct H as (H & _). exact H.
Defined.

Lemma V1_order_needs_stored_attachment_witness :
  exists url,
    storeScreenshot env (lit "screenshots/REQ-1700000000000-7.png") = Some url.
Proof.
  destruct (V1_order_needs_stored_attachment (U:=Latin1) env with_image user
              (lit "listo") v1_paying (Some (lit "REQ-1700000000000-7"))
              (mkRequest user (lit "Game A") (lit "X") (lit "Cubacel")
                 (DetailsOfMethod (m_details mobileMethod))
                 (Some (lit "https://storage/recargas/screenshots/REQ-1700000000000-7.png"))
                 pending None))
    as (s & url & Hs & _ & _ & Hu & _).
  - vm_compute. repeat first [left; reflexivity | right].
  - vm_compute in Hs. injection Hs as <-. exists url. exact Hu.
Defined.

Lemma V1_no_order_without_upload_witness :
  V1.handleClientMessage (U:=Latin1) env text_only user (lit "listo") v1_paying =
    mkRun (Ok tt) v1_paying
      [CGetUserSession user;
       CSendMessage user (WithCancelHint ScreenshotRequired)].
Proof.
  apply (V1_no_order_without_upload (U:=Latin1) env text_only user
           (lit "listo") v1_paying
           (V1.mkSession V1.awaiting_screenshot (Some 1) (Some 11)
              (Some mobile) (Some 1) (Some (lit "REQ-1700000000000-7"))));
    vm_compute; reflexivity.
Defined.

Lemma V2_order_only_after_offers_witness :
  V2_step_of (v2_choosing 1) user = V2.awaiting_offers \/
  V2_step_of (v2_choosing 1) user = V2.awaiting_fields.
Proof.
  destruct (V2_order_only_after_offers (U:=Latin1) env text_only user
              (lit "1") (v2_choosing 1) (Some (lit "REQ-1700000000000-7"))
              (mkRequest user (lit "Game A") (lit "X") (lit "pendiente")
                 (DetailsOfFields (Some ∅)) None pending None))
    as (H & _).
  - vm_compute. repeat first [left; reflexivity | right].
  - exact H.
Defined.



(** ** The loop over the messages *)

Lemma handleMessage_returns {Sess Patch} {U : Unicode} isPrivate b
  (client : Inbound -> jsstring -> jsstring -> M Sess Patch unit) env msg w :
  outcome (handleMessage isPrivate b client env msg w) = Ok tt.
Proof.
  unfold handleMessage, try_catch.
  match goal with |- context [match ?m w with _ => _ end] =>
    destruct (m w) as [[[]|e] w1 l1] end; reflexivity.
Qed.

Lemma handleMessage_then {Sess Patch A} {U : Unicode} isPrivate b
  (client : Inbound -> jsstring -> jsstring -> M Sess Patch unit) env msg
  (k : unit -> M Sess Patch A) w :
  bind (handleMessage isPrivate b client env msg) k w =
    let r0 := handleMessage isPrivate b client env msg w in
    let r' := k tt (final r0) in
    mkRun (outcome r') (final r') (calls r0 ++ calls r').
Proof.
  unfold bind.
  pose proof (handleMessage_returns isPrivate b client env msg w) as Hr.
  destruct (handleMessage isPrivate b client env msg w) as [o w1 l1].
  cbn in Hr. subst o. cbn. now destruct (k tt w1).
Qed.

(** X24. A batch is handled to its end: the failure of one message is
    caught and logged, so the messages after it are handled as if they
    came alone, from the world the messages before them left. *)
Theorem batch_is_handled_to_the_end {Sess Patch} {U : Unicode} isPrivate b
  (client : Inbound -> jsstring -> jsstring -> M Sess Patch unit) env
  msgs1 msgs2 w :
  let r1 := handleMessages isPrivate b client env msgs1 w in
  let r2 := handleMessages isPrivate b client env msgs2 (final r1) in
  let r := handleMessages isPrivate b client env (msgs1 ++ msgs2) w in
  outcome r1 = Ok tt /\
  outcome r = outcome r2 /\ final r = final r2 /\ calls r = calls r1 ++ calls r2.
Proof.
  cbn zeta. revert w. induction msgs1 as [|msg rest IH]; intros w.
  - cbn. now repeat split.
  - cbn [handleMessages app]. rewrite !handleMessage_then. cbn.
    destruct (IH (final (handleMessage isPrivate b client env msg w)))
      as (H1 & H2 & H3 & H4).
    rewrite H1, H2, H3, H4, app_assoc. now repeat split.
Qed.

(** X25. The two tests of a private chat: a chat that [index.js]
    serves, its identifier ending in [@s.whatsapp.net], is served by
    the fields file too, unless the identifier holds [@broadcast]. *)
Theorem user_chats_are_private jid :
  isUserChat jid = true ->
  includes (lit "@broadcast") jid = false ->
  isPrivateChat jid = true.
Proof.
  unfold isUserChat, isPrivateChat, endsWith. intros Hu ->.
  rewrite andb_true_r. apply negb_true_iff.
  change (rev (lit "@s.whatsapp.net")) with
    (116%N :: rev (lit "@s.whatsapp.ne")) in Hu.
  change (rev (lit "@g.us")) with (115%N :: rev (lit "@g.u")).
  destruct (rev jid) as [|c l]; [discriminate Hu|].
  cbn [is_prefix] in *. apply andb_true_iff in Hu as [Hc _].
  apply N.eqb_eq in Hc. subst c. reflexivity.
Qed.

Lemma user_chats_are_private_witness :
  isPrivateChat Scenario.user = true.
Proof. apply user_chats_are_private; vm_compute; reflexivity. Defined.

(** ** From the choice to the order *)

Section Checkout.

Context {U : Unicode}.

(** X26. In [index.js] the order carries the identifier the user was
    shown: when a user at the step of the payment method picks a
    method that exists, the payment data are sent with a new
    identifier, and the screenshot that follows, once stored, creates
    the pending order under that same identifier, for the game, the
    offer and the method of the session; the session is then
    cleared. *)
Theorem V1_order_under_shown_identifier env1 env2 msg1 msg2 jid t1 t2
  (w : World V1.Session) s n g o m url :
  user_sessions w !! jid = Some s ->
  V1.step s = V1.awaiting_payment_choice ->
  is_cancel_word t1 || eqb (toLowerCase (trim t1)) (lit "volver") = false ->
  is_cancel_word t2 || eqb (toLowerCase (trim t2)) (lit "volver") = false ->
  emojiToNumber t1 = Some n -> n <> 0 ->
  methods_numbered (V1.selected_payment_type s) (Some n) w = [m] ->
  games_numbered (V1.selected_game s) w = [g] ->
  offers_with_id (V1.selected_offer_id s) w = [o] ->
  imageMessage msg2 || documentMessage msg2 = true ->
  let id := generateRequestId env1 in
  storeScreenshot env2 (lit "screenshots/" ++ id ++ lit ".png") = Some url ->
  requests w !! id = None ->
  let r1 := V1.handleClientMessage env1 msg1 jid t1 w in
  let r2 := V1.handleClientMessage env2 msg2 jid t2 (final r1) in
  omap sent (calls r1) = [(jid, PaymentInfo id g o m)] /\
  requests (final r2) =
    <[id := mkRequest jid (g_name g) (o_description o) (m_label m)
              (DetailsOfMethod (m_details m)) (Some url) pending None]>
      (requests w) /\
  user_sessions (final r2) !! jid = Some V1.cleared /\
  omap sent (calls r2) =
    [(ADMIN_JID env2,
      NewRequest (Some id) (userNumber jid) (g_name g) (o_description o)
        (m_label m) url);
     (jid, RequestSent (Some id))].
Proof.
  intros Hs Hst [Hc1 Hv1]%orb_false_iff [Hc2 Hv2]%orb_false_iff Hn Hz Hm Hg Ho
    Ha id Hu Hfresh r1 r2. subst r1 r2.
  unfold is_cancel_word in Hc1, Hc2.
  unfold methods_numbered in Hm. unfold games_numbered in Hg.
  unfold offers_with_id in Ho.
  assert (Hf : falsy (Some n) = false) by (unfold falsy; now apply Z.eqb_neq).
  unfold V1.handleClientMessage, V1.submitScreenshot.
  pose proof Hm as Hm'. cbn in Hm'.
  run. rewrite Hs. run. rewrite Hc1, Hv1, Hst. run. rewrite Hn, Hf. run.
  rewrite Hm'. run. rewrite Hg. run. rewrite Ho. run.
  rewrite lookup_alter_eq, Hs. run. rewrite Hc2, Hv2. run.
  assert (Hn' : negb (imageMessage msg2) && negb (documentMessage msg2) = false)
    by (destruct (imageMessage msg2), (documentMessage msg2);
        first [reflexivity | discriminate Ha]).
  rewrite Hn'. run. fold id. unfold interpolate. rewrite Hu. run.
  rewrite Hg. run. rewrite Ho. run.
  rewrite Hm'. run.
  rewrite Hfresh. run.
  rewrite !lookup_alter_eq, Hs. now repeat split.
Qed.


End Checkout.

Lemma V1_order_under_shown_identifier_witness :
  let r1 := V1.handleClientMessage (U:=Latin1) env text_only user (keycap 1)
              Desk.v1_choosing_method in
  omap sent (calls r1) =
    [(user,
      PaymentInfo (lit "REQ-1700000000000-7") gameA (offer 11 1 1 "X")
        mobileMethod)].
Proof.
  cbn zeta.
  destruct (V1_order_under_shown_identifier (U:=Latin1) env env text_only
              with_image user (keycap 1) (lit "listo") Desk.v1_choosing_method
              (V1.mkSession V1.awaiting_payment_choice (Some 1) (Some 11)
                 (Some mobile) None None)
              1 gameA (offer 11 1 1 "X") mobileMethod
              (lit "https://storage/recargas/screenshots/REQ-1700000000000-7.png"))
    as (H & _); [evaluated..|].
  exact H.
Defined.

